(** * Offline conda update packager: a shallow embedding of
      [conda_package_gatherer.py] and the properties of its pipeline.

    The module has four functions: [download_and_save_package],
    [fetch_packages], [solve_for_packages] and
    [generate_offline_install_package].  They are embedded below as functions
    in a state-and-exception monad over a small model of the host (file
    system, event trace) and of the external collaborators (conda, the
    solver, HTTP, pip, the YAML parser), which are fields of a [Host]
    record.

    The disk is a map from paths to directories and files.  Which paths lie
    above a path is the host's business ([ancestors]), as joining paths is;
    a file is written into the directory that is the first argument of
    [os.path.join], its name being a plain file name.

    What the model leaves out: log lines; floats and non-string dictionary
    keys among Python values; sharing of objects in a YAML document other
    than between entries of the [dependencies] list; permissions and the
    space left on the disk; a descriptor path that runs through a regular
    file (it is reported as missing); the files that pip itself writes; the
    bound of ten workers of the pool, which limits how many downloads are in
    flight and not which of them run. *)

From Stdlib Require Import ZArith Ascii String List Permutation Lia.
From stdpp Require Import base option list strings gmap.

Set Warnings "-register-all".
Local Open Scope string_scope.
Local Open Scope list_scope.

(** ** Python values

    What [yaml.safe_load], [json.loads] and the caller's dictionary hand to
    the program.  Dictionaries are association lists in insertion order with
    string keys (the only keys an environment descriptor uses); floats are
    left out. *)

Inductive pyval : Type :=
| PNone : pyval
| PBool : bool -> pyval
| PInt : Z -> pyval
| PStr : string -> pyval
| PList : list pyval -> pyval
| PDict : list (string * pyval) -> pyval.

Module PyDict.

(** [d.get(k)] on an insertion-ordered dictionary. *)
Fixpoint get {V : Type} (d : list (string * V)) (k : string) : option V :=
  match d with
  | [] => None
  | (k', v) :: d' => if String.eqb k' k then Some v else get d' k
  end.

(** [del d[k]]: the dictionary without the key. *)
Fixpoint remove {V : Type} (d : list (string * V)) (k : string)
  : list (string * V) :=
  match d with
  | [] => []
  | (k', v) :: d' => if String.eqb k' k then remove d' k else (k', v) :: remove d' k
  end.

(** [d[k] = v]: an existing key keeps its position and takes the new
    value, a new key goes to the end. *)
Fixpoint set {V : Type} (d : list (string * V)) (k : string) (v : V)
  : list (string * V) :=
  match d with
  | [] => [(k, v)]
  | (k', v') :: d' =>
      if String.eqb k' k then (k', v) :: d' else (k', v') :: set d' k v
  end.

Definition keys {V : Type} (d : list (string * V)) : list string := map fst d.
Definition values {V : Type} (d : list (string * V)) : list V := map snd d.

End PyDict.

(** Python's [==] on these values: [True == 1], lists compare element by
    element, dictionaries compare as maps (order of insertion is ignored). *)
Fixpoint py_eq (a b : pyval) {struct a} : bool :=
  match a, b with
  | PNone, PNone => true
  | PBool x, PBool y => Bool.eqb x y
  | PBool x, PInt y => Z.eqb (Z.b2z x) y
  | PInt x, PBool y => Z.eqb x (Z.b2z y)
  | PInt x, PInt y => Z.eqb x y
  | PStr x, PStr y => String.eqb x y
  | PList xs, PList ys =>
      (fix go (xs ys : list pyval) {struct xs} : bool :=
         match xs, ys with
         | [], [] => true
         | x :: xs', y :: ys' => py_eq x y && go xs' ys'
         | _, _ => false
         end) xs ys
  | PDict d, PDict e =>
      Nat.eqb (length d) (length e) &&
      (fix go (d : list (string * pyval)) {struct d} : bool :=
         match d with
         | [] => true
         | (k, v) :: d' =>
             match PyDict.get e k with
             | Some w => py_eq v w
             | None => false
             end && go d'
         end) d
  | _, _ => false
  end.

Definition is_none (v : pyval) : bool :=
  match v with PNone => true | _ => false end.


(** Truth value of a Python object, as [if x:] tests it. *)
Definition truthy (v : pyval) : bool :=
  match v with
  | PNone => false
  | PBool b => b
  | PInt z => negb (Z.eqb z 0)
  | PStr s => negb (String.eqb s "")
  | PList l => match l with [] => false | _ => true end
  | PDict d => match d with [] => false | _ => true end
  end.

(** The characters of a string, each as a one-character string. *)
Fixpoint chars (s : string) : list string :=
  match s with
  | EmptyString => []
  | String c s' => String c EmptyString :: chars s'
  end.

(** Iterating a Python value ([for p in x], [*x]): lists give their items,
    strings their characters, dictionaries their keys; anything else is a
    [TypeError] ([None] here). *)
Definition py_iter (v : pyval) : option (list pyval) :=
  match v with
  | PList l => Some l
  | PStr s => Some (map PStr (chars s))
  | PDict d => Some (map PStr (PyDict.keys d))
  | _ => None
  end.

(** ** Input Normalizer (lines 86-100) *)

Module Normalizer.

(** [isinstance(p, dict) and p.get('pip') is not None] *)
Definition has_pip (p : pyval) : bool :=
  match p with
  | PDict d =>
      match PyDict.get d "pip" with
      | Some v => negb (is_none v)
      | None => false
      end
  | _ => false
  end.

Fixpoint first_index {A : Type} (f : A -> bool) (l : list A) : option nat :=
  match l with
  | [] => None
  | x :: l' => if f x then Some 0 else S <$> first_index f l'
  end.

(** [for p in reversed(packages)]: the position, in [packages], of the
    first entry the reversed scan stops at. *)
Definition reversed_scan (packages : list pyval) : option nat :=
  (fun k => length packages - 1 - k) <$> first_index has_pip (rev packages).

(** Entries of one list can be one object: an alias in the YAML document
    puts the dictionary it names, not a copy, at a second place.  [same i j]
    says that the document has one object at the places [i] and [j] of the
    list; two places are taken as one object only when they also hold the
    same value.  Entry [i], holding [x], is the object found at [j], which
    holds [p]: *)
Definition is_object (same : nat -> nat -> bool) (j : nat) (p : pyval)
    (i : nat) (x : pyval) : bool :=
  Nat.eqb i j || (same i j && py_eq x p).

(** The list with a mark on every entry that is the object found at [j]. *)
Fixpoint mark_from (same : nat -> nat -> bool) (j : nat) (p : pyval) (i : nat)
    (l : list pyval) : list (bool * pyval) :=
  match l with
  | [] => []
  | x :: l' => (is_object same j p i x, x) :: mark_from same j p (S i) l'
  end.

(** [p.pop('pip')] changes the object: every marked entry now holds [p']. *)
Definition pop (p' : pyval) (l : list (bool * pyval)) : list (bool * pyval) :=
  map (fun bx : bool * pyval => if fst bx then (true, p') else bx) l.

(** [packages.remove(p)]: the first item that is [p] itself or compares
    equal to it goes.  [None] stands for the [ValueError] of a value that
    is not in the list. *)
Fixpoint list_remove (p' : pyval) (l : list (bool * pyval))
  : option (list pyval) :=
  match l with
  | [] => None
  | bx :: l' =>
      if fst bx || py_eq (snd bx) p' then Some (map snd l')
      else cons (snd bx) <$> list_remove p' l'
  end.

(** The loop of lines 91-97 on the [dependencies] list.  The dictionary
    found is changed in place by [p.pop('pip')] before [remove] looks for
    it, so the list searched holds the popped dictionary wherever that
    object is. *)
Definition split_dependencies (same : nat -> nat -> bool) (packages : list pyval)
  : option (list pyval * pyval) :=
  match reversed_scan packages with
  | None => Some (packages, PNone)
  | Some j =>
      match packages !! j with
      | Some (PDict d) =>
          match PyDict.get d "pip" with
          | Some pip_dependencies =>
              let p' := PDict (PyDict.remove d "pip") in
              match list_remove p' (pop p' (mark_from same j (PDict d) 0 packages)) with
              | Some packages' => Some (packages', pip_dependencies)
              | None => None
              end
          | None => None
          end
      | _ => None
      end
  end.

End Normalizer.

(** ** The host: file system, events, exceptions *)

Inductive exn : Type :=
| FileNotFoundError (path : string)
| FileExistsError (path : string)
| IsADirectoryError (path : string)
| NotADirectoryError (path : string)
| YAMLError
| KeyError (key : string)
| TypeError
| ValueError
| SolverError (msg : string)
| CalledProcessError (code : Z)
| RequestException (url : string).

Inductive node : Type :=
| Dir
| File (content : string).

(** What a run does to the outside world, in the order it does it.  Log
    lines are not recorded. *)
Inductive event : Type :=
| EvMakedirs (path : string)
| EvSolve (prefix channels : pyval) (specs : list pyval)
| EvGet (url : string)
| EvSave (path content : string)
| EvPipDownload (args : list string) (target : string) (code : Z)
| EvWrite (path content : string)
| EvArchive (archive root : string).

(** A resolved package, as far as the program looks at it: [pkg.url] and
    [pkg.fn]. *)
Record PackageRecord : Type := { url : string; fn : string }.

(** The external collaborators and the platform. *)
Record Host : Type := {
  os_name : string;                                   (* os.name *)
  abspath : string -> string;                         (* os.path.abspath *)
  path_join : string -> string -> string;             (* os.path.join *)
  ancestors : string -> list string;                  (* the directories above a path,
                                                         nearest first *)
  yaml_safe_load : string -> option pyval;            (* None: a YAML error *)
  yaml_aliases : string -> nat -> nat -> bool;        (* places of the dependencies
                                                         list that are one object *)
  conda_info : pyval;                                 (* parsed `conda info --json` *)
  solver : pyval -> pyval -> list pyval ->
           string + (list PackageRecord * list PackageRecord);
                                                      (* MatchSpec, Solver, solve_for_diff *)
  http_get : string -> option string;                 (* None: requests.get raises *)
  pip_download : list string -> string -> Z;          (* exit status of `pip download` *)
  zip_of : string -> string;                          (* bytes of the archive of a tree *)
  schedule : list nat                                 (* the pool's choices among pending tasks *)
}.

Record Outcome (A : Type) : Type := {
  res : exn + A;
  disk : gmap string node;
  events : list event
}.
Arguments res {A} _.
Arguments disk {A} _.
Arguments events {A} _.

(** State (the disk), output (the events) and exceptions.  An exception
    leaves the disk as it was when it was raised: nothing is rolled back. *)
Definition M (A : Type) : Type := gmap string node -> Outcome A.

Definition ret {A : Type} (a : A) : M A :=
  fun fs => {| res := inr a; disk := fs; events := [] |}.

Definition raise {A : Type} (e : exn) : M A :=
  fun fs => {| res := inl e; disk := fs; events := [] |}.

Definition bind {A B : Type} (m : M A) (k : A -> M B) : M B :=
  fun fs =>
    let o := m fs in
    match res o with
    | inl e => {| res := inl e; disk := disk o; events := events o |}
    | inr a =>
        let o' := k a (disk o) in
        {| res := res o'; disk := disk o'; events := events o ++ events o' |}
    end.

Notation "x <~ m ;; k" := (bind m (fun x => k))
  (at level 100, m at next level, right associativity).
Notation "m ;;; k" := (bind m (fun _ => k))
  (at level 100, right associativity).

Definition emit (e : event) : M unit :=
  fun fs => {| res := inr tt; disk := fs; events := [e] |}.

Definition lift_option {A : Type} (e : exn) (o : option A) : M A :=
  match o with Some a => ret a | None => raise e end.

(** The directories above [child] that are missing, nearest first, up to
    the first one that is there.  A regular file among them stops
    [os.makedirs]: the [mkdir] of the entry just below it raises. *)
Fixpoint missing_ancestors (fs : gmap string node) (child : string)
    (above : list string) : exn + list string :=
  match above with
  | [] => inr []
  | a :: above' =>
      match fs !! a with
      | Some Dir => inr []
      | Some (File _) => inl (NotADirectoryError child)
      | None =>
          match missing_ancestors fs a above' with
          | inl e => inl e
          | inr l => inr (a :: l)
          end
      end
  end.

Definition make_all (dirs : list string) (fs : gmap string node)
  : gmap string node :=
  foldr (fun d acc => <[d := Dir]> acc) fs dirs.

(** [os.makedirs(path, exist_ok=exist_ok)]: the missing directories above
    [path] are made on the way, nothing is made when a regular file is among
    them, and a file at [path] is an error whatever [exist_ok] says. *)
Definition makedirs (h : Host) (path : string) (exist_ok : bool) : M unit :=
  fun fs =>
    match fs !! path with
    | None =>
        match missing_ancestors fs path (ancestors h path) with
        | inl e => {| res := inl e; disk := fs; events := [EvMakedirs path] |}
        | inr missing =>
            {| res := inr tt; disk := <[path := Dir]> (make_all missing fs);
               events := [EvMakedirs path] |}
        end
    | Some Dir =>
        {| res := if exist_ok then inr tt else inl (FileExistsError path);
           disk := fs; events := [EvMakedirs path] |}
    | Some (File _) =>
        {| res := inl (FileExistsError path); disk := fs; events := [EvMakedirs path] |}
    end.

(** Writing the whole of a file at [path]: the file is created or replaced;
    a directory at that path is an error. *)
Definition store_file (ev : string -> string -> event) (path content : string)
  : M unit :=
  fun fs =>
    match fs !! path with
    | Some Dir => {| res := inl (IsADirectoryError path); disk := fs; events := [] |}
    | _ => {| res := inr tt; disk := <[path := File content]> fs;
              events := [ev path content] |}
    end.

(** [open] creates a file only in a directory that is there. *)
Definition require_directory (dir path : string) : M unit :=
  fun fs =>
    match fs !! dir with
    | Some Dir => {| res := inr tt; disk := fs; events := [] |}
    | Some (File _) =>
        {| res := inl (NotADirectoryError path); disk := fs; events := [] |}
    | None => {| res := inl (FileNotFoundError path); disk := fs; events := [] |}
    end.

(** [with open(os.path.join(dir, name), 'w') as f: f.write(content)]; [ev]
    is the event the write is recorded as. *)
Definition write_file (ev : string -> string -> event) (h : Host)
    (dir name content : string) : M unit :=
  require_directory dir (path_join h dir name) ;;;
  store_file ev (path_join h dir name) content.

(** [with open(path) as f: ...] *)
Definition read_file (path : string) : M string :=
  fun fs =>
    match fs !! path with
    | Some (File c) => {| res := inr c; disk := fs; events := [] |}
    | Some Dir => {| res := inl (IsADirectoryError path); disk := fs; events := [] |}
    | None => {| res := inl (FileNotFoundError path); disk := fs; events := [] |}
    end.

(** [v[k]] *)
Definition getitem (v : pyval) (k : string) : M pyval :=
  match v with
  | PDict d => lift_option (KeyError k) (PyDict.get d k)
  | _ => raise TypeError
  end.

(** ** Artifact Fetcher (lines 19-49) *)

Definition download_and_save_package (h : Host)
    (url package_name download_directory : string) : M unit :=
  emit (EvGet url) ;;;
  data <~ lift_option (RequestException url) (http_get h url) ;;
  write_file EvSave h download_directory package_name data.

(** [executor.submit(task)]: the task runs in a worker; what it raises is
    kept in the future that [submit] returns, and [fetch_packages] drops
    that future. *)
Definition submit (task : M unit) : M unit :=
  fun fs =>
    let o := task fs in
    {| res := inr tt; disk := disk o; events := events o |}.

(** The order in which the pool's tasks take effect.  Each pick chooses one
    of the tasks still pending, so the result is the submitted tasks in some
    order.  A task's request and its write are taken as one step. *)
Fixpoint pool_order {A : Type} (n : nat) (picks : list nat) (pending : list A)
  : list A :=
  match n with
  | O => []
  | S n' =>
      match pending with
      | [] => []
      | t :: _ =>
          let i := Nat.modulo (hd 0%nat picks) (length pending) in
          nth i pending t
            :: pool_order n' (tl picks) (take i pending ++ drop (S i) pending)
      end
  end.

Fixpoint run_all (tasks : list (M unit)) : M unit :=
  match tasks with
  | [] => ret tt
  | t :: tasks' => submit t ;;; run_all tasks'
  end.

(** [with ThreadPoolExecutor(max_workers=10) as executor: ...]: leaving the
    block waits for every submitted task. *)
Definition fetch_packages (h : Host) (urls : list (string * string))
    (download_directory : string) : M unit :=
  run_all
    (map (fun up => download_and_save_package h (fst up) (snd up) download_directory)
         (pool_order (length urls) (schedule h) urls)).

(** ** Conda Resolver Adapter (lines 52-64) *)

(** Line 62. *)
Definition select_prefix (info : pyval) : M pyval :=
  active_prefix <~ getitem info "active_prefix" ;;
  if py_eq active_prefix (PStr "null")
  then getitem info "conda_prefix"
  else ret active_prefix.

Definition solve_for_packages (h : Host) (packages : pyval)
  : M (list PackageRecord * list PackageRecord) :=
  specs_to_add <~ lift_option TypeError (py_iter packages) ;;
  let info := conda_info h in
  prefix <~ select_prefix info ;;
  channels <~ getitem info "channels" ;;
  emit (EvSolve prefix channels specs_to_add) ;;;
  match solver h prefix channels specs_to_add with
  | inl msg => raise (SolverError msg)
  | inr diff => ret diff
  end.

(** ** Bundle Writer (lines 67-142) *)

(** The first argument: a path to an environment file or a dictionary. *)
Inductive packages_arg : Type :=
| Path (p : string)
| Mapping (d : list (string * pyval)).

Record Options : Type := {
  package_location : string;
  install_package_name : string;
  compress : bool;
  exist_ok : bool;
  script_preamble : option string
}.

(** The defaults of the signature. *)
Definition default_options : Options :=
  {| package_location := "."; install_package_name := "package";
     compress := false; exist_ok := true; script_preamble := None |}.

(** [d.get(k)], which is [None] for a missing key. *)
Definition dict_get_or_none (d : list (string * pyval)) (k : string) : pyval :=
  match PyDict.get d k with Some v => v | None => PNone end.

(** Lines 86-100: the pair [(conda_dependencies, pip_dependencies)].
    [reversed] and the loop also accept a string or a dictionary as
    [dependencies]; none of their items is a dictionary, so nothing is
    removed. *)
Definition normalize (h : Host) (packages : packages_arg) : M (pyval * pyval) :=
  match packages with
  | Path p =>
      text <~ read_file p ;;
      data <~ lift_option YAMLError (yaml_safe_load h text) ;;
      deps <~ getitem data "dependencies" ;;
      match deps with
      | PList l =>
          match Normalizer.split_dependencies (yaml_aliases h text) l with
          | Some (conda_dependencies, pip_dependencies) =>
              ret (PList conda_dependencies, pip_dependencies)
          | None => raise ValueError
          end
      | PStr _ | PDict _ => ret (deps, PNone)
      | _ => raise TypeError
      end
  | Mapping d => ret (dict_get_or_none d "conda", dict_get_or_none d "pip")
  end.

(** [{pkg.url: pkg.fn for pkg in item_list}] *)
Definition packages_to_fetch (item_list : list PackageRecord)
  : list (string * string) :=
  fold_left (fun d pkg => PyDict.set d (url pkg) (fn pkg)) item_list [].

(** [[f'conda/{v}' for v in packages_to_fetch.values()]] *)
Definition conda_listing (to_fetch : list (string * string)) : list string :=
  map (fun v => "conda/" +:+ v) (PyDict.values to_fetch).

(** Lines 104-111. *)
Definition conda_phase (h : Host) (o : Options) (install_path : string)
    (conda_dependencies : pyval) : M (option (list string)) :=
  if is_none conda_dependencies then ret None
  else
    let conda_packages_location := path_join h install_path "conda" in
    makedirs h conda_packages_location (exist_ok o) ;;;
    diff <~ solve_for_packages h conda_dependencies ;;
    let to_fetch := packages_to_fetch (snd diff) in
    let conda_package_listing := conda_listing to_fetch in
    fetch_packages h to_fetch conda_packages_location ;;;
    ret (Some conda_package_listing).

(** The arguments of a subprocess are strings. *)
Fixpoint as_strings (l : list pyval) : option (list string) :=
  match l with
  | [] => Some []
  | PStr s :: l' => cons s <$> as_strings l'
  | _ => None
  end.

(** [subprocess.check_call([sys.executable, '-m', 'pip', 'download', *args,
    '-d', target])] *)
Definition pip_check_call (h : Host) (args : list string) (target : string)
  : M unit :=
  let code := pip_download h args target in
  emit (EvPipDownload args target code) ;;;
  if Z.eqb code 0 then ret tt else raise (CalledProcessError code).

(** What the loop of lines 118-119 writes. *)
Definition requirements_text (pip_dependencies : list string) : string :=
  fold_left (fun text p => text +:+ p) pip_dependencies "".

(** Lines 112-119. *)
Definition pip_phase (h : Host) (o : Options) (install_path : string)
    (pip_dependencies : pyval) : M unit :=
  if truthy pip_dependencies then
    let pip_packages_location := path_join h install_path "pip" in
    makedirs h pip_packages_location (exist_ok o) ;;;
    items <~ lift_option TypeError (py_iter pip_dependencies) ;;
    args <~ lift_option TypeError (as_strings items) ;;
    pip_check_call h args (path_join h pip_packages_location "downloaded") ;;;
    write_file EvWrite h pip_packages_location "requirements.txt"
      (requirements_text args)
  else ret tt.

(** The character written for '\n'. *)
Definition newline : string := String (ascii_of_nat 10) EmptyString.

(** Lines 120-129. *)
Definition is_nt (h : Host) : bool := String.eqb (os_name h) "nt".
Definition update_file (h : Host) : string :=
  if is_nt h then "update.bat" else "update.sh".
Definition comment_mark (h : Host) : string := if is_nt h then "::" else "#".
Definition file_mark (h : Host) : string :=
  if is_nt h then "" else "#!/bin/bash" +:+ newline.
Definition command_prepend (h : Host) : string := if is_nt h then "call " else "".

(** [" ".join(l)] *)
Definition join_spaces (l : list string) : string := String.concat " " l.

(** Lines 132-134. *)
Definition preamble_text (o : Options) : string :=
  match script_preamble o with
  | Some pre => pre +:+ newline
  | None => ""
  end.

(** Lines 135-137. *)
Definition conda_text (h : Host) (conda_package_listing : option (list string))
  : string :=
  match conda_package_listing with
  | Some listing =>
      (comment_mark h +:+ " install conda packages" +:+ newline)
      +:+ (command_prepend h +:+ "conda install " +:+ join_spaces listing
           +:+ " --offline" +:+ newline)
  | None => ""
  end.

(** The two writes of lines 139-140. *)
Definition pip_section (h : Host) : string :=
  (comment_mark h +:+ " install pip packages" +:+ newline)
  +:+ (command_prepend h
       +:+ "pip install --no-index --find-links=pip/downloaded -r pip/requirements.txt"
       +:+ newline).

(** Lines 138-140. *)
Definition pip_text (h : Host) (pip_dependencies : pyval) : string :=
  if is_none pip_dependencies then "" else pip_section h.

(** Lines 131-140: the text the writes to [up] add up to. *)
Definition script_text (h : Host) (o : Options)
    (conda_package_listing : option (list string)) (pip_dependencies : pyval)
  : string :=
  file_mark h +:+ preamble_text o +:+ conda_text h conda_package_listing
  +:+ pip_text h pip_dependencies.

(** [shutil.make_archive(install_path, 'zip', install_path)]: the archive
    goes next to the bundle directory, in the directory that
    [os.makedirs(install_path)] has found or made. *)
Definition make_archive (h : Host) (install_path : string) : M unit :=
  store_file (fun archive _ => EvArchive archive install_path)
    (install_path +:+ ".zip") (zip_of h install_path).

Definition install_path_of (h : Host) (o : Options) : string :=
  path_join h (abspath h (package_location o)) (install_package_name o).

Definition generate_offline_install_package (h : Host) (packages : packages_arg)
    (o : Options) : M unit :=
  deps <~ normalize h packages ;;
  let conda_dependencies := fst deps in
  let pip_dependencies := snd deps in
  let install_path := install_path_of h o in
  makedirs h install_path (exist_ok o) ;;;
  conda_package_listing <~ conda_phase h o install_path conda_dependencies ;;
  pip_phase h o install_path pip_dependencies ;;;
  write_file EvWrite h install_path (update_file h)
    (script_text h o conda_package_listing pip_dependencies) ;;;
  if compress o then make_archive h install_path else ret tt.

(** ** Sample hosts, for the examples below *)

Module Sample.

Definition starts_with_slash (s : string) : bool :=
  match s with
  | String c _ => Ascii.eqb c "/"%char
  | EmptyString => false
  end.

Fixpoint ends_with_slash (s : string) : bool :=
  match s with
  | EmptyString => false
  | String c EmptyString => Ascii.eqb c "/"%char
  | String _ s' => ends_with_slash s'
  end.

(** [posixpath.join] of two components. *)
Definition posix_join (a b : string) : string :=
  if starts_with_slash b then b
  else if String.eqb a "" || ends_with_slash a then a +:+ b
  else a +:+ "/" +:+ b.

(** [os.path.abspath] with [/work] as the current directory, on the paths
    the examples use. *)
Definition work_abspath (p : string) : string :=
  if String.eqb p "." then "/work"
  else if starts_with_slash p then p
  else posix_join "/work" p.

(** The directories above a POSIX path, nearest first. *)
Fixpoint above_from (seen : string) (s : string) : list string :=
  match s with
  | EmptyString => []
  | String c s' =>
      if Ascii.eqb c "/"%char
      then (if String.eqb seen "" then "/" else seen)
             :: above_from (seen +:+ "/") s'
      else above_from (seen +:+ String c EmptyString) s'
  end.

Definition posix_ancestors (p : string) : list string := rev (above_from "" p).

Definition numpy : PackageRecord :=
  {| url := "https://x/numpy-1.0.tar.bz2"; fn := "numpy-1.0.tar.bz2" |}.
Definition scipy : PackageRecord :=
  {| url := "https://x/scipy-1.1.tar.bz2"; fn := "scipy-1.1.tar.bz2" |}.
Definition zlib : PackageRecord :=
  {| url := "https://x/zlib-1.2.tar.bz2"; fn := "zlib-1.2.tar.bz2" |}.

(** `conda info --json` with an environment activated. *)
Definition info_active : pyval :=
  PDict [("active_prefix", PStr "/opt/conda/envs/dev");
         ("conda_prefix", PStr "/opt/conda");
         ("channels", PList [PStr "https://x"])].

(** `conda info --json` with no environment activated: the JSON has
    [null] there, which [json.loads] turns into [None]. *)
Definition info_inactive : pyval :=
  PDict [("active_prefix", PNone);
         ("conda_prefix", PStr "/opt/conda");
         ("channels", PList [PStr "https://x"])].

(** A Linux host whose solver answers any request with three packages
    (and no request with none), whose network serves all of them and whose
    pip succeeds. *)
Definition linux : Host :=
  {| os_name := "posix";
     abspath := work_abspath;
     path_join := posix_join;
     ancestors := posix_ancestors;
     yaml_safe_load := fun _ => None;
     yaml_aliases := fun _ _ _ => false;
     conda_info := info_active;
     solver := fun _ _ specs =>
       inr ([], match specs with [] => [] | _ => [numpy; scipy; zlib] end);
     http_get := fun u => Some ("bytes of " +:+ u);
     pip_download := fun _ _ => 0%Z;
     zip_of := fun _ => "zip";
     schedule := [] |}.

Definition with_http (h : Host) (get : string -> option string) : Host :=
  {| os_name := os_name h; abspath := abspath h; path_join := path_join h;
     ancestors := ancestors h; yaml_aliases := yaml_aliases h;
     yaml_safe_load := yaml_safe_load h; conda_info := conda_info h;
     solver := solver h; http_get := get; pip_download := pip_download h;
     zip_of := zip_of h; schedule := schedule h |}.

Definition with_pip (h : Host) (pip : list string -> string -> Z) : Host :=
  {| os_name := os_name h; abspath := abspath h; path_join := path_join h;
     ancestors := ancestors h; yaml_aliases := yaml_aliases h;
     yaml_safe_load := yaml_safe_load h; conda_info := conda_info h;
     solver := solver h; http_get := http_get h; pip_download := pip;
     zip_of := zip_of h; schedule := schedule h |}.

Definition with_info (h : Host) (info : pyval) : Host :=
  {| os_name := os_name h; abspath := abspath h; path_join := path_join h;
     ancestors := ancestors h; yaml_aliases := yaml_aliases h;
     yaml_safe_load := yaml_safe_load h; conda_info := info;
     solver := solver h; http_get := http_get h; pip_download := pip_download h;
     zip_of := zip_of h; schedule := schedule h |}.

Definition with_yaml (h : Host) (load : string -> option pyval) : Host :=
  {| os_name := os_name h; abspath := abspath h; path_join := path_join h;
     ancestors := ancestors h; yaml_aliases := yaml_aliases h;
     yaml_safe_load := load; conda_info := conda_info h;
     solver := solver h; http_get := http_get h; pip_download := pip_download h;
     zip_of := zip_of h; schedule := schedule h |}.




(** Scenario D: the second of the three downloads fails. *)
Definition flaky : Host :=
  with_http linux
    (fun u => if String.eqb u (url scipy) then None else Some ("bytes of " +:+ u)).

End Sample.

(** ** Vocabulary of the properties *)

(** The lines of a text: the pieces between newline characters (a final
    newline does not open another line). *)
Fixpoint lines_from (cur : string) (s : string) : list string :=
  match s with
  | EmptyString => if String.eqb cur "" then [] else [cur]
  | String c s' =>
      if Ascii.eqb c (ascii_of_nat 10) then cur :: lines_from "" s'
      else lines_from (cur +:+ String c EmptyString) s'
  end.

Definition lines (s : string) : list string := lines_from "" s.

Definition is_write (e : event) : bool :=
  match e with EvWrite _ _ => true | _ => false end.

(** The events of the two artifact phases: a download's request, a
    download's file, the pip subprocess. *)
Definition artifact_event (e : event) : bool :=
  match e with
  | EvGet _ | EvSave _ _ | EvPipDownload _ _ _ => true
  | _ => false
  end.

Definition script_path (h : Host) (o : Options) : string :=
  path_join h (install_path_of h o) (update_file h).

Definition conda_path (h : Host) (o : Options) : string :=
  path_join h (install_path_of h o) "conda".

Definition pip_path (h : Host) (o : Options) : string :=
  path_join h (install_path_of h o) "pip".

Definition requirements_path (h : Host) (o : Options) : string :=
  path_join h (pip_path h o) "requirements.txt".

(** The shell replay script, written out line by line as the interface
    section of the specification gives it. *)
Definition shell_script (preamble : option string)
    (conda_paths : option (list string)) (pip_present : bool) : string :=
  "#!/bin/bash" +:+ newline
  +:+ match preamble with Some text => text +:+ newline | None => "" end
  +:+ match conda_paths with
      | Some paths =>
          "# install conda packages" +:+ newline
          +:+ "conda install " +:+ String.concat " " paths +:+ " --offline" +:+ newline
      | None => ""
      end
  +:+ (if pip_present
       then "# install pip packages" +:+ newline
            +:+ "pip install --no-index --find-links=pip/downloaded -r pip/requirements.txt"
            +:+ newline
       else "").

(** *** Statements as the specification words them; each is refuted
    below, next to the statement that does hold. *)

(** A failed download lets the others finish and makes the run raise. *)
Definition failed_download_is_fatal (h : Host) (packages : packages_arg)
    (o : Options) (fs : gmap string node) : Prop :=
  let run := generate_offline_install_package h packages o fs in
  (exists u, In (EvGet u) (events run) /\ http_get h u = None) ->
  (forall u c, In (EvGet u) (events run) -> http_get h u = Some c ->
     exists path, In (EvSave path c) (events run))
  /\ (exists e, res run = inl e).

(** What a run without a conda phase may do: no solver call, no download,
    directories for the bundle and for pip only, and a script made of
    the shebang, the preamble and the pip section. *)
Definition conda_free_event (h : Host) (o : Options) (pip_dependencies : pyval)
    (e : event) : Prop :=
  match e with
  | EvSolve _ _ _ | EvGet _ | EvSave _ _ => False
  | EvMakedirs p => p = install_path_of h o \/ p = pip_path h o
  | EvWrite p c =>
      p = requirements_path h o
      \/ (p = script_path h o
          /\ c = file_mark h +:+ preamble_text o +:+ pip_text h pip_dependencies)
  | _ => True
  end.

(** An empty or absent conda list skips the conda phase. *)
Definition conda_skipped_when_empty_or_absent (h : Host) (packages : packages_arg)
    (o : Options) (fs : gmap string node) : Prop :=
  forall cd pip,
    res (normalize h packages fs) = inr (cd, pip) ->
    cd = PNone \/ cd = PList [] ->
    Forall (conda_free_event h o pip)
      (events (generate_offline_install_package h packages o fs)).

(** The fetch mapping has one entry per resolved package, from its URL to
    its file name, and the listing has [conda/<fn>] for each. *)
Definition one_entry_per_package (pkgs : list PackageRecord) : Prop :=
  let to_fetch := packages_to_fetch pkgs in
  length to_fetch = length pkgs
  /\ (forall p, In p pkgs -> PyDict.get to_fetch (url p) = Some (fn p))
  /\ (forall p, In p pkgs -> In ("conda/" +:+ fn p) (conda_listing to_fetch)).

(** Every event of [m], from any disk, satisfies [P]. *)
Definition only_events {A : Type} (P : event -> Prop) (m : M A) : Prop :=
  forall fs, Forall P (events (m fs)).

(** The exception of a failed request, and the computations that never
    end with it. *)
Definition is_request_exception (e : exn) : bool :=
  match e with RequestException _ => true | _ => false end.

Definition never_request {A : Type} (m : M A) : Prop :=
  forall fs e, res (m fs) = inl e -> is_request_exception e = false.

(** A computation that neither writes nor emits. *)
Definition silent {A : Type} (m : M A) : Prop :=
  forall fs, events (m fs) = [] /\ disk (m fs) = fs.

(** One task of the pool, as [fetch_packages] submits it. *)
Definition task (h : Host) (download_directory : string) (up : string * string)
  : M unit :=
  download_and_save_package h (fst up) (snd up) download_directory.

(** Two disks with the same directories. *)
Definition same_dirs (fs fs' : gmap string node) : Prop :=
  forall q, fs' !! q = Some Dir <-> fs !! q = Some Dir.

(** The pip install section of a replay script, as the interface gives
    it: in a shell script, and in a batch script (for [os.name] = [nt]). *)
Definition pip_install_section (os : string) : string :=
  if String.eqb os "nt"
  then ":: install pip packages" +:+ newline
       +:+ "call pip install --no-index --find-links=pip/downloaded -r pip/requirements.txt"
       +:+ newline
  else "# install pip packages" +:+ newline
       +:+ "pip install --no-index --find-links=pip/downloaded -r pip/requirements.txt"
       +:+ newline.

(** What a run with an empty pip list may do: no pip subprocess,
    directories for the bundle and for conda only, and no text file but a
    script that ends with the pip install section. *)
Definition no_pip_artifacts (h : Host) (o : Options) (e : event) : Prop :=
  match e with
  | EvPipDownload _ _ _ => False
  | EvMakedirs p => p = install_path_of h o \/ p = conda_path h o
  | EvWrite p c =>
      p = script_path h o
      /\ exists body, c = body +:+ pip_install_section (os_name h)
  | _ => True
  end.



(** The path a file-system error names. *)
Definition error_path (e : exn) : option string :=
  match e with
  | FileNotFoundError p | FileExistsError p | IsADirectoryError p
  | NotADirectoryError p => Some p
  | _ => None
  end.

(** A run that has gone on past its conda phase: with pip dependencies it
    has entered the pip phase; without, it has written the script or ended
    with the error of that write. *)
Definition went_on (h : Host) (o : Options) (pip : pyval) (run : Outcome unit)
  : Prop :=
  if truthy pip
  then In (EvMakedirs (pip_path h o)) (events run)
  else (exists text, In (EvWrite (script_path h o) text) (events run))
       \/ (exists e, res run = inl e /\ error_path e = Some (script_path h o)).

(** The conda paths a run records: none without conda dependencies,
    otherwise [conda/<fn>] for the values of the fetch mapping built from
    the packages the solver wants added. *)
Definition recorded_listing (h : Host) (conda_dependencies : pyval)
    (listing : option (list string)) : Prop :=
  match listing with
  | None => conda_dependencies = PNone
  | Some paths =>
      is_none conda_dependencies = false
      /\ exists removed added,
           res (solve_for_packages h conda_dependencies ∅) = inr (removed, added)
           /\ paths = map (fun f => "conda/" +:+ f)
                        (PyDict.values (packages_to_fetch added))
  end.

Definition is_pip_download (e : event) : bool :=
  match e with EvPipDownload _ _ _ => true | _ => false end.

(** What has happened before the first text file is written: the download
    of every package the solver wants added, and the pip subprocess, with
    status 0, when there are pip dependencies. *)
Definition artifact_phases_done (h : Host) (packages : packages_arg)
    (fs : gmap string node) (done : list event) : Prop :=
  forall cd pip,
    res (normalize h packages fs) = inr (cd, pip) ->
    (is_none cd = false ->
     forall removed added p,
       res (solve_for_packages h cd ∅) = inr (removed, added) ->
       In p added -> In (EvGet (url p)) done)
    /\ (truthy pip = true ->
        exists args target, In (EvPipDownload args target 0%Z) done).

(** ** More sample data *)

Module Fixtures.

(** A host whose YAML parser reads [text] as [data] and nothing else. *)
Definition yaml_host (text : string) (data : pyval) : Host :=
  Sample.with_yaml Sample.linux
    (fun t => if String.eqb t text then Some data else None).

(** An environment file without a pip mapping. *)
Definition conda_only_data : list (string * pyval) :=
  [("dependencies", PList [PStr "numpy"; PStr "scipy"])].


(** An environment file with an empty mapping before the pip mapping. *)
Definition empty_mapping_first_data : list (string * pyval) :=
  [("dependencies",
    PList [PDict []; PStr "numpy"; PDict [("pip", PList [PStr "flask"])]])].

(** An environment file whose [pip] key has nothing under it. *)
Definition null_pip_data : list (string * pyval) :=
  [("dependencies", PList [PStr "numpy"; PDict [("pip", PNone)]])].

(** An environment file whose first and last entries are one mapping, the
    last written as an alias of the first. *)
Definition aliased_data : list (string * pyval) :=
  [("dependencies",
    PList [PDict [("pip", PList [PStr "flask"])]; PStr "numpy";
           PDict [("pip", PList [PStr "flask"])]])].

Definition aliased_host : Host :=
  let h := yaml_host "aliased" (PDict aliased_data) in
  {| os_name := os_name h; abspath := abspath h; path_join := path_join h;
     ancestors := ancestors h;
     yaml_aliases := fun _ i j =>
       (Nat.eqb i 0 && Nat.eqb j 2) || (Nat.eqb i 2 && Nat.eqb j 0);
     yaml_safe_load := yaml_safe_load h; conda_info := conda_info h;
     solver := solver h; http_get := http_get h; pip_download := pip_download h;
     zip_of := zip_of h; schedule := schedule h |}.

(** A disk with one environment file. *)
Definition one_file (text : string) : gmap string node :=
  {["environment.yaml" := File text]}.

End Fixtures.

(** ** Vocabulary of the further properties *)

(** Every exception [m] can end with satisfies [Q] on the disk it leaves. *)
Definition ends_with {A : Type} (Q : exn -> gmap string node -> Prop) (m : M A)
  : Prop :=
  forall fs e, res (m fs) = inl e -> Q e (disk (m fs)).

(** A file-system error names a path that is in the way: where a directory
    is to be made, a file, or with [exist_ok] off anything at all; where a
    file is to be written or read, a directory; where a file is to be read,
    nothing.  [NotADirectoryError] names an entry that is not there and could
    not be made, a regular file being on the disk where a directory above it
    should be. *)
Definition blocked_path (ok : bool) (e : exn) (fs : gmap string node) : Prop :=
  match e with
  | FileExistsError p =>
      if ok then exists c, fs !! p = Some (File c) else is_Some (fs !! p)
  | IsADirectoryError p => fs !! p = Some Dir
  | FileNotFoundError p => fs !! p = None
  | NotADirectoryError p => fs !! p = None /\ exists a c, fs !! a = Some (File c)
  | _ => True
  end.

(** [fs'] has everything [fs] has: directories are still directories and
    files are still files, possibly with another content. *)
Definition grows (fs fs' : gmap string node) : Prop :=
  forall q,
    (fs !! q = Some Dir -> fs' !! q = Some Dir)
    /\ (forall c, fs !! q = Some (File c) -> exists c', fs' !! q = Some (File c')).

Definition growing {A : Type} (m : M A) : Prop :=
  forall fs, grows fs (disk (m fs)).

(** The path a download is saved at. *)
Definition target (h : Host) (download_directory : string) (up : string * string)
  : string :=
  path_join h download_directory (snd up).

(** What one download makes of the entry at its target: the response body
    replaces a file or fills a gap; a directory stays; a failed request
    changes nothing. *)
Definition after_download (h : Host) (u : string) (old : option node)
  : option node :=
  match http_get h u, old with
  | Some _, Some Dir => Some Dir
  | Some c, _ => Some (File c)
  | None, _ => old
  end.

(** The URLs requested, in the order of the requests. *)
Definition requested_urls (l : list event) : list string :=
  flat_map (fun e => match e with EvGet u => [u] | _ => [] end) l.

(** The same host with another schedule of the pool. *)
Definition with_schedule (h : Host) (picks : list nat) : Host :=
  {| os_name := os_name h; abspath := abspath h; path_join := path_join h;
     ancestors := ancestors h; yaml_aliases := yaml_aliases h;
     yaml_safe_load := yaml_safe_load h; conda_info := conda_info h;
     solver := solver h; http_get := http_get h; pip_download := pip_download h;
     zip_of := zip_of h; schedule := picks |}.

(** What a run without pip dependencies may do: no pip subprocess,
    directories for the bundle and for conda only, and no text file but a
    script that ends with its conda section (or with the preamble). *)
Definition pip_free_event (h : Host) (o : Options) (e : event) : Prop :=
  match e with
  | EvPipDownload _ _ _ => False
  | EvMakedirs p => p = install_path_of h o \/ p = conda_path h o
  | EvWrite p c =>
      p = script_path h o
      /\ exists listing, c = file_mark h +:+ preamble_text o +:+ conda_text h listing
  | _ => True
  end.

(** The batch replay script, line by line: no shebang, [::] for comments
    and [call] before each command. *)
Definition batch_script (preamble : option string)
    (conda_paths : option (list string)) (pip_present : bool) : string :=
  match preamble with Some text => text +:+ newline | None => "" end
  +:+ match conda_paths with
      | Some paths =>
          ":: install conda packages" +:+ newline
          +:+ "call conda install " +:+ String.concat " " paths +:+ " --offline"
          +:+ newline
      | None => ""
      end
  +:+ (if pip_present
       then ":: install pip packages" +:+ newline
            +:+ "call pip install --no-index --find-links=pip/downloaded -r pip/requirements.txt"
            +:+ newline
       else "").

Definition is_archive (e : event) : bool :=
  match e with EvArchive _ _ => true | _ => false end.

Module WindowsSample.

(** [ntpath.join] on the components the examples use: no drive letter and
    no separator in the second component. *)
Definition nt_join (a b : string) : string := a +:+ "\" +:+ b.

(** A Windows host with [C:\work] as the current directory. *)
Definition windows : Host :=
  {| os_name := "nt";
     abspath := fun p => if String.eqb p "." then "C:\work" else p;
     path_join := nt_join;
     ancestors := fun _ => [];
     yaml_safe_load := fun _ => None;
     yaml_aliases := fun _ _ _ => false;
     conda_info := Sample.info_active;
     solver := fun _ _ specs =>
       inr ([], match specs with [] => [] | _ => [Sample.numpy] end);
     http_get := fun u => Some ("bytes of " +:+ u);
     pip_download := fun _ _ => 0%Z;
     zip_of := fun _ => "zip";
     schedule := [] |}.

End WindowsSample.

Definition is_solve (e : event) : bool :=
  match e with EvSolve _ _ _ => true | _ => false end.

(** The events that are not of the conda phase's solver and downloads. *)
Definition after_conda (e : event) : bool :=
  match e with
  | EvSolve _ _ _ | EvGet _ | EvSave _ _ => false
  | _ => true
  end.

(** The events of the downloads. *)
Definition is_download (e : event) : bool :=
  match e with EvGet _ | EvSave _ _ => true | _ => false end.

(** The same host with another solver. *)
Definition with_solver (h : Host)
    (s : pyval -> pyval -> list pyval ->
         string + (list PackageRecord * list PackageRecord)) : Host :=
  {| os_name := os_name h; abspath := abspath h; path_join := path_join h;
     ancestors := ancestors h; yaml_aliases := yaml_aliases h;
     yaml_safe_load := yaml_safe_load h; conda_info := conda_info h;
     solver := s; http_get := http_get h; pip_download := pip_download h;
     zip_of := zip_of h; schedule := schedule h |}.

(** Two solver answers that differ at most in what is to be removed. *)
Definition same_additions
    (a b : string + (list PackageRecord * list PackageRecord)) : Prop :=
  match a, b with
  | inl m, inl m' => m = m'
  | inr d, inr d' => snd d = snd d'
  | _, _ => False
  end.

(** How many times a trace calls the solver. *)
Definition solver_calls (l : list event) : nat := length (List.filter is_solve l).

Fixpoint contains_newline (s : string) : bool :=
  match s with
  | EmptyString => false
  | String c s' => Ascii.eqb c (ascii_of_nat 10) || contains_newline s'
  end.

(** The arguments [pip download] is given: the items of the pip
    dependencies, when they can be iterated and are all strings. *)
Definition pip_arguments (pip_dependencies : pyval) : option (list string) :=
  match py_iter pip_dependencies with
  | Some items => as_strings items
  | None => None
  end.

(** * Properties *)

(** ** The monad *)

Lemma res_bind {A B : Type} (m : M A) (k : A -> M B) fs :
  res (bind m k fs)
  = match res (m fs) with
    | inl e => inl e
    | inr a => res (k a (disk (m fs)))
    end.
Proof. unfold bind. destruct (res (m fs)); reflexivity. Qed.

Lemma events_bind {A B : Type} (m : M A) (k : A -> M B) fs :
  events (bind m k fs)
  = events (m fs)
    ++ match res (m fs) with
       | inl _ => []
       | inr a => events (k a (disk (m fs)))
       end.
Proof.
  unfold bind. destruct (res (m fs)); simpl; [now rewrite app_nil_r | reflexivity].
Qed.

Lemma disk_bind {A B : Type} (m : M A) (k : A -> M B) fs :
  disk (bind m k fs)
  = match res (m fs) with
    | inl _ => disk (m fs)
    | inr a => disk (k a (disk (m fs)))
    end.
Proof. unfold bind. destruct (res (m fs)); reflexivity. Qed.

Lemma only_bind {A B : Type} (P : event -> Prop) (m : M A) (k : A -> M B) :
  only_events P m -> (forall a, only_events P (k a)) -> only_events P (bind m k).
Proof.
  intros Hm Hk fs. rewrite events_bind. apply Forall_app. split; [apply Hm |].
  destruct (res (m fs)); [constructor | apply Hk].
Qed.

Lemma only_ret {A : Type} (P : event -> Prop) (a : A) : only_events P (ret a).
Proof. intros fs. constructor. Qed.

Lemma only_raise {A : Type} (P : event -> Prop) (e : exn) :
  only_events P (@raise A e).
Proof. intros fs. constructor. Qed.

Lemma only_lift_option {A : Type} (P : event -> Prop) (e : exn) (x : option A) :
  only_events P (lift_option e x).
Proof. destruct x; [apply only_ret | apply only_raise]. Qed.

Lemma only_getitem (P : event -> Prop) (v : pyval) (k : string) :
  only_events P (getitem v k).
Proof. destruct v; simpl; try apply only_raise. apply only_lift_option. Qed.

Lemma only_emit (P : event -> Prop) (e : event) : P e -> only_events P (emit e).
Proof. intros He fs. simpl. auto. Qed.

Lemma only_makedirs (P : event -> Prop) (h : Host) (path : string) (ok : bool) :
  P (EvMakedirs path) -> only_events P (makedirs h path ok).
Proof.
  intros He fs. unfold makedirs.
  destruct (fs !! path) as [[|c]|]; simpl; auto.
  destruct (missing_ancestors fs path (ancestors h path)); simpl; auto.
Qed.

Lemma only_store_file (P : event -> Prop) ev (path content : string) :
  P (ev path content) -> only_events P (store_file ev path content).
Proof.
  intros He fs. unfold store_file.
  destruct (fs !! path) as [[|c]|]; simpl; auto.
Qed.

Lemma only_require_directory (P : event -> Prop) (dir path : string) :
  only_events P (require_directory dir path).
Proof.
  intros fs. unfold require_directory.
  destruct (fs !! dir) as [[|c]|]; simpl; auto.
Qed.

Lemma only_write_file (P : event -> Prop) ev (h : Host) (dir name content : string) :
  P (ev (path_join h dir name) content) ->
  only_events P (write_file ev h dir name content).
Proof.
  intros He. unfold write_file.
  apply only_bind; [apply only_require_directory | intros _].
  now apply only_store_file.
Qed.

Lemma only_read_file (P : event -> Prop) (path : string) :
  only_events P (read_file path).
Proof.
  intros fs. unfold read_file. destruct (fs !! path) as [[|c]|]; simpl; auto.
Qed.

Lemma only_submit (P : event -> Prop) (t : M unit) :
  only_events P t -> only_events P (submit t).
Proof. intros Ht fs. apply Ht. Qed.

Lemma only_weaken {A : Type} (P Q : event -> Prop) (m : M A) :
  (forall e, P e -> Q e) -> only_events P m -> only_events Q m.
Proof. intros HPQ Hm fs. eapply Forall_impl; [apply Hm | exact HPQ]. Qed.

(** ** Input Normalizer *)

Section NormalizerFacts.
Import Normalizer.




Lemma first_index_none {A : Type} (f : A -> bool) (l : list A) :
  Forall (fun x => f x = false) l -> first_index f l = None.
Proof.
  induction 1 as [|x l Hx _ IH]; simpl; [reflexivity |].
  now rewrite Hx, IH.
Qed.


Lemma reversed_scan_none (l : list pyval) :
  Forall (fun x => has_pip x = false) l -> reversed_scan l = None.
Proof.
  intros H. unfold reversed_scan. rewrite first_index_none; [reflexivity |].
  now apply Forall_rev.
Qed.

Lemma lookup_middle (pre post : list pyval) (x : pyval) :
  (pre ++ x :: post) !! length pre = Some x.
Proof. induction pre as [|y pre IH]; simpl; [reflexivity | exact IH]. Qed.

Lemma mark_from_app (same : nat -> nat -> bool) (j : nat) (p : pyval)
    (l1 l2 : list pyval) (i : nat) :
  mark_from same j p i (l1 ++ l2)
  = mark_from same j p i l1 ++ mark_from same j p (i + length l1) l2.
Proof.
  revert i. induction l1 as [|x l1 IH]; intros i; simpl.
  - now replace (i + 0) with i by lia.
  - rewrite IH. now replace (S i + length l1) with (i + S (length l1)) by lia.
Qed.

Lemma pop_app (p' : pyval) (l1 l2 : list (bool * pyval)) :
  pop p' (l1 ++ l2) = pop p' l1 ++ pop p' l2.
Proof. apply map_app. Qed.







Lemma split_dependencies_no_pip (same : nat -> nat -> bool) (l : list pyval) :
  Forall (fun x => has_pip x = false) l ->
  split_dependencies same l = Some (l, PNone).
Proof.
  intros H. unfold split_dependencies. now rewrite reversed_scan_none.
Qed.

End NormalizerFacts.




(** What the normalizer makes of that list. *)
Example pip_mapping_after_empty_mapping_result :
  res (normalize
         (Fixtures.yaml_host "deps" (PDict Fixtures.empty_mapping_first_data))
         (Path "environment.yaml") (Fixtures.one_file "deps"))
  = inr (PList [PStr "numpy"; PDict []], PList [PStr "flask"]).
Proof. reflexivity. Qed.

(** A [pip] key with nothing under it is not seen by the scan: in
    [dependencies: [numpy, {pip: null}]] the mapping stays in the conda
    dependencies and there are no pip dependencies. *)
Example null_pip_mapping_is_kept :
  res (normalize
         (Fixtures.yaml_host "deps" (PDict Fixtures.null_pip_data))
         (Path "environment.yaml") (Fixtures.one_file "deps"))
  = inr (PList [PStr "numpy"; PDict [("pip", PNone)]], PNone).
Proof. reflexivity. Qed.

(** ** The fetch mapping *)

Lemma dict_set_fresh {V : Type} (d : list (string * V)) (k : string) (v : V) :
  ~ In k (PyDict.keys d) -> PyDict.set d k v = d ++ [(k, v)].
Proof.
  induction d as [|[k' v'] d IH]; simpl; intros Hk; [reflexivity |].
  destruct (String.eqb_spec k' k) as [->|Hne].
  - exfalso. apply Hk. now left.
  - rewrite IH; [reflexivity |]. intros Hin. apply Hk. now right.
Qed.

Lemma fold_set_fresh (pkgs : list PackageRecord) (acc : list (string * string)) :
  List.NoDup (PyDict.keys acc ++ map url pkgs) ->
  fold_left (fun d pkg => PyDict.set d (url pkg) (fn pkg)) pkgs acc
  = acc ++ map (fun p => (url p, fn p)) pkgs.
Proof.
  revert acc. induction pkgs as [|p pkgs IH]; intros acc Hnd; simpl.
  - now rewrite app_nil_r.
  - assert (Hfresh : ~ In (url p) (PyDict.keys acc)).
    { intros Hin. apply List.NoDup_remove_2 in Hnd. apply Hnd.
      apply in_or_app. now left. }
    rewrite dict_set_fresh by assumption.
    rewrite IH.
    + now rewrite <- app_assoc.
    + unfold PyDict.keys in *. rewrite map_app. simpl.
      rewrite <- app_assoc. exact Hnd.
Qed.

Lemma dict_get_of_records (pkgs : list PackageRecord) (p : PackageRecord) :
  List.NoDup (map url pkgs) -> In p pkgs ->
  PyDict.get (map (fun q => (url q, fn q)) pkgs) (url p) = Some (fn p).
Proof.
  induction pkgs as [|q pkgs IH]; simpl; intros Hnd Hin; [contradiction |].
  inversion Hnd as [|? ? Hq Hnd']; subst.
  destruct Hin as [->|Hin].
  - now rewrite String.eqb_refl.
  - destruct (String.eqb_spec (url q) (url p)) as [Heq|Hne].
    + exfalso. apply Hq. rewrite Heq. now apply in_map.
    + now apply IH.
Qed.

(** C8, as amended.  When the resolved packages have pairwise distinct
    URLs, the fetch mapping is the list of their (URL, file name) pairs, one
    entry per package in the solver's order, and the recorded listing is
    [conda/<file name>] for each of them. *)
Theorem fetch_mapping_of_distinct_urls (pkgs : list PackageRecord) :
  List.NoDup (map url pkgs) ->
  packages_to_fetch pkgs = map (fun p => (url p, fn p)) pkgs
  /\ conda_listing (packages_to_fetch pkgs) = map (fun p => "conda/" +:+ fn p) pkgs
  /\ one_entry_per_package pkgs.
Proof.
  intros Hnd.
  assert (Heq : packages_to_fetch pkgs = map (fun p => (url p, fn p)) pkgs).
  { unfold packages_to_fetch. now rewrite fold_set_fresh. }
  assert (Hlist : conda_listing (packages_to_fetch pkgs)
                  = map (fun p => "conda/" +:+ fn p) pkgs).
  { rewrite Heq. unfold conda_listing, PyDict.values.
    rewrite !map_map. reflexivity. }
  split; [exact Heq |]. split; [exact Hlist |].
  unfold one_entry_per_package. cbv zeta. rewrite Hlist, Heq.
  split; [now rewrite length_map |]. split.
  - intros p Hp. now apply dict_get_of_records.
  - intros p Hp. now apply (in_map (fun p => "conda/" +:+ fn p)).
Qed.

Lemma fetch_mapping_of_distinct_urls_witness :
  packages_to_fetch [Sample.numpy; Sample.scipy]
  = [("https://x/numpy-1.0.tar.bz2", "numpy-1.0.tar.bz2");
     ("https://x/scipy-1.1.tar.bz2", "scipy-1.1.tar.bz2")]
  /\ conda_listing (packages_to_fetch [Sample.numpy; Sample.scipy])
     = ["conda/numpy-1.0.tar.bz2"; "conda/scipy-1.1.tar.bz2"]
  /\ one_entry_per_package [Sample.numpy; Sample.scipy].
Proof.
  apply (fetch_mapping_of_distinct_urls [Sample.numpy; Sample.scipy]).
  simpl. repeat constructor; simpl; intuition discriminate.
Defined.

(** Two resolved packages that share a URL get one entry, with the file
    name of the second; the first file name is in neither the mapping nor
    the listing. *)
Lemma fetch_mapping_shared_url :
  List.NoDup [ {| url := "https://x/a"; fn := "a-1.0.tar.bz2" |};
               {| url := "https://x/a"; fn := "a-1.0.conda" |} ]
  /\ ~ one_entry_per_package
         [ {| url := "https://x/a"; fn := "a-1.0.tar.bz2" |};
           {| url := "https://x/a"; fn := "a-1.0.conda" |} ].
Proof.
  split.
  - repeat constructor; simpl; intuition discriminate.
  - intros [Hlen _]. vm_compute in Hlen. discriminate.
Qed.

(** ** The requirements file *)

Lemma append_empty_r (s : string) : s +:+ "" = s.
Proof.
  induction s as [|c s IH]; [reflexivity |].
  change (String c (s +:+ "") = String c s). now rewrite IH.
Qed.

Lemma append_assoc (a b c : string) : (a +:+ b) +:+ c = a +:+ (b +:+ c).
Proof.
  induction a as [|x a IH]; [reflexivity |].
  change (String x ((a +:+ b) +:+ c) = String x (a +:+ (b +:+ c))). now rewrite IH.
Qed.

Lemma fold_append (l : list string) (acc : string) :
  fold_left (fun text p => text +:+ p) l acc = acc +:+ String.concat "" l.
Proof.
  revert acc. induction l as [|s l IH]; intros acc; simpl.
  - now rewrite append_empty_r.
  - rewrite IH. destruct l as [|s' l]; simpl.
    + now rewrite ?append_empty_r.
    + now rewrite append_assoc.
Qed.

(** The loop writes the specifiers back to back. *)
Lemma requirements_text_concat (l : list string) :
  requirements_text l = String.concat "" l.
Proof. unfold requirements_text. now rewrite fold_append. Qed.

(** C2.  With the two specifiers [flask] and [requests] the file written is
    the single line [flaskrequests]: its lines are not the specifiers passed
    in. *)
Theorem requirements_written_back_to_back :
  let run :=
    generate_offline_install_package Sample.linux
      (Mapping [("pip", PList [PStr "flask"; PStr "requests"])])
      default_options ∅ in
  res run = inr tt
  /\ In (EvWrite "/work/package/pip/requirements.txt" "flaskrequests") (events run)
  /\ disk run !! "/work/package/pip/requirements.txt" = Some (File "flaskrequests")
  /\ lines "flaskrequests" = ["flaskrequests"]
  /\ lines "flaskrequests" <> ["flask"; "requests"].
Proof.
  cbv zeta. split; [vm_compute; reflexivity |].
  split; [vm_compute; tauto |].
  split; [vm_compute; reflexivity |].
  split; [reflexivity | vm_compute; discriminate].
Qed.

(** ** The installation prefix *)

(** With an environment activated the prefix is the active one. *)
Lemma select_prefix_active (d : list (string * pyval)) (active : pyval) fs :
  PyDict.get d "active_prefix" = Some active ->
  py_eq active (PStr "null") = false ->
  res (select_prefix (PDict d) fs) = inr active.
Proof.
  intros Hget Hne. unfold select_prefix. rewrite res_bind. simpl.
  rewrite Hget. simpl. rewrite Hne. reflexivity.
Qed.

(** C5.  When `conda info --json` has [null] as [active_prefix], line 62
    compares the loaded [None] with the string ['null'], finds them
    different and takes [None] as the prefix: the solver is built with
    [None], not with [conda_prefix]. *)
Theorem inactive_prefix_is_not_replaced :
  res (select_prefix Sample.info_inactive ∅) = inr PNone
  /\ events (solve_for_packages (Sample.with_info Sample.linux Sample.info_inactive)
               (PList [PStr "numpy"]) ∅)
     = [EvSolve PNone (PList [PStr "https://x"]) [PStr "numpy"]]
  /\ PyDict.get [("active_prefix", PNone); ("conda_prefix", PStr "/opt/conda");
                 ("channels", PList [PStr "https://x"])] "conda_prefix"
     = Some (PStr "/opt/conda").
Proof. repeat split. Qed.

(** ** Computations that leave no trace *)

Lemma bind_ret_l {A B : Type} (a : A) (k : A -> M B) fs :
  bind (ret a) k fs = k a fs.
Proof. unfold bind, ret. simpl. destruct (k a fs); reflexivity. Qed.

Lemma silent_ret {A : Type} (a : A) : silent (ret a).
Proof. intros fs. split; reflexivity. Qed.

Lemma silent_raise {A : Type} (e : exn) : silent (@raise A e).
Proof. intros fs. split; reflexivity. Qed.

Lemma silent_bind {A B : Type} (m : M A) (k : A -> M B) :
  silent m -> (forall a, silent (k a)) -> silent (bind m k).
Proof.
  intros Hm Hk fs. destruct (Hm fs) as [Hev Hdisk].
  rewrite events_bind, disk_bind, Hev, Hdisk.
  destruct (res (m fs)) as [e|a]; [split; reflexivity |]. apply Hk.
Qed.

Lemma silent_lift_option {A : Type} (e : exn) (x : option A) :
  silent (lift_option e x).
Proof. destruct x; [apply silent_ret | apply silent_raise]. Qed.

Lemma silent_getitem (v : pyval) (k : string) : silent (getitem v k).
Proof. destruct v; simpl; try apply silent_raise. apply silent_lift_option. Qed.

Lemma silent_read_file (path : string) : silent (read_file path).
Proof.
  intros fs. unfold read_file. destruct (fs !! path) as [[|c]|]; split; reflexivity.
Qed.

Lemma silent_normalize (h : Host) (packages : packages_arg) :
  silent (normalize h packages).
Proof.
  destruct packages as [p|d]; simpl; [| apply silent_ret].
  apply silent_bind; [apply silent_read_file | intros text].
  apply silent_bind; [apply silent_lift_option | intros data].
  apply silent_bind; [apply silent_getitem | intros deps].
  destruct deps; try apply silent_raise; try apply silent_ret.
  destruct (Normalizer.split_dependencies _) as [[c pip]|];
    [apply silent_ret | apply silent_raise].
Qed.

Lemma silent_select_prefix (info : pyval) : silent (select_prefix info).
Proof.
  apply silent_bind; [apply silent_getitem | intros a].
  destruct (py_eq a (PStr "null")); [apply silent_getitem | apply silent_ret].
Qed.

(** The answer of [solve_for_packages] does not depend on the disk. *)
Lemma solve_for_packages_res (h : Host) (packages : pyval) fs fs' :
  res (solve_for_packages h packages fs) = res (solve_for_packages h packages fs').
Proof.
  unfold solve_for_packages, select_prefix, getitem, lift_option, emit, bind, ret, raise.
  destruct (py_iter packages); simpl; [| reflexivity].
  destruct (conda_info h); simpl; try reflexivity.
  destruct (PyDict.get _ "active_prefix") as [a|]; simpl; [| reflexivity].
  destruct (py_eq a (PStr "null")); simpl.
  - destruct (PyDict.get _ "conda_prefix"); simpl; [| reflexivity].
    destruct (PyDict.get _ "channels"); simpl; [| reflexivity].
    destruct (solver h _ _ _); reflexivity.
  - destruct (PyDict.get _ "channels"); simpl; [| reflexivity].
    destruct (solver h _ _ _); reflexivity.
Qed.

Lemma solve_for_packages_disk (h : Host) (packages : pyval) fs :
  disk (solve_for_packages h packages fs) = fs.
Proof.
  unfold solve_for_packages, select_prefix, getitem, lift_option, emit, bind, ret, raise.
  destruct (py_iter packages); simpl; [| reflexivity].
  destruct (conda_info h); simpl; try reflexivity.
  destruct (PyDict.get _ "active_prefix") as [a|]; simpl; [| reflexivity].
  destruct (py_eq a (PStr "null")); simpl.
  - destruct (PyDict.get _ "conda_prefix"); simpl; [| reflexivity].
    destruct (PyDict.get _ "channels"); simpl; [| reflexivity].
    destruct (solver h _ _ _); reflexivity.
  - destruct (PyDict.get _ "channels"); simpl; [| reflexivity].
    destruct (solver h _ _ _); reflexivity.
Qed.

(** ** Exceptions that a run can end with *)

Lemma never_bind {A B : Type} (m : M A) (k : A -> M B) :
  never_request m -> (forall a, never_request (k a)) -> never_request (bind m k).
Proof.
  intros Hm Hk fs e. rewrite res_bind.
  destruct (res (m fs)) as [e'|a] eqn:Hres.
  - intros [= <-]. eapply Hm; eassumption.
  - apply Hk.
Qed.

Lemma never_ret {A : Type} (a : A) : never_request (ret a).
Proof. intros fs e. discriminate. Qed.

Lemma never_raise {A : Type} (e : exn) :
  is_request_exception e = false -> never_request (@raise A e).
Proof. intros He fs e' [= <-]. exact He. Qed.

Lemma never_lift_option {A : Type} (e : exn) (x : option A) :
  is_request_exception e = false -> never_request (lift_option e x).
Proof. intros He. destruct x; [apply never_ret | now apply never_raise]. Qed.

Lemma never_getitem (v : pyval) (k : string) : never_request (getitem v k).
Proof.
  destruct v; simpl; try (now apply never_raise). now apply never_lift_option.
Qed.

Lemma never_emit (e : event) : never_request (emit e).
Proof. intros fs e'. discriminate. Qed.

Lemma never_makedirs (h : Host) (path : string) (ok : bool) :
  never_request (makedirs h path ok).
Proof.
  intros fs e. unfold makedirs.
  destruct (fs !! path) as [[|c]|]; simpl; [destruct ok | |];
    try (intros [= <-]; reflexivity).
  induction (ancestors h path) as [|a above IH] in path |- *; simpl; [discriminate |].
  destruct (fs !! a) as [[|c]|]; simpl; try discriminate.
  - intros [= <-]. reflexivity.
  - specialize (IH a). destruct (missing_ancestors fs a above); simpl in *.
    + exact IH.
    + discriminate.
Qed.

Lemma never_store_file ev (path content : string) :
  never_request (store_file ev path content).
Proof.
  intros fs e. unfold store_file.
  destruct (fs !! path) as [[|c]|]; simpl; intros [= <-]; reflexivity.
Qed.

Lemma never_write_file ev (h : Host) (dir name content : string) :
  never_request (write_file ev h dir name content).
Proof.
  unfold write_file. apply never_bind; [| intros _; apply never_store_file].
  intros fs e. unfold require_directory.
  destruct (fs !! dir) as [[|c]|]; simpl; intros [= <-]; reflexivity.
Qed.

Lemma never_read_file (path : string) : never_request (read_file path).
Proof.
  intros fs e. unfold read_file.
  destruct (fs !! path) as [[|c]|]; simpl; intros [= <-]; reflexivity.
Qed.

(** What a task raises stays in its future. *)
Lemma never_submit (t : M unit) : never_request (submit t).
Proof. intros fs e. discriminate. Qed.

Lemma never_run_all (tasks : list (M unit)) : never_request (run_all tasks).
Proof.
  induction tasks as [|t tasks IH]; simpl; [apply never_ret |].
  apply never_bind; [apply never_submit | intros _; exact IH].
Qed.

(** ** Artifact Fetcher *)

Lemma split_at_index {A : Type} (l : list A) (i : nat) (d : A) :
  i < length l -> l = take i l ++ nth i l d :: drop (S i) l.
Proof.
  revert i. induction l as [|x l IH]; intros i Hi; simpl in Hi; [lia |].
  destruct i as [|i]; simpl; [reflexivity |].
  f_equal. apply IH. lia.
Qed.

Lemma length_without_index {A : Type} (l : list A) (i : nat) :
  i < length l -> length (take i l ++ drop (S i) l) = pred (length l).
Proof.
  intros Hi. rewrite length_app, length_take, length_drop. lia.
Qed.

(** Whatever the picks, the pool runs each submitted task once. *)
Lemma pool_order_permutation {A : Type} (n : nat) (picks : list nat) (l : list A) :
  length l = n -> Permutation (pool_order n picks l) l.
Proof.
  revert picks l. induction n as [|n IH]; intros picks l Hlen.
  - destruct l; [constructor | discriminate].
  - destruct l as [|t l']; [discriminate |].
    cbn [pool_order].
    set (l := t :: l') in *.
    set (i := Nat.modulo (hd 0 picks) (length l)).
    assert (Hi : i < length l).
    { apply Nat.mod_upper_bound. rewrite Hlen. discriminate. }
    apply Permutation_trans with (nth i l t :: take i l ++ drop (S i) l).
    + apply perm_skip. apply IH.
      rewrite length_without_index by assumption. rewrite Hlen. reflexivity.
    + eapply Permutation_trans; [apply Permutation_middle |].
      rewrite <- (split_at_index l i t Hi). reflexivity.
Qed.

Lemma pool_order_In {A : Type} (picks : list nat) (l : list A) (x : A) :
  In x l -> In x (pool_order (length l) picks l).
Proof.
  intros Hin. eapply Permutation_in; [| exact Hin].
  symmetry. now apply pool_order_permutation.
Qed.

(** One task: the request, and the file when the request succeeds, the
    download directory is there and the target is not a directory. *)
Lemma task_outcome (h : Host) (dir : string) (up : string * string) fs :
  let o := submit (task h dir up) fs in
  let path := path_join h dir (snd up) in
  res o = inr tt
  /\ match http_get h (fst up), fs !! dir, fs !! path with
     | Some c, Some Dir, Some Dir => disk o = fs /\ events o = [EvGet (fst up)]
     | Some c, Some Dir, _ =>
         disk o = <[path := File c]> fs
         /\ events o = [EvGet (fst up); EvSave path c]
     | _, _, _ => disk o = fs /\ events o = [EvGet (fst up)]
     end.
Proof.
  cbv zeta. split; [reflexivity |].
  unfold submit, task, download_and_save_package, write_file, require_directory,
    store_file, bind, emit, lift_option.
  simpl. destruct (http_get h (fst up)) as [c|]; simpl.
  - destruct (fs !! dir) as [[|c0]|]; simpl; try (split; reflexivity).
    destruct (fs !! path_join h dir (snd up)) as [[|c']|]; simpl; split; reflexivity.
  - split; reflexivity.
Qed.

Lemma same_dirs_refl fs : same_dirs fs fs.
Proof. intros q. reflexivity. Qed.

Lemma same_dirs_trans fs1 fs2 fs3 :
  same_dirs fs1 fs2 -> same_dirs fs2 fs3 -> same_dirs fs1 fs3.
Proof. intros H12 H23 q. etransitivity; [apply H23 | apply H12]. Qed.

Lemma same_dirs_insert_file (fs : gmap string node) (path content : string) :
  fs !! path <> Some Dir -> same_dirs fs (<[path := File content]> fs).
Proof.
  intros Hpath q. destruct (decide (path = q)) as [<-|Hne].
  - rewrite lookup_insert_eq. split; [discriminate | intros H; now destruct Hpath].
  - now rewrite lookup_insert_ne.
Qed.

(** The effect of one task on the disk and on the trace. *)
Lemma task_step (h : Host) (dir : string) (up : string * string) fs :
  let o := submit (task h dir up) fs in
  let path := path_join h dir (snd up) in
  same_dirs fs (disk o)
  /\ (forall q c, fs !! q = Some (File c) -> exists c', disk o !! q = Some (File c'))
  /\ In (EvGet (fst up)) (events o)
  /\ (forall c, http_get h (fst up) = Some c -> fs !! dir = Some Dir ->
        fs !! path <> Some Dir ->
        In (EvSave path c) (events o) /\ disk o !! path = Some (File c)).
Proof.
  cbv zeta. destruct (task_outcome h dir up fs) as [_ Hout]. cbv zeta in Hout.
  set (path := path_join h dir (snd up)) in *.
  assert (Hkeep : forall c0 q c, fs !! q = Some (File c) ->
                    exists c', <[path := File c0]> fs !! q = Some (File c')).
  { intros c0 q c Hq. destruct (decide (path = q)) as [<-|Hne].
    - rewrite lookup_insert_eq. eauto.
    - rewrite lookup_insert_ne by assumption. eauto. }
  assert (Hidle : disk (submit (task h dir up) fs) = fs
                  /\ events (submit (task h dir up) fs) = [EvGet (fst up)] ->
                  (http_get h (fst up) = None \/ fs !! dir <> Some Dir
                   \/ fs !! path = Some Dir) ->
                  same_dirs fs (disk (submit (task h dir up) fs))
                  /\ (forall q c, fs !! q = Some (File c) ->
                        exists c', disk (submit (task h dir up) fs) !! q = Some (File c'))
                  /\ In (EvGet (fst up)) (events (submit (task h dir up) fs))
                  /\ (forall c, http_get h (fst up) = Some c -> fs !! dir = Some Dir ->
                        fs !! path <> Some Dir ->
                        In (EvSave path c) (events (submit (task h dir up) fs))
                        /\ disk (submit (task h dir up) fs) !! path = Some (File c))).
  { intros [-> ->] Hwhy.
    split; [apply same_dirs_refl |]. split; [intros q c Hq; eauto |].
    split; [now left |]. intros c Hc Hd Hp.
    destruct Hwhy as [Hn|[Hn|Hn]]; [congruence | now destruct Hn | now destruct Hp]. }
  destruct (http_get h (fst up)) as [c0|]; [| apply Hidle; auto].
  destruct (fs !! dir) as [[|cd]|] eqn:Hdir;
    [| apply Hidle; [exact Hout | right; left; discriminate]
     | apply Hidle; [exact Hout | right; left; discriminate]].
  destruct (fs !! path) as [[|c1]|] eqn:Hpath; [apply Hidle; auto | |].
  - destruct Hout as [-> ->].
    split; [apply same_dirs_insert_file; rewrite Hpath; discriminate |].
    split; [intros q c Hq; apply (Hkeep c0 q c); exact Hq |].
    split; [now left |]. intros c [= <-] _ _.
    split; [right; now left | apply lookup_insert_eq].
  - destruct Hout as [-> ->].
    split; [apply same_dirs_insert_file; rewrite Hpath; discriminate |].
    split; [intros q c Hq; apply (Hkeep c0 q c); exact Hq |].
    split; [now left |]. intros c [= <-] _ _.
    split; [right; now left | apply lookup_insert_eq].
Qed.

(** The pool as a whole: no exception leaves it, every task makes its
    request, and every task whose request succeeds leaves a file at its
    target when the download directory is there and no directory is in the
    way. *)
Lemma run_tasks_spec (h : Host) (dir : string) (l : list (string * string)) fs :
  let o := run_all (map (task h dir) l) fs in
  res o = inr tt
  /\ same_dirs fs (disk o)
  /\ (forall q c, fs !! q = Some (File c) -> exists c', disk o !! q = Some (File c'))
  /\ (forall up, In up l -> In (EvGet (fst up)) (events o))
  /\ (forall up c, In up l -> http_get h (fst up) = Some c ->
        fs !! dir = Some Dir ->
        fs !! path_join h dir (snd up) <> Some Dir ->
        In (EvSave (path_join h dir (snd up)) c) (events o)
        /\ exists c', disk o !! path_join h dir (snd up) = Some (File c')).
Proof.
  cbv zeta. revert fs. induction l as [|t l IH]; intros fs.
  - simpl. split; [reflexivity |]. split; [apply same_dirs_refl |].
    split; [intros q c Hq; eauto |]. split; intros; contradiction.
  - cbn [map run_all]. rewrite res_bind, events_bind, disk_bind.
    destruct (task_step h dir t fs) as (Hdirs & Hfiles & Hget & Hsave).
    cbv zeta in Hdirs, Hfiles, Hget, Hsave.
    change (res (submit (task h dir t) fs)) with (@inr exn unit tt). cbv iota beta.
    set (fs1 := disk (submit (task h dir t) fs)) in *.
    destruct (IH fs1) as (Hres & Hdirs' & Hfiles' & Hget' & Hsave').
    split; [exact Hres |]. split; [eapply same_dirs_trans; eassumption |].
    split; [| split].
    + intros q c Hq. destruct (Hfiles q c Hq) as [c1 Hc1]. eapply Hfiles'; eassumption.
    + intros up [<-|Hin]; apply in_or_app; [left; exact Hget | right; now apply Hget'].
    + intros up c [<-|Hin] Hhttp Hdir Hnodir.
      * destruct (Hsave c Hhttp Hdir Hnodir) as [Hev Hfile]. split.
        -- apply in_or_app. now left.
        -- eapply Hfiles'. exact Hfile.
      * assert (Hnodir1 : fs1 !! path_join h dir (snd up) <> Some Dir).
        { intros Hd. apply Hnodir. now apply Hdirs. }
        assert (Hdir1 : fs1 !! dir = Some Dir) by now apply Hdirs.
        destruct (Hsave' up c Hin Hhttp Hdir1 Hnodir1) as [Hev Hfile]. split.
        -- apply in_or_app. now right.
        -- exact Hfile.
Qed.

Lemma fetch_packages_tasks (h : Host) (urls : list (string * string)) (dir : string) :
  fetch_packages h urls dir
  = run_all (map (task h dir) (pool_order (length urls) (schedule h) urls)).
Proof. reflexivity. Qed.

Lemma fetch_packages_res (h : Host) (urls : list (string * string)) (dir : string) fs :
  res (fetch_packages h urls dir fs) = inr tt.
Proof. rewrite fetch_packages_tasks. apply run_tasks_spec. Qed.

Lemma never_fetch_packages (h : Host) (urls : list (string * string)) (dir : string) :
  never_request (fetch_packages h urls dir).
Proof. apply never_run_all. Qed.

Lemma never_solve_for_packages (h : Host) (packages : pyval) :
  never_request (solve_for_packages h packages).
Proof.
  unfold solve_for_packages.
  apply never_bind; [now apply never_lift_option | intros specs].
  apply never_bind.
  { unfold select_prefix. apply never_bind; [apply never_getitem | intros a].
    destruct (py_eq a (PStr "null")); [apply never_getitem | apply never_ret]. }
  intros prefix. apply never_bind; [apply never_getitem | intros channels].
  apply never_bind; [apply never_emit | intros _].
  destruct (solver h prefix channels specs); [now apply never_raise | apply never_ret].
Qed.

Lemma never_normalize (h : Host) (packages : packages_arg) :
  never_request (normalize h packages).
Proof.
  destruct packages as [p|d]; simpl; [| apply never_ret].
  apply never_bind; [apply never_read_file | intros text].
  apply never_bind; [now apply never_lift_option | intros data].
  apply never_bind; [apply never_getitem | intros deps].
  destruct deps; try (now apply never_raise); try apply never_ret.
  destruct (Normalizer.split_dependencies _) as [[c pip]|];
    [apply never_ret | now apply never_raise].
Qed.

Lemma never_conda_phase (h : Host) (o : Options) (ip : string) (cd : pyval) :
  never_request (conda_phase h o ip cd).
Proof.
  unfold conda_phase. destruct (is_none cd); [apply never_ret |].
  apply never_bind; [apply never_makedirs | intros _].
  apply never_bind; [apply never_solve_for_packages | intros diff].
  apply never_bind; [apply never_fetch_packages | intros _]. apply never_ret.
Qed.

Lemma never_pip_phase (h : Host) (o : Options) (ip : string) (pip : pyval) :
  never_request (pip_phase h o ip pip).
Proof.
  unfold pip_phase. destruct (truthy pip); [| apply never_ret].
  apply never_bind; [apply never_makedirs | intros _].
  apply never_bind; [now apply never_lift_option | intros items].
  apply never_bind; [now apply never_lift_option | intros args].
  apply never_bind; [| intros _; apply never_write_file].
  unfold pip_check_call. apply never_bind; [apply never_emit | intros _].
  destruct (Z.eqb _ 0); [apply never_ret | now apply never_raise].
Qed.

Lemma never_generate (h : Host) (packages : packages_arg) (o : Options) :
  never_request (generate_offline_install_package h packages o).
Proof.
  unfold generate_offline_install_package.
  apply never_bind; [apply never_normalize | intros deps].
  apply never_bind; [apply never_makedirs | intros _].
  apply never_bind; [apply never_conda_phase | intros listing].
  apply never_bind; [apply never_pip_phase | intros _].
  apply never_bind; [apply never_write_file | intros _].
  destruct (compress o); [apply never_store_file | apply never_ret].
Qed.

(** ** The events of each phase *)

Ltac as_only :=
  match goal with
  | |- Forall ?P (events (?m ?fs)) => apply ((fun H : only_events P m => H fs))
  end.

Lemma only_bind_ret {A B : Type} (P : event -> Prop) (a : A) (k : A -> M B) :
  only_events P (k a) -> only_events P (bind (ret a) k).
Proof. intros Hk fs. rewrite bind_ret_l. apply Hk. Qed.

Lemma only_run_all (P : event -> Prop) (tasks : list (M unit)) :
  Forall (only_events P) tasks -> only_events P (run_all tasks).
Proof.
  induction 1 as [|t tasks Ht _ IH]; simpl; [apply only_ret |].
  apply only_bind; [now apply only_submit | intros _; exact IH].
Qed.

Lemma only_fetch_packages (P : event -> Prop) (h : Host)
    (urls : list (string * string)) (dir : string) :
  (forall u, P (EvGet u)) -> (forall p c, P (EvSave p c)) ->
  only_events P (fetch_packages h urls dir).
Proof.
  intros Hget Hsave. apply only_run_all. apply Forall_map, Forall_forall.
  intros up _. unfold download_and_save_package.
  apply only_bind; [now apply only_emit | intros _].
  apply only_bind; [apply only_lift_option | intros data].
  now apply only_write_file.
Qed.

Lemma only_solve_for_packages (P : event -> Prop) (h : Host) (packages : pyval) :
  (forall prefix channels specs, P (EvSolve prefix channels specs)) ->
  only_events P (solve_for_packages h packages).
Proof.
  intros Hsolve. unfold solve_for_packages.
  apply only_bind; [apply only_lift_option | intros specs].
  apply only_bind.
  { intros fs. destruct (silent_select_prefix (conda_info h) fs) as [-> _]. constructor. }
  intros prefix. apply only_bind; [apply only_getitem | intros channels].
  apply only_bind; [now apply only_emit | intros _].
  destruct (solver h prefix channels specs); [apply only_raise | apply only_ret].
Qed.

Lemma only_conda_phase (P : event -> Prop) (h : Host) (o : Options) (ip : string)
    (cd : pyval) :
  P (EvMakedirs (path_join h ip "conda")) ->
  (forall prefix channels specs, P (EvSolve prefix channels specs)) ->
  (forall u, P (EvGet u)) -> (forall p c, P (EvSave p c)) ->
  only_events P (conda_phase h o ip cd).
Proof.
  intros Hmk Hsolve Hget Hsave. unfold conda_phase.
  destruct (is_none cd); [apply only_ret |].
  apply only_bind; [now apply only_makedirs | intros _].
  apply only_bind; [now apply only_solve_for_packages | intros diff].
  apply only_bind; [now apply only_fetch_packages | intros _]. apply only_ret.
Qed.

Lemma only_pip_phase (P : event -> Prop) (h : Host) (o : Options) (ip : string)
    (pip : pyval) :
  P (EvMakedirs (path_join h ip "pip")) ->
  (forall args target code, P (EvPipDownload args target code)) ->
  (forall text,
     P (EvWrite (path_join h (path_join h ip "pip") "requirements.txt") text)) ->
  only_events P (pip_phase h o ip pip).
Proof.
  intros Hmk Hpip Hreq. unfold pip_phase.
  destruct (truthy pip); [| apply only_ret].
  apply only_bind; [now apply only_makedirs | intros _].
  apply only_bind; [apply only_lift_option | intros items].
  apply only_bind; [apply only_lift_option | intros args].
  apply only_bind; [| intros _; now apply only_write_file].
  unfold pip_check_call. apply only_bind; [now apply only_emit | intros _].
  destruct (Z.eqb _ 0); [apply only_ret | apply only_raise].
Qed.

Lemma only_make_archive (P : event -> Prop) (h : Host) (ip : string) :
  (forall a r, P (EvArchive a r)) -> only_events P (make_archive h ip).
Proof. intros Harch. unfold make_archive. now apply only_store_file. Qed.

(** ** Runs without a conda phase *)

(** C3, as amended.  When the conda dependency list is absent ([None]),
    the conda phase is skipped entirely: the run makes no solver call and no
    download, creates no directory but the bundle's and pip's, and writes a
    script that goes from the preamble straight to the pip section. *)
Theorem conda_phase_skipped_when_absent (h : Host) (packages : packages_arg)
    (o : Options) (fs : gmap string node) (pip : pyval) :
  res (normalize h packages fs) = inr (PNone, pip) ->
  Forall (conda_free_event h o pip)
    (events (generate_offline_install_package h packages o fs)).
Proof.
  intros Hnorm. unfold generate_offline_install_package.
  rewrite events_bind, Hnorm.
  destruct (silent_normalize h packages fs) as [-> ->].
  cbn [app fst snd]. as_only.
  apply only_bind; [apply only_makedirs; now left | intros _].
  unfold conda_phase. cbn [is_none]. apply only_bind_ret.
  apply only_bind; [| intros _].
  { apply only_pip_phase; simpl; auto. }
  apply only_bind; [| intros _].
  { apply only_write_file. simpl. right. split; reflexivity. }
  destruct (compress o); [now apply only_make_archive | apply only_ret].
Qed.

Lemma conda_phase_skipped_when_absent_witness :
  Forall (conda_free_event Sample.linux default_options (PList [PStr "flask"]))
    (events (generate_offline_install_package Sample.linux
               (Mapping [("pip", PList [PStr "flask"])]) default_options ∅)).
Proof.
  apply (conda_phase_skipped_when_absent Sample.linux
           (Mapping [("pip", PList [PStr "flask"])]) default_options ∅).
  reflexivity.
Defined.

(** An empty conda list is not [None]: the conda directory is made, the
    solver is called with no specifier and the script has a conda section
    that installs nothing. *)
Lemma conda_phase_runs_when_empty :
  ~ conda_skipped_when_empty_or_absent Sample.linux
      (Mapping [("conda", PList [])]) default_options ∅.
Proof.
  intros H. specialize (H (PList []) PNone eq_refl (or_intror eq_refl)).
  rewrite List.Forall_forall in H.
  apply (H (EvSolve (PStr "/opt/conda/envs/dev") (PList [PStr "https://x"]) [])).
  vm_compute. tauto.
Qed.

Example conda_phase_runs_when_empty_events :
  events (generate_offline_install_package Sample.linux
            (Mapping [("conda", PList [])]) default_options ∅)
  = [EvMakedirs "/work/package"; EvMakedirs "/work/package/conda";
     EvSolve (PStr "/opt/conda/envs/dev") (PList [PStr "https://x"]) [];
     EvWrite "/work/package/update.sh"
       ("#!/bin/bash" +:+ newline +:+ "# install conda packages" +:+ newline
        +:+ "conda install  --offline" +:+ newline)].
Proof. vm_compute. reflexivity. Qed.

(** ** The shape of a run *)

Lemma events_makedirs (h : Host) (path : string) (ok : bool) fs :
  events (makedirs h path ok fs) = [EvMakedirs path].
Proof.
  unfold makedirs. destruct (fs !! path) as [[|c]|]; try reflexivity.
  destruct (missing_ancestors fs path (ancestors h path)); reflexivity.
Qed.

Lemma store_file_cases ev (path content : string) fs :
  (res (store_file ev path content fs) = inr tt
   /\ events (store_file ev path content fs) = [ev path content]
   /\ disk (store_file ev path content fs) = <[path := File content]> fs)
  \/ (res (store_file ev path content fs) = inl (IsADirectoryError path)
      /\ events (store_file ev path content fs) = []).
Proof.
  unfold store_file. destruct (fs !! path) as [[|c]|]; simpl; auto.
Qed.

(** A write either stores the file or ends with an error that names the
    path, and then leaves no trace. *)
Lemma write_file_cases ev (h : Host) (dir name content : string) fs :
  let w := write_file ev h dir name content fs in
  let path := path_join h dir name in
  (res w = inr tt
   /\ events w = [ev path content]
   /\ disk w = <[path := File content]> fs)
  \/ (exists e, res w = inl e /\ error_path e = Some path
                /\ events w = [] /\ disk w = fs).
Proof.
  cbv zeta. unfold write_file, require_directory, store_file, bind. simpl.
  destruct (fs !! dir) as [[|c]|]; simpl; [| right; eauto | right; eauto].
  destruct (fs !! path_join h dir name) as [[|c]|]; simpl; [right; eauto | auto | auto].
Qed.

(** The pip phase step by step: what it emitted and how it ended. *)
Lemma pip_phase_cases (h : Host) (o : Options) (ip : string) (pip : pyval) fs :
  let r := pip_phase h o ip pip fs in
  let pp := path_join h ip "pip" in
  (truthy pip = false /\ res r = inr tt /\ events r = [] /\ disk r = fs)
  \/ (truthy pip = true /\ exists e, res r = inl e /\ events r = [EvMakedirs pp])
  \/ (truthy pip = true /\ exists args target code e,
        res r = inl e /\ (code <> 0%Z -> e = CalledProcessError code)
        /\ events r = [EvMakedirs pp; EvPipDownload args target code])
  \/ (truthy pip = true /\ exists args target,
        res r = inr tt
        /\ events r = [EvMakedirs pp; EvPipDownload args target 0%Z;
                       EvWrite (path_join h pp "requirements.txt")
                         (requirements_text args)]).
Proof.
  cbv zeta. unfold pip_phase. destruct (truthy pip); [right | left; auto].
  rewrite res_bind, events_bind, events_makedirs.
  destruct (res (makedirs _ _ _ fs)) as [e|[]]; [left; eauto |].
  set (fs1 := disk (makedirs _ _ _ fs)).
  rewrite res_bind, events_bind.
  destruct (py_iter pip) as [items|]; simpl; [| left; eauto].
  rewrite res_bind, events_bind.
  destruct (as_strings items) as [args|]; simpl; [| left; eauto].
  right. rewrite res_bind, events_bind. unfold pip_check_call.
  rewrite res_bind, events_bind. simpl.
  destruct (Z.eqb_spec (pip_download h args (path_join h (path_join h ip "pip") "downloaded")) 0)
    as [Hz|Hnz]; simpl.
  - destruct (write_file_cases EvWrite h (path_join h ip "pip") "requirements.txt"
                (requirements_text args) fs1)
      as [(Hr & He & _)|(e & Hr & _ & He & _)]; cbv zeta in Hr, He;
      rewrite Hr, He.
    + right. split; [reflexivity |]. exists args. eexists. rewrite Hz. split; reflexivity.
    + left. split; [reflexivity |]. exists args. do 3 eexists.
      split; [reflexivity |]. split; [| rewrite Hz; reflexivity].
      intros Hne. now destruct Hne.
  - left. split; [reflexivity |]. exists args. do 3 eexists.
    split; [reflexivity |]. split; [intros _; reflexivity | reflexivity].
Qed.

(** A conda phase that returns has recorded the listing of what the solver
    wants added. *)
Lemma conda_phase_success (h : Host) (o : Options) (ip : string) (cd : pyval)
    fs (listing : option (list string)) :
  res (conda_phase h o ip cd fs) = inr listing -> recorded_listing h cd listing.
Proof.
  unfold conda_phase. destruct (is_none cd) eqn:Hnone.
  - intros [= <-]. simpl. destruct cd; try discriminate. reflexivity.
  - rewrite res_bind. destruct (res (makedirs _ _ _ fs)) as [e|[]]; [discriminate |].
    rewrite res_bind.
    destruct (res (solve_for_packages h cd _)) as [e|[removed added]] eqn:Hsolve;
      [discriminate |].
    rewrite res_bind, fetch_packages_res. intros [= <-]. simpl.
    split; [exact Hnone |]. exists removed, added. split; [| reflexivity].
    rewrite <- Hsolve. apply solve_for_packages_res.
Qed.

(** How far a run gets, and what it has emitted when it stops there. *)
Lemma run_shape (h : Host) (packages : packages_arg) (o : Options) fs :
  let run := generate_offline_install_package h packages o fs in
  let ip := install_path_of h o in
  (exists e, res (normalize h packages fs) = inl e
             /\ res run = inl e /\ events run = [])
  \/ exists cd pip,
      res (normalize h packages fs) = inr (cd, pip)
      /\ let mk := makedirs h ip (exist_ok o) fs in
         (exists e, res mk = inl e /\ res run = inl e /\ events run = [EvMakedirs ip])
         \/ let c := conda_phase h o ip cd (disk mk) in
            (exists e, res c = inl e /\ res run = inl e
                       /\ events run = EvMakedirs ip :: events c)
            \/ exists listing,
                res c = inr listing
                /\ let pp := pip_phase h o ip pip (disk c) in
                   (exists e, res pp = inl e /\ res run = inl e
                              /\ events run = EvMakedirs ip :: events c ++ events pp)
                   \/ (res pp = inr tt
                       /\ let text := script_text h o listing pip in
                          let w := write_file EvWrite h ip (update_file h) text (disk pp) in
                          (exists e, res w = inl e /\ res run = inl e
                                     /\ events run
                                        = EvMakedirs ip :: events c ++ events pp)
                          \/ (res w = inr tt
                              /\ exists tail,
                                  Forall (fun e => is_write e = false
                                                   /\ artifact_event e = false) tail
                                  /\ events run
                                     = EvMakedirs ip :: events c ++ events pp
                                       ++ EvWrite (script_path h o) text :: tail
                                  /\ (compress o = false ->
                                      res run = inr tt
                                      /\ disk run
                                         = <[script_path h o := File text]> (disk pp)))).
Proof.
  cbv zeta. unfold generate_offline_install_package.
  rewrite res_bind, events_bind, disk_bind.
  destruct (silent_normalize h packages fs) as [Hev Hdisk]. rewrite Hev, Hdisk.
  destruct (res (normalize h packages fs)) as [e|[cd pip]]; [left; eauto |].
  right. exists cd, pip. split; [reflexivity |]. cbn [fst snd app].
  rewrite res_bind, events_bind, disk_bind, events_makedirs.
  destruct (res (makedirs _ _ _ fs)) as [e|[]]; [left; eauto |]. right.
  set (fs1 := disk (makedirs _ _ _ fs)).
  rewrite res_bind, events_bind, disk_bind.
  destruct (res (conda_phase h o _ cd fs1)) as [e|listing];
    [left; exists e; rewrite app_nil_r; auto |].
  right. exists listing. split; [reflexivity |].
  set (fs2 := disk (conda_phase h o _ cd fs1)).
  rewrite res_bind, events_bind, disk_bind.
  destruct (res (pip_phase h o _ pip fs2)) as [e|[]];
    [left; exists e; rewrite app_nil_r; auto |].
  right. split; [reflexivity |].
  set (fs3 := disk (pip_phase h o _ pip fs2)).
  rewrite res_bind, events_bind, disk_bind. unfold script_path.
  destruct (write_file_cases EvWrite h (install_path_of h o) (update_file h)
              (script_text h o listing pip) fs3)
    as [(Hr & He & Hd)|(e & Hr & Hp & He & _)]; cbv zeta in Hr, He;
    rewrite Hr, He.
  - right. split; [reflexivity |]. rewrite Hd.
    destruct (compress o).
    + exists (events (make_archive h (install_path_of h o)
                        (<[path_join h (install_path_of h o) (update_file h)
                           := File (script_text h o listing pip)]> fs3))).
      split; [| split; [reflexivity | discriminate]].
      eapply Forall_impl.
      * apply (only_make_archive (fun e => is_write e = false /\ artifact_event e = false)).
        intros a r. split; reflexivity.
      * auto.
    + exists []. split; [constructor |]. split; [reflexivity |]. intros _.
      split; reflexivity.
  - left. exists e. rewrite !app_nil_r. auto.
Qed.

(** ** The replay script *)

Lemma script_text_pip_section (h : Host) (o : Options)
    (listing : option (list string)) (pip : pyval) :
  is_none pip = false ->
  script_text h o listing pip
  = (file_mark h +:+ preamble_text o +:+ conda_text h listing) +:+ pip_section h.
Proof.
  intros Hpip. unfold script_text, pip_text. rewrite Hpip.
  now rewrite !append_assoc.
Qed.

Lemma not_nt (h : Host) : os_name h <> "nt" -> is_nt h = false.
Proof. intros Hos. unfold is_nt. now apply String.eqb_neq. Qed.

(** Off Windows the text written is the shell script of the interface. *)
Lemma script_text_shell (h : Host) (o : Options) (listing : option (list string))
    (pip : pyval) :
  is_nt h = false ->
  script_text h o listing pip
  = shell_script (script_preamble o) listing (negb (is_none pip)).
Proof.
  intros Hnt.
  unfold script_text, shell_script, file_mark, preamble_text, conda_text,
    pip_text, pip_section, comment_mark, command_prepend, join_spaces.
  rewrite Hnt.
  destruct (script_preamble o), listing, (is_none pip); reflexivity.
Qed.

(** The pip section the code writes is the one of the interface, letter
    for letter. *)
Lemma pip_section_text (h : Host) : pip_section h = pip_install_section (os_name h).
Proof.
  unfold pip_section, pip_install_section, comment_mark, command_prepend, is_nt.
  destruct (String.eqb (os_name h) "nt"); reflexivity.
Qed.

(** C10.  With a pip dependency list that is present and empty, the run
    creates no pip directory, does not call pip and writes no requirements
    file; the one text file it writes is the script, and the script still
    ends with the pip install section: the comment line and
    [pip install --no-index --find-links=pip/downloaded -r pip/requirements.txt]
    (with [::] and [call] on Windows).  A run that returns has written that
    script. *)
Theorem empty_pip_list_keeps_pip_section (h : Host) (packages : packages_arg)
    (o : Options) (fs : gmap string node) (cd : pyval) :
  res (normalize h packages fs) = inr (cd, PList []) ->
  Forall (no_pip_artifacts h o)
    (events (generate_offline_install_package h packages o fs))
  /\ (res (generate_offline_install_package h packages o fs) = inr tt ->
      exists body,
        In (EvWrite (script_path h o)
              (body
               +:+ (if String.eqb (os_name h) "nt"
                    then ":: install pip packages" +:+ newline
                         +:+ "call pip install --no-index --find-links=pip/downloaded -r pip/requirements.txt"
                         +:+ newline
                    else "# install pip packages" +:+ newline
                         +:+ "pip install --no-index --find-links=pip/downloaded -r pip/requirements.txt"
                         +:+ newline)))
           (events (generate_offline_install_package h packages o fs))).
Proof.
  intros Hnorm. fold (pip_install_section (os_name h)). split.
  - unfold generate_offline_install_package.
    rewrite events_bind, Hnorm.
    destruct (silent_normalize h packages fs) as [-> ->].
    cbn [app fst snd]. as_only.
    apply only_bind; [apply only_makedirs; now left | intros _].
    apply only_bind; [| intros listing].
    { apply only_conda_phase; simpl; auto. }
    unfold pip_phase. cbn [truthy]. apply only_bind_ret.
    apply only_bind; [| intros _].
    { apply only_write_file. simpl. split; [reflexivity |].
      eexists. rewrite <- pip_section_text. now apply script_text_pip_section. }
    destruct (compress o); [now apply only_make_archive | apply only_ret].
  - intros Hres.
    destruct (run_shape h packages o fs) as [(e & _ & He & _)|(cd' & pip & Hn & Hrest)];
      cbv zeta in *; [congruence |].
    rewrite Hnorm in Hn. injection Hn as <- <-.
    destruct Hrest as [(e & _ & He & _)|[(e & _ & He & _)|(listing & _ & Hrest)]];
      [congruence | congruence |].
    destruct Hrest as [(e & _ & He & _)|(_ & [(e & _ & He & _)|(_ & tail & _ & Hev & _)])];
      [congruence | congruence |].
    exists (file_mark h +:+ preamble_text o +:+ conda_text h listing).
    rewrite Hev, <- pip_section_text,
      <- (script_text_pip_section h o listing (PList [])) by reflexivity.
    right. apply in_or_app. right. apply in_or_app. right. now left.
Qed.

(** The raw mapping [{conda: [numpy], pip: []}] on the sample host: the
    script, in full. *)
Lemma empty_pip_list_keeps_pip_section_witness :
  Forall (no_pip_artifacts Sample.linux default_options)
    (events (generate_offline_install_package Sample.linux
               (Mapping [("conda", PList [PStr "numpy"]); ("pip", PList [])])
               default_options ∅))
  /\ exists body,
       In (EvWrite "/work/package/update.sh"
             (body +:+ "# install pip packages" +:+ newline
              +:+ "pip install --no-index --find-links=pip/downloaded -r pip/requirements.txt"
              +:+ newline))
          (events (generate_offline_install_package Sample.linux
                     (Mapping [("conda", PList [PStr "numpy"]); ("pip", PList [])])
                     default_options ∅)).
Proof.
  destruct (empty_pip_list_keeps_pip_section Sample.linux
              (Mapping [("conda", PList [PStr "numpy"]); ("pip", PList [])])
              default_options ∅ (PList [PStr "numpy"]) eq_refl) as [Hall Hscript].
  split; [exact Hall |]. apply Hscript. vm_compute. reflexivity.
Defined.

(** That script, in full. *)
Example empty_pip_list_script :
  In (EvWrite "/work/package/update.sh"
        ("#!/bin/bash" +:+ newline
         +:+ "# install conda packages" +:+ newline
         +:+ "conda install conda/numpy-1.0.tar.bz2 conda/scipy-1.1.tar.bz2 conda/zlib-1.2.tar.bz2 --offline"
         +:+ newline
         +:+ "# install pip packages" +:+ newline
         +:+ "pip install --no-index --find-links=pip/downloaded -r pip/requirements.txt"
         +:+ newline))
     (events (generate_offline_install_package Sample.linux
                (Mapping [("conda", PList [PStr "numpy"]); ("pip", PList [])])
                default_options ∅)).
Proof. vm_compute. tauto. Qed.

(** C7.  Off Windows, a run that returns has written, as its last text
    file, [update.sh] with exactly: the shebang line; the preamble and a
    newline when a preamble is given; when [conda_dependencies] is not
    [None], the comment line and [conda install conda/<f1> ... --offline]
    over the recorded listing, which is [conda/<fn>] for the values of the
    fetch mapping of the packages the solver wants added; when
    [pip_dependencies] is not [None], the comment line and the [pip install]
    line.  Without compression that text is the content of [update.sh] when
    the run ends. *)
Theorem shell_replay_script (h : Host) (packages : packages_arg) (o : Options)
    (fs : gmap string node) (cd pip : pyval) :
  os_name h <> "nt" ->
  res (normalize h packages fs) = inr (cd, pip) ->
  res (generate_offline_install_package h packages o fs) = inr tt ->
  exists listing before after,
    recorded_listing h cd listing
    /\ events (generate_offline_install_package h packages o fs)
       = before
         ++ EvWrite (path_join h (install_path_of h o) "update.sh")
              (shell_script (script_preamble o) listing (negb (is_none pip)))
         :: after
    /\ Forall (fun e => is_write e = false) after
    /\ (compress o = false ->
        disk (generate_offline_install_package h packages o fs)
        !! path_join h (install_path_of h o) "update.sh"
        = Some (File (shell_script (script_preamble o) listing
                        (negb (is_none pip))))).
Proof.
  intros Hos Hnorm Hres. apply not_nt in Hos.
  destruct (run_shape h packages o fs) as [(e & _ & He & _)|(cd' & pip' & Hn & Hrest)];
    cbv zeta in *; [congruence |].
  rewrite Hnorm in Hn. injection Hn as <- <-.
  destruct Hrest as [(e & _ & He & _)|[(e & _ & He & _)|(listing & Hc & Hrest)]];
    [congruence | congruence |].
  destruct Hrest as [(e & _ & He & _)|(_ & [(e & _ & He & _)|(_ & tail & Htail & Hev & Hend)])];
    [congruence | congruence |].
  assert (Hpath : script_path h o = path_join h (install_path_of h o) "update.sh").
  { unfold script_path, update_file. now rewrite Hos. }
  rewrite Hpath, (script_text_shell h o listing pip Hos) in Hev, Hend.
  exists listing. eexists. exists tail.
  split; [eapply conda_phase_success; exact Hc |].
  split; [rewrite Hev; rewrite app_comm_cons, app_assoc; reflexivity |].
  split; [eapply Forall_impl; [exact Htail | intros e He; apply He] |].
  intros Hcompress. destruct (Hend Hcompress) as [_ ->]. apply lookup_insert_eq.
Qed.

Lemma shell_replay_script_witness :
  exists listing before after,
    recorded_listing Sample.linux (PList [PStr "numpy"]) listing
    /\ events (generate_offline_install_package Sample.linux
                 (Mapping [("conda", PList [PStr "numpy"]); ("pip", PList [PStr "flask"])])
                 default_options ∅)
       = before
         ++ EvWrite "/work/package/update.sh"
              (shell_script None listing true)
         :: after
    /\ Forall (fun e => is_write e = false) after
    /\ (false = false ->
        disk (generate_offline_install_package Sample.linux
                (Mapping [("conda", PList [PStr "numpy"]); ("pip", PList [PStr "flask"])])
                default_options ∅)
        !! "/work/package/update.sh"
        = Some (File (shell_script None listing true))).
Proof.
  apply (shell_replay_script Sample.linux
           (Mapping [("conda", PList [PStr "numpy"]); ("pip", PList [PStr "flask"])])
           default_options ∅ (PList [PStr "numpy"]) (PList [PStr "flask"])).
  - discriminate.
  - reflexivity.
  - vm_compute. reflexivity.
Defined.

(** ** Failure of the pip subprocess *)

(** The conda phase writes no text file and does not call pip. *)
Lemma conda_phase_events (h : Host) (o : Options) (ip : string) (cd : pyval) fs :
  Forall (fun e => is_write e = false /\ is_pip_download e = false)
    (events (conda_phase h o ip cd fs)).
Proof. as_only. apply only_conda_phase; intros; split; reflexivity. Qed.

Lemma Forall_In_false {A : Type} (f g : A -> bool) (l : list A) (x : A) :
  Forall (fun e => f e = false /\ g e = false) l -> In x l ->
  f x = false /\ g x = false.
Proof. intros Hall Hin. rewrite List.Forall_forall in Hall. now apply Hall. Qed.

(** C6.  When the pip subprocess of a run exits with a non-zero status, the
    run ends there with [CalledProcessError]: the subprocess is its last
    event and the run has written no text file, neither the requirements
    file nor the replay script. *)
Theorem pip_failure_aborts (h : Host) (packages : packages_arg) (o : Options)
    (fs : gmap string node) (args : list string) (target : string) (code : Z) :
  In (EvPipDownload args target code)
     (events (generate_offline_install_package h packages o fs)) ->
  code <> 0%Z ->
  res (generate_offline_install_package h packages o fs)
  = inl (CalledProcessError code)
  /\ Forall (fun e => is_write e = false)
       (events (generate_offline_install_package h packages o fs))
  /\ exists before,
       events (generate_offline_install_package h packages o fs)
       = before ++ [EvPipDownload args target code].
Proof.
  intros Hin Hcode.
  destruct (run_shape h packages o fs) as [(e & _ & _ & Hev)|(cd & pip & _ & Hrest)];
    cbv zeta in *; [rewrite Hev in Hin; contradiction |].
  destruct Hrest as [(e & _ & _ & Hev)|Hrest].
  { rewrite Hev in Hin. destruct Hin as [[=]|[]]. }
  set (fs1 := disk (makedirs h (install_path_of h o) (exist_ok o) fs)) in *.
  pose proof (conda_phase_events h o (install_path_of h o) cd fs1) as Hconda.
  set (c := conda_phase h o (install_path_of h o) cd fs1) in *.
  assert (Hnot_conda : ~ In (EvPipDownload args target code) (events c)).
  { intros Hc. destruct (Forall_In_false _ _ _ _ Hconda Hc) as [_ Hp]. discriminate. }
  destruct Hrest as [(e & _ & _ & Hev)|(listing & _ & Hrest)].
  { rewrite Hev in Hin. destruct Hin as [[=]|Hin]. contradiction. }
  set (pp := pip_phase h o (install_path_of h o) pip (disk c)) in *.
  assert (Hconda_w : Forall (fun e => is_write e = false) (events c)).
  { eapply Forall_impl; [exact Hconda | intros e He; apply He]. }
  destruct (pip_phase_cases h o (install_path_of h o) pip (disk c))
    as [(_ & Hr & Hpe & _)|[(_ & e' & Hr & Hpe)|[(_ & a & t & k & e' & Hr & Hk & Hpe)
        |(_ & a & t & Hr & Hpe)]]];
    cbv zeta in Hr, Hpe; fold pp in Hr, Hpe.
  - (* no pip phase *)
    destruct Hrest as [(e & He & _)|(_ & [(e & _ & _ & Hev)|(_ & tail & Htail & Hev & _)])];
      [congruence | |]; rewrite Hev, Hpe in Hin; simpl in Hin;
      destruct Hin as [[=]|Hin]; apply in_app_or in Hin;
      destruct Hin as [Hin|Hin]; try contradiction.
    destruct Hin as [[=]|Hin].
    destruct (Forall_In_false _ _ _ _ Htail Hin) as [_ Ha]. discriminate.
  - (* the pip directory could not be made, or the arguments were refused *)
    destruct Hrest as [(e & _ & _ & Hev)|(Hok & _)]; [| congruence].
    rewrite Hev, Hpe in Hin. destruct Hin as [[=]|Hin].
    apply in_app_or in Hin. destruct Hin as [Hin|[[=]|[]]]. contradiction.
  - (* the subprocess ran and the phase raised *)
    destruct Hrest as [(e & He & Hrun & Hev)|(Hok & _)]; [| congruence].
    rewrite Hev, Hpe in Hin |- *. destruct Hin as [[=]|Hin].
    apply in_app_or in Hin. destruct Hin as [Hin|[[=]|[[= <- <- <-]|[]]]];
      [contradiction |].
    rewrite Hr in He. injection He as <-. rewrite (Hk Hcode) in Hrun.
    split; [exact Hrun |]. split.
    + constructor; [reflexivity |]. apply Forall_app. split; [exact Hconda_w |].
      repeat constructor.
    + exists (EvMakedirs (install_path_of h o)
                :: events c ++ [EvMakedirs (path_join h (install_path_of h o) "pip")]).
      simpl. rewrite <- app_assoc. reflexivity.
  - (* the subprocess returned 0 *)
    destruct Hrest as [(e & He & _)|(_ & [(e & _ & _ & Hev)|(_ & tail & Htail & Hev & _)])];
      [congruence | |]; rewrite Hev, Hpe in Hin; simpl in Hin;
      destruct Hin as [[=]|Hin]; apply in_app_or in Hin;
      destruct Hin as [Hin|Hin]; try contradiction.
    + destruct Hin as [[=]|[[= _ _ Hz]|[[=]|[]]]]. now destruct Hcode.
    + destruct Hin as [[=]|[[= _ _ Hz]|[[=]|[[=]|Hin]]]]; [now destruct Hcode |].
      destruct (Forall_In_false _ _ _ _ Htail Hin) as [_ Ha]. discriminate.
Qed.

(** The sample host with a pip that exits with status 1. *)
Lemma pip_failure_aborts_witness :
  res (generate_offline_install_package
         (Sample.with_pip Sample.linux (fun _ _ => 1%Z))
         (Mapping [("pip", PList [PStr "flask"])]) default_options ∅)
  = inl (CalledProcessError 1)
  /\ Forall (fun e => is_write e = false)
       (events (generate_offline_install_package
                  (Sample.with_pip Sample.linux (fun _ _ => 1%Z))
                  (Mapping [("pip", PList [PStr "flask"])]) default_options ∅))
  /\ exists before,
       events (generate_offline_install_package
                 (Sample.with_pip Sample.linux (fun _ _ => 1%Z))
                 (Mapping [("pip", PList [PStr "flask"])]) default_options ∅)
       = before ++ [EvPipDownload ["flask"] "/work/package/pip/downloaded" 1].
Proof.
  apply (pip_failure_aborts (Sample.with_pip Sample.linux (fun _ _ => 1%Z))
           (Mapping [("pip", PList [PStr "flask"])]) default_options ∅
           ["flask"] "/work/package/pip/downloaded" 1%Z).
  - vm_compute. tauto.
  - discriminate.
Defined.

(** ** Order of the phases *)

(** A write found in [A ++ B], where [A] has no write, is in [B]. *)
Lemma split_before_write (A B before after : list event) (w : event) :
  A ++ B = before ++ w :: after ->
  Forall (fun e => is_write e = false) A -> is_write w = true ->
  exists B1, before = A ++ B1 /\ B = B1 ++ w :: after.
Proof.
  revert before. induction A as [|a A IH]; intros before Heq HA Hw.
  - exists before. split; [reflexivity | exact Heq].
  - inversion HA as [|? ? Ha HA']; subst.
    destruct before as [|b before]; simpl in Heq.
    + injection Heq as -> _. congruence.
    + injection Heq as <- Heq.
      destruct (IH before Heq HA' Hw) as (B1 & -> & ->).
      exists B1. split; reflexivity.
Qed.

Lemma dict_set_keeps_key {V : Type} (d : list (string * V)) (k k' : string) (v : V) :
  In k (PyDict.keys d) -> In k (PyDict.keys (PyDict.set d k' v)).
Proof.
  induction d as [|[k0 v0] d IH]; simpl; [contradiction |].
  intros [<-|Hin]; destruct (String.eqb k0 k'); simpl; auto.
Qed.

Lemma dict_set_has_key {V : Type} (d : list (string * V)) (k : string) (v : V) :
  In k (PyDict.keys (PyDict.set d k v)).
Proof.
  induction d as [|[k0 v0] d IH]; simpl; [now left |].
  destruct (String.eqb_spec k0 k) as [->|Hne]; simpl; auto.
Qed.

Lemma fold_set_keeps_key (pkgs : list PackageRecord) (acc : list (string * string))
    (k : string) :
  In k (PyDict.keys acc) ->
  In k (PyDict.keys (fold_left (fun d pkg => PyDict.set d (url pkg) (fn pkg)) pkgs acc)).
Proof.
  revert acc. induction pkgs as [|p pkgs IH]; intros acc Hin; simpl; [exact Hin |].
  apply IH. now apply dict_set_keeps_key.
Qed.

(** Every resolved package has its URL among the keys of the fetch mapping,
    whether or not the URLs are distinct. *)
Lemma packages_to_fetch_has_url (pkgs : list PackageRecord) (p : PackageRecord) :
  In p pkgs -> exists f, In (url p, f) (packages_to_fetch pkgs).
Proof.
  intros Hin.
  assert (Hkey : In (url p) (PyDict.keys (packages_to_fetch pkgs))).
  { unfold packages_to_fetch. generalize (@nil (string * string)) as acc.
    induction pkgs as [|q pkgs IH]; intros acc; [contradiction |].
    destruct Hin as [->|Hin]; simpl.
    - apply fold_set_keeps_key, dict_set_has_key.
    - now apply IH. }
  unfold PyDict.keys in Hkey. apply in_map_iff in Hkey.
  destruct Hkey as ([k f] & Hk & Hkf). simpl in Hk. subst k. eauto.
Qed.

(** A conda phase that returns has run the download of every package the
    solver wants added: the pool is left only when all its tasks are done. *)
Lemma conda_phase_requests (h : Host) (o : Options) (ip : string) (cd : pyval) fs
    (listing : option (list string)) (removed added : list PackageRecord)
    (p : PackageRecord) :
  res (conda_phase h o ip cd fs) = inr listing ->
  is_none cd = false ->
  res (solve_for_packages h cd ∅) = inr (removed, added) ->
  In p added ->
  In (EvGet (url p)) (events (conda_phase h o ip cd fs)).
Proof.
  unfold conda_phase. intros Hres Hnone Hsolve Hin. rewrite Hnone in *.
  rewrite res_bind in Hres. rewrite events_bind.
  destruct (res (makedirs _ _ _ fs)) as [e|[]]; [discriminate |].
  set (fs1 := disk (makedirs _ _ _ fs)) in *.
  rewrite res_bind in Hres. rewrite events_bind.
  rewrite (solve_for_packages_res h cd ∅ fs1) in Hsolve. rewrite Hsolve in *.
  rewrite events_bind, fetch_packages_res. cbn [snd].
  apply in_or_app. right. apply in_or_app. right. apply in_or_app. left.
  destruct (packages_to_fetch_has_url added p Hin) as [f Hf].
  rewrite fetch_packages_tasks.
  apply (proj1 (proj2 (proj2 (proj2
           (run_tasks_spec h (path_join h ip "conda")
              (pool_order (length (packages_to_fetch added)) (schedule h)
                 (packages_to_fetch added))
              (disk (solve_for_packages h cd fs1))))))
           (url p, f)).
  now apply pool_order_In.
Qed.

Lemma artifact_phases_done_mono (h : Host) (packages : packages_arg) fs
    (A B : list event) :
  artifact_phases_done h packages fs A -> artifact_phases_done h packages fs (A ++ B).
Proof.
  intros HA cd pip Hnorm. destruct (HA cd pip Hnorm) as [Hconda Hpip]. split.
  - intros Hnone removed added p Hsolve Hin. apply in_or_app. left. eauto.
  - intros Htruthy. destruct (Hpip Htruthy) as (args & target & Hin).
    exists args, target. apply in_or_app. now left.
Qed.

(** The events of a run are a first part without a text write followed by
    a second part without an artifact event; when the second part is not
    empty, both artifact phases are complete in the first. *)
Lemma run_two_parts (h : Host) (packages : packages_arg) (o : Options) fs :
  exists A S,
    events (generate_offline_install_package h packages o fs) = A ++ S
    /\ Forall (fun e => is_write e = false) A
    /\ Forall (fun e => artifact_event e = false) S
    /\ (S <> [] -> artifact_phases_done h packages fs A).
Proof.
  assert (Hnil : forall l : list event,
             Forall (fun e => is_write e = false) l ->
             exists A S, l = A ++ S
               /\ Forall (fun e => is_write e = false) A
               /\ Forall (fun e => artifact_event e = false) S
               /\ (S <> [] -> artifact_phases_done h packages fs A)).
  { intros l Hl. exists l, []. rewrite app_nil_r.
    split; [reflexivity |]. split; [exact Hl |]. split; [constructor |].
    intros Hne. now destruct Hne. }
  destruct (run_shape h packages o fs) as [(e & _ & _ & Hev)|(cd & pip & Hnorm & Hrest)];
    cbv zeta in *; [rewrite Hev; apply Hnil; constructor |].
  destruct Hrest as [(e & _ & _ & Hev)|Hrest];
    [rewrite Hev; apply Hnil; repeat constructor |].
  set (ip := install_path_of h o) in *.
  set (fs1 := disk (makedirs h ip (exist_ok o) fs)) in *.
  assert (Hconda : Forall (fun e => is_write e = false)
                     (events (conda_phase h o ip cd fs1))).
  { eapply Forall_impl; [apply conda_phase_events | intros e He; apply He]. }
  destruct Hrest as [(e & _ & _ & Hev)|(listing & Hc & Hrest)];
    [rewrite Hev; apply Hnil; now constructor |].
  set (c := conda_phase h o ip cd fs1) in *.
  assert (Hfirst : Forall (fun e => is_write e = false) (EvMakedirs ip :: events c)).
  { now constructor. }
  assert (Hgets : forall cd' pip', res (normalize h packages fs) = inr (cd', pip') ->
            is_none cd' = false ->
            forall removed added p,
              res (solve_for_packages h cd' ∅) = inr (removed, added) ->
              In p added -> In (EvGet (url p)) (EvMakedirs ip :: events c)).
  { intros cd' pip' Hn' Hnone removed added p Hsolve Hin.
    rewrite Hnorm in Hn'. injection Hn' as <- <-. right.
    eapply conda_phase_requests; eassumption. }
  destruct (pip_phase_cases h o ip pip (disk c))
    as [(Htr & Hr & Hpe & _)|[(_ & e' & Hr & Hpe)|[(_ & a & t & k & e' & Hr & Hk & Hpe)
        |(_ & a & t & Hr & Hpe)]]];
    cbv zeta in Hr, Hpe.
  - (* no pip phase *)
    destruct Hrest as [(e & He & _)|(_ & [(e & _ & _ & Hev)|(_ & tail & Htail & Hev & _)])];
      [congruence | |].
    + rewrite Hev, Hpe, app_nil_r. now apply Hnil.
    + rewrite Hev, Hpe. cbn [app].
      exists (EvMakedirs ip :: events c), (EvWrite (script_path h o)
                                             (script_text h o listing pip) :: tail).
      split; [reflexivity |]. split; [exact Hfirst |]. split.
      * constructor; [reflexivity |].
        eapply Forall_impl; [exact Htail | intros e He; apply He].
      * intros _ cd' pip' Hn'. split; [eapply Hgets; exact Hn' |].
        intros Htruthy. rewrite Hnorm in Hn'. injection Hn' as <- <-. congruence.
  - (* the pip phase stopped before the subprocess *)
    destruct Hrest as [(e & _ & _ & Hev)|(Hok & _)]; [| congruence].
    rewrite Hev, Hpe. apply Hnil. rewrite app_comm_cons. apply Forall_app.
    split; [exact Hfirst | repeat constructor].
  - (* the pip phase raised after the subprocess *)
    destruct Hrest as [(e & _ & _ & Hev)|(Hok & _)]; [| congruence].
    rewrite Hev, Hpe. apply Hnil. rewrite app_comm_cons. apply Forall_app.
    split; [exact Hfirst | repeat constructor].
  - (* the pip phase returned *)
    set (A := (EvMakedirs ip :: events c)
              ++ [EvMakedirs (path_join h ip "pip"); EvPipDownload a t 0%Z]).
    assert (HA : Forall (fun e => is_write e = false) A).
    { apply Forall_app. split; [exact Hfirst | repeat constructor]. }
    assert (Hdone : artifact_phases_done h packages fs A).
    { intros cd' pip' Hn'. split.
      - intros Hnone removed added p Hsolve Hin. apply in_or_app. left.
        eapply Hgets; eassumption.
      - intros _. exists a, t. apply in_or_app. right. right. now left. }
    destruct Hrest as [(e & He & _)|(_ & [(e & _ & _ & Hev)|(_ & tail & Htail & Hev & _)])];
      [congruence | |]; rewrite Hev, Hpe.
    + exists A, [EvWrite (path_join h (path_join h ip "pip") "requirements.txt")
                   (requirements_text a)].
      split; [unfold A; cbn [app]; rewrite <- app_assoc; reflexivity |].
      split; [exact HA |]. split; [repeat constructor |]. intros _. exact Hdone.
    + exists A, (EvWrite (path_join h (path_join h ip "pip") "requirements.txt")
                   (requirements_text a)
                 :: EvWrite (script_path h o) (script_text h o listing pip) :: tail).
      split; [unfold A; cbn [app]; rewrite <- !app_assoc; reflexivity |].
      split; [exact HA |]. split.
      * constructor; [reflexivity |]. constructor; [reflexivity |].
        eapply Forall_impl; [exact Htail | intros e He; apply He].
      * intros _. exact Hdone.
Qed.

(** C9.  Wherever a run writes the script file, both artifact phases are
    behind it: after that write the run makes no request, saves no artifact
    and runs no pip subprocess; before it, every download dispatched by the
    conda phase has been run, and the pip subprocess has run and returned 0
    when there are pip dependencies. *)
Theorem script_written_after_artifact_phases (h : Host) (packages : packages_arg)
    (o : Options) (fs : gmap string node) (before after : list event)
    (text : string) :
  events (generate_offline_install_package h packages o fs)
  = before ++ EvWrite (script_path h o) text :: after ->
  Forall (fun e => artifact_event e = false) after
  /\ artifact_phases_done h packages fs before.
Proof.
  intros Heq.
  destruct (run_two_parts h packages o fs) as (A & S & Hev & HA & HS & Hdone).
  rewrite Hev in Heq.
  destruct (split_before_write A S before after _ Heq HA eq_refl) as (S1 & -> & ->).
  split.
  - apply Forall_app in HS. destruct HS as [_ HS]. now inversion HS.
  - apply artifact_phases_done_mono. apply Hdone. now destruct S1.
Qed.

Lemma script_written_after_artifact_phases_witness :
  Forall (fun e => artifact_event e = false) []
  /\ artifact_phases_done Sample.linux
       (Mapping [("conda", PList [PStr "numpy"]); ("pip", PList [PStr "flask"])]) ∅
       [EvMakedirs "/work/package"; EvMakedirs "/work/package/conda";
        EvSolve (PStr "/opt/conda/envs/dev") (PList [PStr "https://x"]) [PStr "numpy"];
        EvGet "https://x/numpy-1.0.tar.bz2";
        EvSave "/work/package/conda/numpy-1.0.tar.bz2"
          "bytes of https://x/numpy-1.0.tar.bz2";
        EvGet "https://x/scipy-1.1.tar.bz2";
        EvSave "/work/package/conda/scipy-1.1.tar.bz2"
          "bytes of https://x/scipy-1.1.tar.bz2";
        EvGet "https://x/zlib-1.2.tar.bz2";
        EvSave "/work/package/conda/zlib-1.2.tar.bz2"
          "bytes of https://x/zlib-1.2.tar.bz2";
        EvMakedirs "/work/package/pip";
        EvPipDownload ["flask"] "/work/package/pip/downloaded" 0;
        EvWrite "/work/package/pip/requirements.txt" "flask"].
Proof.
  apply (script_written_after_artifact_phases Sample.linux
           (Mapping [("conda", PList [PStr "numpy"]); ("pip", PList [PStr "flask"])])
           default_options ∅ _ []
           (script_text Sample.linux default_options
              (Some ["conda/numpy-1.0.tar.bz2"; "conda/scipy-1.1.tar.bz2";
                     "conda/zlib-1.2.tar.bz2"])
              (PList [PStr "flask"]))).
  vm_compute. reflexivity.
Defined.

(** * Further properties of the pipeline *)

(** ** The normalizer on any [dependencies] list *)

Lemma first_index_some {A : Type} (f : A -> bool) (l : list A) (k : nat) :
  Normalizer.first_index f l = Some k ->
  exists l1 x l2,
    l = l1 ++ x :: l2 /\ length l1 = k /\ f x = true
    /\ Forall (fun y => f y = false) l1.
Proof.
  revert k. induction l as [|y l IH]; intros k; simpl; [discriminate |].
  destruct (f y) eqn:Hy.
  - intros [= <-]. exists [], y, l. repeat split; auto.
  - destruct (Normalizer.first_index f l) as [k'|]; [| discriminate].
    intros [= <-]. destruct (IH k' eq_refl) as (l1 & x & l2 & -> & <- & Hx & Hl1).
    exists (y :: l1), x, l2. repeat split; auto.
Qed.

Lemma first_index_none_inv {A : Type} (f : A -> bool) (l : list A) :
  Normalizer.first_index f l = None -> Forall (fun y => f y = false) l.
Proof.
  induction l as [|y l IH]; simpl; [constructor |].
  destruct (f y) eqn:Hy; [discriminate |].
  destruct (Normalizer.first_index f l); [discriminate |].
  intros _. constructor; auto.
Qed.

(** Where the reversed scan stops: at the last entry that exposes [pip]. *)
Lemma reversed_scan_cases (l : list pyval) :
  (Normalizer.reversed_scan l = None
   /\ Forall (fun x => Normalizer.has_pip x = false) l)
  \/ exists pre p post,
      l = pre ++ p :: post
      /\ Normalizer.reversed_scan l = Some (length pre)
      /\ Normalizer.has_pip p = true
      /\ Forall (fun x => Normalizer.has_pip x = false) post.
Proof.
  unfold Normalizer.reversed_scan.
  destruct (Normalizer.first_index Normalizer.has_pip (rev l)) as [k|] eqn:Hk.
  - right. destruct (first_index_some _ _ _ Hk) as (l1 & x & l2 & Hrev & <- & Hx & Hl1).
    assert (Hl : l = rev l2 ++ x :: rev l1).
    { rewrite <- (rev_involutive l), Hrev, rev_app_distr. simpl.
      now rewrite <- app_assoc. }
    exists (rev l2), x, (rev l1). split; [exact Hl |]. split.
    + simpl. f_equal. rewrite Hl, length_app. simpl. rewrite !length_rev. lia.
    + split; [exact Hx | now apply Forall_rev].
  - left. split; [reflexivity |].
    apply first_index_none_inv in Hk. apply Forall_rev in Hk.
    now rewrite rev_involutive in Hk.
Qed.

(** [remove] always finds the popped mapping, at its own place at the
    latest, and takes one entry out. *)
Lemma list_remove_total (p' : pyval) (l : list (bool * pyval)) :
  Exists (fun bx => fst bx = true) l ->
  exists r, Normalizer.list_remove p' l = Some r /\ S (length r) = length l.
Proof.
  induction l as [|bx l IH]; intros Hex; [inversion Hex |]. simpl.
  destruct (fst bx || py_eq (snd bx) p') eqn:Hhere.
  - eexists. split; [reflexivity |]. now rewrite length_map.
  - apply orb_false_iff in Hhere as [Hfst _].
    inversion Hex as [? ? Hbx|? ? Hl]; subst; [congruence |].
    destruct (IH Hl) as (r & -> & Hlen). simpl.
    eexists. split; [reflexivity |]. simpl. now rewrite Hlen.
Qed.

Lemma length_mark_from (same : nat -> nat -> bool) (j : nat) (p : pyval)
    (l : list pyval) (i : nat) :
  length (Normalizer.mark_from same j p i l) = length l.
Proof. revert i. induction l as [|x l IH]; intros i; simpl; [reflexivity | now rewrite IH]. Qed.

(** The entry the scan stopped at is marked. *)
Lemma found_is_marked (same : nat -> nat -> bool) (pre post : list pyval)
    (p p' : pyval) :
  Exists (fun bx => fst bx = true)
    (Normalizer.pop p' (Normalizer.mark_from same (length pre) p 0 (pre ++ p :: post))).
Proof.
  rewrite mark_from_app, pop_app. apply Exists_app. right.
  cbn [Normalizer.mark_from]. replace (0 + length pre) with (length pre) by lia.
  unfold Normalizer.is_object at 1. rewrite Nat.eqb_refl.
  constructor. reflexivity.
Qed.

(** X1.  On any [dependencies] list, whatever entries the document makes
    one object, the loop of lines 91-97 ends without an error.  With no
    entry exposing a non-null [pip] the list is left as it is and the pip
    dependencies are [None]; otherwise the pip dependencies are not [None]
    and exactly one entry has left the list. *)
Theorem split_dependencies_total (same : nat -> nat -> bool) (l : list pyval) :
  exists conda pip,
    Normalizer.split_dependencies same l = Some (conda, pip)
    /\ ((Forall (fun x => Normalizer.has_pip x = false) l
         /\ conda = l /\ pip = PNone)
        \/ (Exists (fun x => Normalizer.has_pip x = true) l
            /\ is_none pip = false /\ S (length conda) = length l)).
Proof.
  destruct (reversed_scan_cases l)
    as [[Hscan Hall]|(pre & p & post & -> & Hscan & Hp & Hpost)].
  - exists l, PNone. unfold Normalizer.split_dependencies. rewrite Hscan.
    split; [reflexivity | left; auto].
  - unfold Normalizer.split_dependencies. rewrite Hscan, lookup_middle.
    destruct p as [| | | | |m]; try discriminate. simpl in Hp.
    destruct (PyDict.get m "pip") as [v|] eqn:Hget; [| discriminate].
    cbv zeta.
    destruct (list_remove_total (PDict (PyDict.remove m "pip")) _
                (found_is_marked same pre post (PDict m)
                   (PDict (PyDict.remove m "pip"))))
      as (r & Hr & Hlen).
    rewrite Hr. exists r, v. split; [reflexivity |]. right.
    split; [| split].
    + apply Exists_app. right. constructor. simpl. now rewrite Hget.
    + now apply negb_true_iff in Hp.
    + rewrite Hlen. unfold Normalizer.pop. now rewrite length_map, length_mark_from.
Qed.

(** X2.  A descriptor whose [dependencies] list has no mapping with a
    non-null [pip]: the whole list is the conda dependencies and the pip
    dependencies are absent. *)
Theorem normalize_without_pip_mapping (h : Host) (path text : string)
    (fs : gmap string node) (data : list (string * pyval)) (l : list pyval) :
  fs !! path = Some (File text) ->
  yaml_safe_load h text = Some (PDict data) ->
  PyDict.get data "dependencies" = Some (PList l) ->
  Forall (fun x => Normalizer.has_pip x = false) l ->
  res (normalize h (Path path) fs) = inr (PList l, PNone).
Proof.
  intros Hfile Hyaml Hdeps Hl.
  unfold normalize. rewrite res_bind. unfold read_file at 1 2. rewrite Hfile. simpl.
  rewrite res_bind, Hyaml. simpl. rewrite res_bind, Hdeps. simpl.
  now rewrite split_dependencies_no_pip.
Qed.


Lemma normalize_without_pip_mapping_witness :
  res (normalize (Fixtures.yaml_host "conda only" (PDict Fixtures.conda_only_data))
         (Path "environment.yaml") (Fixtures.one_file "conda only"))
  = inr (PList [PStr "numpy"; PStr "scipy"], PNone).
Proof.
  apply (normalize_without_pip_mapping
           (Fixtures.yaml_host "conda only" (PDict Fixtures.conda_only_data))
           "environment.yaml" "conda only" (Fixtures.one_file "conda only")
           Fixtures.conda_only_data [PStr "numpy"; PStr "scipy"]).
  - reflexivity.
  - reflexivity.
  - reflexivity.
  - repeat constructor.
Defined.


(** With an alias the two entries are one dictionary:
    [dependencies: [&a {pip: [flask]}, numpy, *a]].  [p.pop('pip')] empties
    it at both places and [remove] takes the first. *)
Example aliased_pip_mapping_is_emptied :
  res (normalize Fixtures.aliased_host (Path "environment.yaml")
         (Fixtures.one_file "aliased"))
  = inr (PList [PStr "numpy"; PDict []], PList [PStr "flask"]).
Proof. reflexivity. Qed.

(** ** Errors of the input and of the file system *)

Lemma run_at_normalize_error (h : Host) (packages : packages_arg) (o : Options)
    fs (e : exn) :
  res (normalize h packages fs) = inl e ->
  res (generate_offline_install_package h packages o fs) = inl e
  /\ events (generate_offline_install_package h packages o fs) = []
  /\ disk (generate_offline_install_package h packages o fs) = fs.
Proof.
  intros Hn. unfold generate_offline_install_package.
  rewrite res_bind, events_bind, disk_bind, Hn.
  destruct (silent_normalize h packages fs) as [-> ->]. auto.
Qed.



(** X5.  A descriptor that is there but cannot be used: a YAML error ends
    the run with that error, a document without a [dependencies] key with
    [KeyError], a [dependencies] that is null, a number or a boolean with
    [TypeError]; in each case before anything is created. *)
Theorem descriptor_unusable_aborts (h : Host) (path text : string) (o : Options)
    (fs : gmap string node) (e : exn) :
  fs !! path = Some (File text) ->
  (yaml_safe_load h text = None /\ e = YAMLError)
  \/ (exists data, yaml_safe_load h text = Some (PDict data)
        /\ ((PyDict.get data "dependencies" = None /\ e = KeyError "dependencies")
            \/ (exists v, PyDict.get data "dependencies" = Some v
                  /\ py_iter v = None /\ e = TypeError))) ->
  res (generate_offline_install_package h (Path path) o fs) = inl e
  /\ events (generate_offline_install_package h (Path path) o fs) = []
  /\ disk (generate_offline_install_package h (Path path) o fs) = fs.
Proof.
  intros Hfile Hcase. apply run_at_normalize_error.
  unfold normalize. rewrite res_bind. unfold read_file at 1 2. rewrite Hfile. simpl.
  rewrite res_bind.
  destruct Hcase as [[Hy ->]|(data & Hy & Hcase)]; rewrite Hy; simpl; [reflexivity |].
  rewrite res_bind.
  destruct Hcase as [[Hd ->]|(v & Hd & Hv & ->)]; rewrite Hd; simpl; [reflexivity |].
  destruct v; simpl in Hv; try discriminate; reflexivity.
Qed.

Lemma descriptor_unusable_aborts_witness :
  res (generate_offline_install_package
         (Fixtures.yaml_host "name: dev" (PDict [("name", PStr "dev")]))
         (Path "environment.yaml") default_options (Fixtures.one_file "name: dev"))
  = inl (KeyError "dependencies")
  /\ events (generate_offline_install_package
               (Fixtures.yaml_host "name: dev" (PDict [("name", PStr "dev")]))
               (Path "environment.yaml") default_options
               (Fixtures.one_file "name: dev")) = []
  /\ disk (generate_offline_install_package
             (Fixtures.yaml_host "name: dev" (PDict [("name", PStr "dev")]))
             (Path "environment.yaml") default_options
             (Fixtures.one_file "name: dev"))
     = Fixtures.one_file "name: dev".
Proof.
  apply (descriptor_unusable_aborts
           (Fixtures.yaml_host "name: dev" (PDict [("name", PStr "dev")]))
           "environment.yaml" "name: dev" default_options
           (Fixtures.one_file "name: dev") (KeyError "dependencies")).
  - reflexivity.
  - right. exists [("name", PStr "dev")]. split; [reflexivity |].
    left. split; reflexivity.
Defined.

(** X6.  When the bundle directory cannot be made (it exists and
    [exist_ok] is off, or a file has its name) the run ends with
    [FileExistsError] right after that call: nothing is solved, fetched or
    written, and the disk is as it was. *)
Theorem bundle_directory_refused (h : Host) (packages : packages_arg) (o : Options)
    (fs : gmap string node) (cd pip : pyval) :
  res (normalize h packages fs) = inr (cd, pip) ->
  (fs !! install_path_of h o = Some Dir /\ exist_ok o = false)
  \/ (exists c, fs !! install_path_of h o = Some (File c)) ->
  res (generate_offline_install_package h packages o fs)
  = inl (FileExistsError (install_path_of h o))
  /\ events (generate_offline_install_package h packages o fs)
     = [EvMakedirs (install_path_of h o)]
  /\ disk (generate_offline_install_package h packages o fs) = fs.
Proof.
  intros Hn Hcase. unfold generate_offline_install_package.
  rewrite res_bind, events_bind, disk_bind, Hn.
  destruct (silent_normalize h packages fs) as [-> ->]. cbn [app].
  rewrite res_bind, events_bind, disk_bind, events_makedirs.
  assert (Hmk : res (makedirs h (install_path_of h o) (exist_ok o) fs)
                = inl (FileExistsError (install_path_of h o))
                /\ disk (makedirs h (install_path_of h o) (exist_ok o) fs) = fs).
  { unfold makedirs. destruct Hcase as [[-> ->]|[c ->]]; split; reflexivity. }
  destruct Hmk as [-> ->]. auto.
Qed.

Lemma bundle_directory_refused_witness :
  res (generate_offline_install_package Sample.linux (Mapping [])
         {| package_location := "."; install_package_name := "package";
            compress := false; exist_ok := false; script_preamble := None |}
         {["/work/package" := Dir]})
  = inl (FileExistsError "/work/package")
  /\ events (generate_offline_install_package Sample.linux (Mapping [])
               {| package_location := "."; install_package_name := "package";
                  compress := false; exist_ok := false; script_preamble := None |}
               {["/work/package" := Dir]})
     = [EvMakedirs "/work/package"]
  /\ disk (generate_offline_install_package Sample.linux (Mapping [])
             {| package_location := "."; install_package_name := "package";
                compress := false; exist_ok := false; script_preamble := None |}
             {["/work/package" := Dir]})
     = {["/work/package" := Dir]}.
Proof.
  apply (bundle_directory_refused Sample.linux (Mapping [])
           {| package_location := "."; install_package_name := "package";
              compress := false; exist_ok := false; script_preamble := None |}
           {["/work/package" := Dir]} PNone PNone).
  - reflexivity.
  - left. split; reflexivity.
Defined.

Lemma ends_bind {A B : Type} (Q : exn -> gmap string node -> Prop)
    (m : M A) (k : A -> M B) :
  ends_with Q m -> (forall a, ends_with Q (k a)) -> ends_with Q (bind m k).
Proof.
  intros Hm Hk fs e. rewrite res_bind, disk_bind.
  destruct (res (m fs)) as [e'|a] eqn:Hres.
  - intros [= <-]. now apply Hm.
  - apply Hk.
Qed.

Lemma ends_ret {A : Type} (Q : exn -> gmap string node -> Prop) (a : A) :
  ends_with Q (ret a).
Proof. intros fs e. discriminate. Qed.

Lemma ends_raise {A : Type} (Q : exn -> gmap string node -> Prop) (e : exn) :
  (forall fs, Q e fs) -> ends_with Q (@raise A e).
Proof. intros He fs e' [= <-]. apply He. Qed.

Lemma ends_lift_option {A : Type} (Q : exn -> gmap string node -> Prop)
    (e : exn) (x : option A) :
  (forall fs, Q e fs) -> ends_with Q (lift_option e x).
Proof. intros He. destruct x; [apply ends_ret | now apply ends_raise]. Qed.

Lemma ends_submit (Q : exn -> gmap string node -> Prop) (t : M unit) :
  ends_with Q (submit t).
Proof. intros fs e. discriminate. Qed.

Lemma ends_run_all (Q : exn -> gmap string node -> Prop) (tasks : list (M unit)) :
  ends_with Q (run_all tasks).
Proof.
  induction tasks as [|t tasks IH]; simpl; [apply ends_ret |].
  apply ends_bind; [apply ends_submit | intros _; exact IH].
Qed.

(** ** What a run leaves on the disk *)

Lemma grows_refl fs : grows fs fs.
Proof. intros q. split; [auto | eauto]. Qed.

Lemma grows_trans fs1 fs2 fs3 : grows fs1 fs2 -> grows fs2 fs3 -> grows fs1 fs3.
Proof.
  intros H12 H23 q. destruct (H12 q) as [Hd Hf]. destruct (H23 q) as [Hd' Hf'].
  split; [auto |]. intros c Hc. destruct (Hf c Hc) as [c' Hc']. eauto.
Qed.

Lemma grows_insert_dir (fs : gmap string node) (path : string) :
  fs !! path = None -> grows fs (<[path := Dir]> fs).
Proof.
  intros Hp q. destruct (decide (path = q)) as [<-|Hne].
  - rewrite Hp. split; [discriminate | intros c; discriminate].
  - rewrite lookup_insert_ne by assumption. split; [auto | eauto].
Qed.

Lemma grows_insert_file (fs : gmap string node) (path content : string) :
  fs !! path <> Some Dir -> grows fs (<[path := File content]> fs).
Proof.
  intros Hp q. destruct (decide (path = q)) as [<-|Hne].
  - rewrite lookup_insert_eq. split; [intros Hd; now destruct Hp | eauto].
  - rewrite lookup_insert_ne by assumption. split; [auto | eauto].
Qed.

Lemma growing_bind {A B : Type} (m : M A) (k : A -> M B) :
  growing m -> (forall a, growing (k a)) -> growing (bind m k).
Proof.
  intros Hm Hk fs. rewrite disk_bind.
  destruct (res (m fs)) as [e|a]; [apply Hm |].
  eapply grows_trans; [apply Hm | apply Hk].
Qed.

Lemma growing_silent {A : Type} (m : M A) : silent m -> growing m.
Proof. intros Hm fs. destruct (Hm fs) as [_ ->]. apply grows_refl. Qed.

Lemma growing_ret {A : Type} (a : A) : growing (ret a).
Proof. apply growing_silent, silent_ret. Qed.

Lemma growing_raise {A : Type} (e : exn) : growing (@raise A e).
Proof. apply growing_silent, silent_raise. Qed.

Lemma growing_lift_option {A : Type} (e : exn) (x : option A) :
  growing (lift_option e x).
Proof. apply growing_silent, silent_lift_option. Qed.

Lemma grows_insert_dir_over (fs fs' : gmap string node) (path : string) :
  fs !! path = None -> grows fs fs' -> grows fs (<[path := Dir]> fs').
Proof.
  intros Hp Hg q. destruct (decide (path = q)) as [<-|Hne].
  - rewrite Hp. split; [discriminate | intros c; discriminate].
  - rewrite lookup_insert_ne by assumption. apply Hg.
Qed.

(** The directories [os.makedirs] makes on the way were not there. *)
Lemma missing_ancestors_absent (fs : gmap string node) (above : list string)
    (child : string) (l : list string) :
  missing_ancestors fs child above = inr l -> Forall (fun a => fs !! a = None) l.
Proof.
  revert child l. induction above as [|a above IH]; intros child l; simpl.
  - intros [= <-]. constructor.
  - destruct (fs !! a) as [[|c]|] eqn:Ha; try discriminate.
    + intros [= <-]. constructor.
    + destruct (missing_ancestors fs a above) as [e|l'] eqn:Hrec; [discriminate |].
      intros [= <-]. constructor; [exact Ha | now apply (IH a)].
Qed.

Lemma grows_make_all (fs : gmap string node) (l : list string) :
  Forall (fun a => fs !! a = None) l -> grows fs (make_all l fs).
Proof.
  induction 1 as [|a l Ha _ IH]; simpl; [apply grows_refl |].
  now apply grows_insert_dir_over.
Qed.

Lemma growing_makedirs (h : Host) (path : string) (ok : bool) :
  growing (makedirs h path ok).
Proof.
  intros fs. unfold makedirs. destruct (fs !! path) as [[|c]|] eqn:Hp; simpl.
  - apply grows_refl.
  - apply grows_refl.
  - destruct (missing_ancestors fs path (ancestors h path)) as [e|l] eqn:Hl; simpl.
    + apply grows_refl.
    + apply grows_insert_dir_over; [exact Hp |].
      apply grows_make_all. eapply missing_ancestors_absent; eassumption.
Qed.

Lemma growing_store_file ev (path content : string) :
  growing (store_file ev path content).
Proof.
  intros fs. unfold store_file. destruct (fs !! path) as [[|c]|] eqn:Hp; simpl.
  - apply grows_refl.
  - apply grows_insert_file. rewrite Hp. discriminate.
  - apply grows_insert_file. rewrite Hp. discriminate.
Qed.

Lemma growing_write_file ev (h : Host) (dir name content : string) :
  growing (write_file ev h dir name content).
Proof.
  unfold write_file. apply growing_bind; [| intros _; apply growing_store_file].
  intros fs. unfold require_directory.
  destruct (fs !! dir) as [[|c]|]; apply grows_refl.
Qed.

Lemma growing_submit (t : M unit) : growing t -> growing (submit t).
Proof. intros Ht fs. apply Ht. Qed.

Lemma growing_run_all (tasks : list (M unit)) :
  Forall growing tasks -> growing (run_all tasks).
Proof.
  induction 1 as [|t tasks Ht _ IH]; simpl; [apply growing_ret |].
  apply growing_bind; [now apply growing_submit | intros _; exact IH].
Qed.

Lemma growing_fetch_packages (h : Host) (urls : list (string * string))
    (dir : string) :
  growing (fetch_packages h urls dir).
Proof.
  apply growing_run_all. apply Forall_map, Forall_forall. intros up _.
  unfold download_and_save_package.
  apply growing_bind; [intros fs; apply grows_refl | intros _].
  apply growing_bind; [apply growing_lift_option | intros data].
  apply growing_write_file.
Qed.

Lemma growing_solve_for_packages (h : Host) (packages : pyval) :
  growing (solve_for_packages h packages).
Proof. intros fs. rewrite solve_for_packages_disk. apply grows_refl. Qed.

Lemma growing_conda_phase (h : Host) (o : Options) (ip : string) (cd : pyval) :
  growing (conda_phase h o ip cd).
Proof.
  unfold conda_phase. destruct (is_none cd); [apply growing_ret |].
  apply growing_bind; [apply growing_makedirs | intros _].
  apply growing_bind; [apply growing_solve_for_packages | intros diff].
  apply growing_bind; [apply growing_fetch_packages | intros _].
  apply growing_ret.
Qed.

Lemma growing_pip_phase (h : Host) (o : Options) (ip : string) (pip : pyval) :
  growing (pip_phase h o ip pip).
Proof.
  unfold pip_phase. destruct (truthy pip); [| apply growing_ret].
  apply growing_bind; [apply growing_makedirs | intros _].
  apply growing_bind; [apply growing_lift_option | intros items].
  apply growing_bind; [apply growing_lift_option | intros args].
  apply growing_bind; [| intros _; apply growing_write_file].
  unfold pip_check_call.
  apply growing_bind; [intros fs; apply grows_refl | intros _].
  destruct (Z.eqb _ 0); [apply growing_ret | apply growing_raise].
Qed.

(** X8.  A run, whether it returns or raises, takes nothing away: every
    directory it found is still a directory and every file it found is still
    a file (possibly rewritten).  There is no rollback and no clean-up. *)
Theorem run_only_adds (h : Host) (packages : packages_arg) (o : Options)
    (fs : gmap string node) :
  grows fs (disk (generate_offline_install_package h packages o fs)).
Proof.
  revert fs.
  change (growing (generate_offline_install_package h packages o)).
  unfold generate_offline_install_package.
  apply growing_bind; [apply growing_silent, silent_normalize | intros deps].
  apply growing_bind; [apply growing_makedirs | intros _].
  apply growing_bind; [apply growing_conda_phase | intros listing].
  apply growing_bind; [apply growing_pip_phase | intros _].
  apply growing_bind; [apply growing_write_file | intros _].
  destruct (compress o); [apply growing_store_file | apply growing_ret].
Qed.

(** ** The paths that file-system errors name *)

(** A directory that [os.makedirs] has made, or has found with [exist_ok]
    on, is there. *)
Lemma makedirs_makes (h : Host) (path : string) (ok : bool) fs :
  res (makedirs h path ok fs) = inr tt ->
  disk (makedirs h path ok fs) !! path = Some Dir.
Proof.
  unfold makedirs. destruct (fs !! path) as [[|c]|] eqn:Hp; simpl.
  - intros _. exact Hp.
  - discriminate.
  - destruct (missing_ancestors fs path (ancestors h path)); simpl; [discriminate |].
    intros _. apply lookup_insert_eq.
Qed.

(** What stops [os.makedirs] on the way up: a regular file above an entry
    that is not there, which is the entry the error names. *)
Lemma missing_ancestors_error (fs : gmap string node) (above : list string)
    (child : string) (e : exn) :
  fs !! child = None -> missing_ancestors fs child above = inl e ->
  exists p a c,
    e = NotADirectoryError p /\ fs !! p = None
    /\ In a above /\ fs !! a = Some (File c).
Proof.
  revert child. induction above as [|a above IH]; intros child Hchild; simpl;
    [discriminate |].
  destruct (fs !! a) as [[|c]|] eqn:Ha; try discriminate.
  - intros [= <-]. exists child, a, c. repeat split; auto.
  - destruct (missing_ancestors fs a above) as [e'|l] eqn:Hrec; [| discriminate].
    intros [= <-]. destruct (IH a Ha Hrec) as (p & a' & c & He & Hp & Hin & Hf).
    exists p, a', c. repeat split; auto.
Qed.

Lemma ends_bind_from {A B : Type} (Q : exn -> gmap string node -> Prop)
    (I : gmap string node -> Prop) (m : M A) (k : A -> M B) :
  ends_with Q m ->
  (forall fs a, res (m fs) = inr a -> I (disk (m fs))) ->
  (forall a fs e, I fs -> res (k a fs) = inl e -> Q e (disk (k a fs))) ->
  ends_with Q (bind m k).
Proof.
  intros Hm HI Hk fs e. rewrite res_bind, disk_bind.
  destruct (res (m fs)) as [e'|a] eqn:Hres.
  - intros [= <-]. now apply Hm.
  - apply Hk. eapply HI. exact Hres.
Qed.

Section Blocked.
Variable ok : bool.

Lemma blocked_getitem (v : pyval) (k : string) :
  ends_with (blocked_path ok) (getitem v k).
Proof.
  destruct v; simpl; try (apply ends_raise; intros; exact I).
  apply ends_lift_option. intros; exact I.
Qed.

Lemma blocked_makedirs (h : Host) (path : string) :
  ends_with (blocked_path ok) (makedirs h path ok).
Proof.
  intros fs e. unfold makedirs.
  destruct (fs !! path) as [[|c]|] eqn:Hp; simpl.
  - destruct ok; [discriminate |]. intros [= <-]. simpl. rewrite Hp. eauto.
  - intros [= <-]. simpl. rewrite Hp. destruct ok; eauto.
  - destruct (missing_ancestors fs path (ancestors h path)) as [e'|l] eqn:Hl; simpl;
      [| discriminate].
    intros [= <-].
    destruct (missing_ancestors_error fs _ path e' Hp Hl) as (p & a & c & -> & Hn & _ & Hf).
    simpl. eauto.
Qed.

Lemma blocked_store_file ev (path content : string) :
  ends_with (blocked_path ok) (store_file ev path content).
Proof.
  intros fs e. unfold store_file.
  destruct (fs !! path) as [[|c]|] eqn:Hp; simpl; try discriminate.
  intros [= <-]. exact Hp.
Qed.

(** A write into a directory that is there can only be stopped by a
    directory at the path of the file. *)
Lemma blocked_write_file ev (h : Host) (dir name content : string) fs (e : exn) :
  fs !! dir = Some Dir ->
  res (write_file ev h dir name content fs) = inl e ->
  blocked_path ok e (disk (write_file ev h dir name content fs)).
Proof.
  intros Hdir. unfold write_file, require_directory, bind. rewrite Hdir. simpl.
  apply blocked_store_file.
Qed.

Lemma blocked_read_file (path : string) :
  ends_with (blocked_path ok) (read_file path).
Proof.
  intros fs e. unfold read_file.
  destruct (fs !! path) as [[|c]|] eqn:Hp; simpl; try discriminate;
    intros [= <-]; exact Hp.
Qed.

Lemma blocked_solve_for_packages (h : Host) (packages : pyval) :
  ends_with (blocked_path ok) (solve_for_packages h packages).
Proof.
  unfold solve_for_packages.
  apply ends_bind; [apply ends_lift_option; intros; exact I | intros specs].
  apply ends_bind.
  { unfold select_prefix. apply ends_bind; [apply blocked_getitem | intros a].
    destruct (py_eq a (PStr "null")); [apply blocked_getitem | apply ends_ret]. }
  intros prefix. apply ends_bind; [apply blocked_getitem | intros channels].
  apply ends_bind; [intros fs e; discriminate | intros _].
  destruct (solver h prefix channels specs);
    [apply ends_raise; intros; exact I | apply ends_ret].
Qed.

Lemma blocked_normalize (h : Host) (packages : packages_arg) :
  ends_with (blocked_path ok) (normalize h packages).
Proof.
  destruct packages as [p|d]; simpl; [| apply ends_ret].
  apply ends_bind; [apply blocked_read_file | intros text].
  apply ends_bind; [apply ends_lift_option; intros; exact I | intros data].
  apply ends_bind; [apply blocked_getitem | intros deps].
  destruct deps; try (apply ends_raise; intros; exact I); try apply ends_ret.
  destruct (Normalizer.split_dependencies _) as [[c pip]|];
    [apply ends_ret | apply ends_raise; intros; exact I].
Qed.

End Blocked.

Lemma blocked_conda_phase (h : Host) (o : Options) (ip : string) (cd : pyval) :
  ends_with (blocked_path (exist_ok o)) (conda_phase h o ip cd).
Proof.
  unfold conda_phase. destruct (is_none cd); [apply ends_ret |].
  apply ends_bind; [apply blocked_makedirs | intros _].
  apply ends_bind; [apply blocked_solve_for_packages | intros diff].
  apply ends_bind; [apply ends_run_all | intros _]. apply ends_ret.
Qed.

(** The requirements file goes into the directory the phase has just
    made. *)
Lemma blocked_pip_phase (h : Host) (o : Options) (ip : string) (pip : pyval) :
  ends_with (blocked_path (exist_ok o)) (pip_phase h o ip pip).
Proof.
  unfold pip_phase. destruct (truthy pip); [| apply ends_ret].
  apply (ends_bind_from _ (fun fs => fs !! path_join h ip "pip" = Some Dir));
    [apply blocked_makedirs | intros fs []; apply makedirs_makes |].
  intros _ fs e Hdir. rewrite res_bind, disk_bind.
  destruct (py_iter pip) as [items|]; simpl; [| intros [= <-]; exact I].
  rewrite res_bind, disk_bind.
  destruct (as_strings items) as [args|]; simpl; [| intros [= <-]; exact I].
  rewrite res_bind, disk_bind. unfold pip_check_call at 1 2 3.
  rewrite res_bind, disk_bind. simpl.
  destruct (Z.eqb _ 0); simpl; [| intros [= <-]; exact I].
  now apply blocked_write_file.
Qed.

(** X7.  The path in a file-system error of a run is in the way on the disk
    the run leaves: [FileExistsError] names a file (with [exist_ok] on; an
    existing directory is then tolerated) or any existing entry (with
    [exist_ok] off), [IsADirectoryError] names a directory,
    [FileNotFoundError] names a path with nothing behind it, and
    [NotADirectoryError] names a path with nothing behind it while a regular
    file is on the disk (where a directory above that path should be). *)
Theorem file_system_errors_name_blocked_paths (h : Host) (packages : packages_arg)
    (o : Options) (fs : gmap string node) (e : exn) :
  res (generate_offline_install_package h packages o fs) = inl e ->
  blocked_path (exist_ok o) e (disk (generate_offline_install_package h packages o fs)).
Proof.
  revert fs e.
  change (ends_with (blocked_path (exist_ok o))
            (generate_offline_install_package h packages o)).
  unfold generate_offline_install_package.
  apply ends_bind; [apply blocked_normalize | intros deps].
  apply (ends_bind_from _ (fun fs => fs !! install_path_of h o = Some Dir));
    [apply blocked_makedirs | intros fs []; apply makedirs_makes |].
  intros _ fs e Hdir. rewrite res_bind, disk_bind.
  pose proof (growing_conda_phase h o (install_path_of h o) (fst deps) fs) as Hg1.
  destruct (res (conda_phase h o (install_path_of h o) (fst deps) fs))
    as [e1|listing] eqn:Hc.
  { intros [= <-]. now apply blocked_conda_phase. }
  set (fs2 := disk (conda_phase h o (install_path_of h o) (fst deps) fs)) in *.
  assert (Hdir2 : fs2 !! install_path_of h o = Some Dir) by now apply Hg1.
  rewrite res_bind, disk_bind.
  pose proof (growing_pip_phase h o (install_path_of h o) (snd deps) fs2) as Hg2.
  destruct (res (pip_phase h o (install_path_of h o) (snd deps) fs2))
    as [e2|[]] eqn:Hp.
  { intros [= <-]. now apply blocked_pip_phase. }
  set (fs3 := disk (pip_phase h o (install_path_of h o) (snd deps) fs2)) in *.
  assert (Hdir3 : fs3 !! install_path_of h o = Some Dir) by now apply Hg2.
  rewrite res_bind, disk_bind.
  destruct (res (write_file EvWrite h (install_path_of h o) (update_file h)
                   (script_text h o listing (snd deps)) fs3)) as [e3|[]] eqn:Hw.
  { intros [= <-]. now apply (blocked_write_file _ _ _ _ _ _ _ _ Hdir3). }
  destruct (compress o); [apply blocked_store_file | discriminate].
Qed.

(** A file where the bundle directory is to be made. *)
Lemma file_system_errors_name_blocked_paths_witness :
  exists c,
    disk (generate_offline_install_package Sample.linux (Mapping [])
            default_options {["/work/package" := File "in the way"]})
    !! "/work/package" = Some (File c).
Proof.
  apply (file_system_errors_name_blocked_paths Sample.linux (Mapping [])
           default_options {["/work/package" := File "in the way"]}
           (FileExistsError "/work/package")).
  reflexivity.
Defined.

(** A file where a directory above the bundle directory should be: the run
    ends with [NotADirectoryError], which names the bundle directory, and
    makes nothing. *)
Example file_above_bundle_directory :
  res (generate_offline_install_package Sample.linux (Mapping [])
         default_options {["/work" := File "in the way"]})
  = inl (NotADirectoryError "/work/package")
  /\ disk (generate_offline_install_package Sample.linux (Mapping [])
            default_options {["/work" := File "in the way"]})
     = {["/work" := File "in the way"]}.
Proof. split; reflexivity. Qed.

(** ** The fetcher on the disk *)

Lemma directory_or_not (fs : gmap string node) (dir : string) :
  fs !! dir = Some Dir \/ fs !! dir <> Some Dir.
Proof. destruct (fs !! dir) as [[|c]|]; [now left | now right | now right]. Qed.

(** Without the download directory a task leaves the disk as it is. *)
Lemma task_idle (h : Host) (dir : string) (up : string * string) fs :
  fs !! dir <> Some Dir -> disk (submit (task h dir up) fs) = fs.
Proof.
  intros Hdir. destruct (task_outcome h dir up fs) as [_ Hout]. cbv zeta in Hout.
  destruct (http_get h (fst up)) as [c|]; [| apply Hout].
  destruct (fs !! dir) as [[|c0]|]; [now destruct Hdir | apply Hout | apply Hout].
Qed.

Lemma task_disk (h : Host) (dir : string) (up : string * string) fs (q : string) :
  fs !! dir = Some Dir ->
  disk (submit (task h dir up) fs) !! q
  = if decide (target h dir up = q)
    then after_download h (fst up) (fs !! q)
    else fs !! q.
Proof.
  intros Hdir.
  destruct (task_outcome h dir up fs) as [_ Hout]. cbv zeta in Hout.
  rewrite Hdir in Hout.
  unfold after_download, target.
  destruct (http_get h (fst up)) as [c|].
  - destruct (fs !! path_join h dir (snd up)) as [[|c']|] eqn:Hp.
    + destruct Hout as [-> _]. destruct (decide _) as [<-|]; [now rewrite Hp | reflexivity].
    + destruct Hout as [-> _]. destruct (decide _) as [<-|Hne].
      * now rewrite lookup_insert_eq, Hp.
      * now rewrite lookup_insert_ne.
    + destruct Hout as [-> _]. destruct (decide _) as [<-|Hne].
      * now rewrite lookup_insert_eq, Hp.
      * now rewrite lookup_insert_ne.
  - destruct Hout as [-> _]. now destruct (decide _).
Qed.

Lemma task_frame (h : Host) (dir : string) (up : string * string) fs (q : string) :
  target h dir up <> q -> disk (submit (task h dir up) fs) !! q = fs !! q.
Proof.
  intros Hq. destruct (directory_or_not fs dir) as [Hdir|Hdir].
  - rewrite task_disk by assumption. now destruct (decide _).
  - now rewrite task_idle.
Qed.

Lemma task_keeps_directory (h : Host) (dir : string) (up : string * string) fs :
  fs !! dir = Some Dir -> disk (submit (task h dir up) fs) !! dir = Some Dir.
Proof.
  intros Hdir. destruct (task_step h dir up fs) as [Hdirs _]. cbv zeta in Hdirs.
  now apply Hdirs.
Qed.

Lemma run_tasks_frame (h : Host) (dir : string) (l : list (string * string)) fs
    (q : string) :
  (forall up, In up l -> target h dir up <> q) ->
  disk (run_all (map (task h dir) l) fs) !! q = fs !! q.
Proof.
  revert fs. induction l as [|t l IH]; intros fs Hq; [reflexivity |].
  cbn [map run_all]. rewrite disk_bind.
  change (res (submit (task h dir t) fs)) with (@inr exn unit tt). cbv iota beta.
  rewrite IH by (intros up Hup; apply Hq; now right).
  apply task_frame. apply Hq. now left.
Qed.

Lemma run_tasks_exact (h : Host) (dir : string) (l : list (string * string)) fs
    (up : string * string) :
  fs !! dir = Some Dir ->
  List.NoDup (map (target h dir) l) -> In up l ->
  disk (run_all (map (task h dir) l) fs) !! target h dir up
  = after_download h (fst up) (fs !! target h dir up).
Proof.
  revert fs. induction l as [|t l IH]; intros fs Hdir Hnd Hin; [contradiction |].
  cbn [map] in Hnd. inversion Hnd as [|? ? Ht Hnd']; subst.
  cbn [map run_all]. rewrite disk_bind.
  change (res (submit (task h dir t) fs)) with (@inr exn unit tt). cbv iota beta.
  destruct Hin as [->|Hin].
  - rewrite run_tasks_frame.
    + rewrite task_disk by assumption. now destruct (decide _).
    + intros up' Hup' Heq. apply Ht. rewrite <- Heq. now apply in_map.
  - rewrite IH; [| now apply task_keeps_directory | assumption | assumption].
    rewrite task_disk by assumption.
    destruct (decide _) as [Heq|]; [| reflexivity].
    exfalso. apply Ht. rewrite Heq. now apply in_map.
Qed.

(** Without the download directory nothing is saved. *)
Lemma run_tasks_idle (h : Host) (dir : string) (l : list (string * string)) fs :
  fs !! dir <> Some Dir -> disk (run_all (map (task h dir) l) fs) = fs.
Proof.
  intros Hdir. induction l as [|t l IH]; [reflexivity |].
  cbn [map run_all]. rewrite disk_bind.
  change (res (submit (task h dir t) fs)) with (@inr exn unit tt). cbv iota beta.
  rewrite task_idle by assumption. exact IH.
Qed.

Lemma run_tasks_requests (h : Host) (dir : string) (l : list (string * string)) fs :
  requested_urls (events (run_all (map (task h dir) l) fs)) = map fst l.
Proof.
  revert fs. induction l as [|t l IH]; intros fs; [reflexivity |].
  cbn [map run_all]. rewrite events_bind.
  change (res (submit (task h dir t) fs)) with (@inr exn unit tt). cbv iota beta.
  unfold requested_urls in *. rewrite flat_map_app, IH.
  destruct (task_outcome h dir t fs) as [_ Hout]. cbv zeta in Hout.
  destruct (http_get h (fst t));
    [destruct (fs !! dir) as [[|c0]|];
       [destruct (fs !! path_join h dir (snd t)) as [[|c']|] | |] |];
    destruct Hout as [_ ->]; reflexivity.
Qed.

Lemma pool_targets_nodup (h : Host) (dir : string) (urls : list (string * string))
    (picks : list nat) :
  List.NoDup (map (target h dir) urls) ->
  List.NoDup (map (target h dir) (pool_order (length urls) picks urls)).
Proof.
  intros Hnd. eapply Permutation_NoDup; [| exact Hnd].
  apply Permutation_map. symmetry. now apply pool_order_permutation.
Qed.



(** X10.  When the download directory is there and the targets of the
    downloads are pairwise distinct, each target ends up, whatever the
    schedule, as its own download leaves it: the response body in a new file
    or in place of the old file of that name; unchanged when the request
    failed or a directory is in the way.  Without the download directory
    nothing is saved at all. *)
Theorem fetch_packages_saves_bodies (h : Host) (urls : list (string * string))
    (dir : string) (fs : gmap string node) :
  (fs !! dir = Some Dir ->
   List.NoDup (map (fun up => path_join h dir (snd up)) urls) ->
   forall u p, In (u, p) urls ->
     disk (fetch_packages h urls dir fs) !! path_join h dir p
     = after_download h u (fs !! path_join h dir p))
  /\ (fs !! dir <> Some Dir -> disk (fetch_packages h urls dir fs) = fs).
Proof.
  split.
  - intros Hdir Hnd u p Hin. rewrite fetch_packages_tasks.
    apply (run_tasks_exact h dir _ fs (u, p)).
    + exact Hdir.
    + now apply pool_targets_nodup.
    + now apply pool_order_In.
  - intros Hdir. rewrite fetch_packages_tasks. now apply run_tasks_idle.
Qed.

(** A stale file is replaced by the body of the third download, the second
    having failed; and on a disk without the directory nothing is saved. *)
Lemma fetch_packages_saves_bodies_witness :
  disk (fetch_packages Sample.flaky
          (packages_to_fetch [Sample.numpy; Sample.scipy; Sample.zlib])
          "/work/conda"
          {["/work/conda" := Dir; "/work/conda/zlib-1.2.tar.bz2" := File "stale"]})
  !! "/work/conda/zlib-1.2.tar.bz2"
  = Some (File "bytes of https://x/zlib-1.2.tar.bz2")
  /\ disk (fetch_packages Sample.flaky
            (packages_to_fetch [Sample.numpy; Sample.scipy; Sample.zlib])
            "/work/conda" ∅)
     = ∅.
Proof.
  assert (Hnd : List.NoDup
                  (map (fun up => path_join Sample.flaky "/work/conda" (snd up))
                     (packages_to_fetch [Sample.numpy; Sample.scipy; Sample.zlib]))).
  { vm_compute. repeat constructor; simpl; intuition discriminate. }
  assert (Hin : In ("https://x/zlib-1.2.tar.bz2", "zlib-1.2.tar.bz2")
                  (packages_to_fetch [Sample.numpy; Sample.scipy; Sample.zlib])).
  { vm_compute. tauto. }
  split.
  - exact (proj1 (fetch_packages_saves_bodies Sample.flaky
                    (packages_to_fetch [Sample.numpy; Sample.scipy; Sample.zlib])
                    "/work/conda"
                    {["/work/conda" := Dir;
                      "/work/conda/zlib-1.2.tar.bz2" := File "stale"]})
             eq_refl Hnd
             "https://x/zlib-1.2.tar.bz2" "zlib-1.2.tar.bz2" Hin).
  - apply (proj2 (fetch_packages_saves_bodies Sample.flaky
                    (packages_to_fetch [Sample.numpy; Sample.scipy; Sample.zlib])
                    "/work/conda" ∅)).
    discriminate.
Defined.

(** X11.  With pairwise distinct targets the disk that [fetch_packages]
    leaves does not depend on the order in which the pool runs the
    downloads. *)
Theorem fetch_packages_schedule_independent (h : Host)
    (urls : list (string * string)) (dir : string) (fs : gmap string node)
    (picks picks' : list nat) :
  List.NoDup (map (fun up => path_join h dir (snd up)) urls) ->
  disk (fetch_packages (with_schedule h picks) urls dir fs)
  = disk (fetch_packages (with_schedule h picks') urls dir fs).
Proof.
  intros Hnd.
  rewrite !fetch_packages_tasks. cbn [schedule with_schedule].
  change (task (with_schedule h picks) dir) with (task h dir).
  change (task (with_schedule h picks') dir) with (task h dir).
  destruct (directory_or_not fs dir) as [Hdir|Hdir];
    [| now rewrite !run_tasks_idle].
  apply map_eq. intros q.
  destruct (in_dec string_dec q (map (target h dir) urls)) as [Hin|Hout].
  - apply in_map_iff in Hin. destruct Hin as (up & <- & Hup).
    rewrite !run_tasks_exact;
      try (now apply pool_order_In); try (now apply pool_targets_nodup);
      try assumption.
    reflexivity.
  - rewrite !run_tasks_frame; [reflexivity | |];
      intros up Hup Heq; apply Hout; rewrite <- Heq;
      apply (in_map (target h dir));
      (eapply Permutation_in; [| exact Hup]); now apply pool_order_permutation.
Qed.

Lemma fetch_packages_schedule_independent_witness :
  disk (fetch_packages (with_schedule Sample.flaky [2; 0])
          (packages_to_fetch [Sample.numpy; Sample.scipy; Sample.zlib])
          "/work/conda" {["/work/conda" := Dir]})
  = disk (fetch_packages (with_schedule Sample.flaky [])
            (packages_to_fetch [Sample.numpy; Sample.scipy; Sample.zlib])
            "/work/conda" {["/work/conda" := Dir]}).
Proof.
  apply (fetch_packages_schedule_independent Sample.flaky
           (packages_to_fetch [Sample.numpy; Sample.scipy; Sample.zlib])
           "/work/conda" {["/work/conda" := Dir]} [2; 0] []).
  vm_compute. repeat constructor; simpl; intuition discriminate.
Defined.

(** X12.  The pool makes one request per entry of the fetch mapping, no
    more (nothing is retried) and no fewer (nothing is skipped after a
    failure): the URLs requested are the keys of the mapping in some order. *)
Theorem fetch_packages_requests_each_once (h : Host)
    (urls : list (string * string)) (dir : string) (fs : gmap string node) :
  Permutation (requested_urls (events (fetch_packages h urls dir fs)))
    (PyDict.keys urls).
Proof.
  rewrite fetch_packages_tasks, run_tasks_requests.
  apply Permutation_map. now apply pool_order_permutation.
Qed.

(** ** The fetch mapping on any resolved list *)

Lemma dict_get_set_eq {V : Type} (d : list (string * V)) (k : string) (v : V) :
  PyDict.get (PyDict.set d k v) k = Some v.
Proof.
  induction d as [|[k0 v0] d IH]; simpl.
  - now rewrite String.eqb_refl.
  - destruct (String.eqb_spec k0 k) as [->|Hne]; simpl.
    + now rewrite String.eqb_refl.
    + apply String.eqb_neq in Hne. now rewrite Hne.
Qed.

Lemma dict_get_set_ne {V : Type} (d : list (string * V)) (k k' : string) (v : V) :
  k <> k' -> PyDict.get (PyDict.set d k v) k' = PyDict.get d k'.
Proof.
  intros Hne. induction d as [|[k0 v0] d IH]; simpl.
  - apply String.eqb_neq in Hne. now rewrite Hne.
  - destruct (String.eqb_spec k0 k) as [->|Hne0]; simpl.
    + apply String.eqb_neq in Hne. now rewrite Hne.
    + now rewrite IH.
Qed.

Lemma dict_set_keys_in {V : Type} (d : list (string * V)) (k : string) (v : V) :
  In k (PyDict.keys d) -> PyDict.keys (PyDict.set d k v) = PyDict.keys d.
Proof.
  induction d as [|[k0 v0] d IH]; simpl; [contradiction |].
  destruct (String.eqb_spec k0 k) as [->|Hne]; simpl; [reflexivity |].
  intros [Heq|Hin]; [contradiction |]. now rewrite IH.
Qed.

Lemma dict_set_keys {V : Type} (d : list (string * V)) (k : string) (v : V) :
  PyDict.keys (PyDict.set d k v)
  = if in_dec string_dec k (PyDict.keys d)
    then PyDict.keys d else PyDict.keys d ++ [k].
Proof.
  destruct (in_dec string_dec k (PyDict.keys d)) as [Hin|Hout].
  - now apply dict_set_keys_in.
  - rewrite dict_set_fresh by assumption. unfold PyDict.keys. now rewrite map_app.
Qed.

Lemma fold_set_get_other (post : list PackageRecord) (d : list (string * string))
    (k : string) :
  ~ In k (map url post) ->
  PyDict.get (fold_left (fun d pkg => PyDict.set d (url pkg) (fn pkg)) post d) k
  = PyDict.get d k.
Proof.
  revert d. induction post as [|q post IH]; intros d Hk; simpl; [reflexivity |].
  rewrite IH by (intros Hin; apply Hk; now right).
  apply dict_get_set_ne. intros Heq. apply Hk. now left.
Qed.

Lemma fold_set_invariants (pkgs : list PackageRecord) (acc : list (string * string)) :
  let d := fold_left (fun d pkg => PyDict.set d (url pkg) (fn pkg)) pkgs acc in
  (List.NoDup (PyDict.keys acc) -> List.NoDup (PyDict.keys d))
  /\ (forall k, In k (PyDict.keys d) <-> In k (PyDict.keys acc) \/ In k (map url pkgs))
  /\ length d <= length acc + length pkgs.
Proof.
  cbv zeta. revert acc. induction pkgs as [|p pkgs IH]; intros acc; simpl.
  - split; [auto |]. split; [intros k; tauto | lia].
  - destruct (IH (PyDict.set acc (url p) (fn p))) as (Hnd & Hkeys & Hlen).
    assert (Hk : forall k, In k (PyDict.keys (PyDict.set acc (url p) (fn p)))
                           <-> In k (PyDict.keys acc) \/ url p = k).
    { intros k. rewrite dict_set_keys.
      destruct (in_dec string_dec (url p) (PyDict.keys acc)) as [Hin|Hout].
      - split; [auto | intros [H|<-]; assumption].
      - rewrite in_app_iff. simpl. tauto. }
    split; [| split].
    + intros Hacc. apply Hnd. rewrite dict_set_keys.
      destruct (in_dec string_dec (url p) (PyDict.keys acc)) as [Hin|Hout];
        [exact Hacc |].
      apply List.NoDup_app; [exact Hacc | |].
      * repeat constructor. intros [].
      * intros x Hx [<-|[]]. contradiction.
    + intros k. rewrite Hkeys, Hk. tauto.
    + assert (Hset : length (PyDict.set acc (url p) (fn p)) <= S (length acc)).
      { clear. induction acc as [|[k0 v0] acc IHacc]; simpl; [lia |].
        destruct (String.eqb k0 (url p)); simpl; lia. }
      lia.
Qed.

(** X13.  The fetch mapping never has two entries for one URL and never
    more entries than resolved packages, and its keys are exactly the URLs
    of the resolved packages. *)
Theorem fetch_mapping_keys (pkgs : list PackageRecord) :
  List.NoDup (PyDict.keys (packages_to_fetch pkgs))
  /\ (forall k, In k (PyDict.keys (packages_to_fetch pkgs)) <-> In k (map url pkgs))
  /\ length (packages_to_fetch pkgs) <= length pkgs.
Proof.
  destruct (fold_set_invariants pkgs []) as (Hnd & Hkeys & Hlen). cbv zeta in *.
  split; [apply Hnd; constructor |]. split; [| exact Hlen].
  intros k. rewrite (Hkeys k). simpl. tauto.
Qed.

(** X14.  Among resolved packages that share a URL the last one wins: the
    mapping gives the URL the file name of the last package that has it. *)
Theorem fetch_mapping_last_wins (pre post : list PackageRecord) (p : PackageRecord) :
  ~ In (url p) (map url post) ->
  PyDict.get (packages_to_fetch (pre ++ p :: post)) (url p) = Some (fn p).
Proof.
  intros Hlast. unfold packages_to_fetch. rewrite fold_left_app. simpl.
  rewrite fold_set_get_other by assumption. apply dict_get_set_eq.
Qed.

Lemma fetch_mapping_last_wins_witness :
  PyDict.get
    (packages_to_fetch
       ([ {| url := "https://x/a"; fn := "a-1.0.tar.bz2" |} ]
        ++ {| url := "https://x/a"; fn := "a-1.0.conda" |} :: [Sample.numpy]))
    "https://x/a"
  = Some "a-1.0.conda".
Proof.
  apply (fetch_mapping_last_wins
           [ {| url := "https://x/a"; fn := "a-1.0.tar.bz2" |} ] [Sample.numpy]
           {| url := "https://x/a"; fn := "a-1.0.conda" |}).
  simpl. intuition discriminate.
Defined.

(** ** Runs without pip dependencies *)

(** X15.  When the pip dependencies are absent ([None], as for a
    descriptor without a pip mapping), the pip phase leaves no trace: no pip
    directory is made, pip is not called, no requirements file is written,
    and the script has no pip section. *)
Theorem pip_phase_skipped_when_absent (h : Host) (packages : packages_arg)
    (o : Options) (fs : gmap string node) (cd : pyval) :
  res (normalize h packages fs) = inr (cd, PNone) ->
  Forall (pip_free_event h o)
    (events (generate_offline_install_package h packages o fs)).
Proof.
  intros Hnorm. unfold generate_offline_install_package.
  rewrite events_bind, Hnorm.
  destruct (silent_normalize h packages fs) as [-> ->].
  cbn [app fst snd]. as_only.
  apply only_bind; [apply only_makedirs; now left | intros _].
  apply only_bind; [| intros listing].
  { apply only_conda_phase; simpl; auto. }
  unfold pip_phase. cbn [truthy]. apply only_bind_ret.
  apply only_bind; [| intros _].
  { apply only_write_file. simpl. split; [reflexivity |]. exists listing.
    unfold script_text, pip_text. cbn [is_none]. now rewrite append_empty_r. }
  destruct (compress o); [now apply only_make_archive | apply only_ret].
Qed.

(** Scenario A: one conda dependency and no pip. *)
Lemma pip_phase_skipped_when_absent_witness :
  Forall (pip_free_event Sample.linux default_options)
    (events (generate_offline_install_package Sample.linux
               (Mapping [("conda", PList [PStr "numpy"]); ("pip", PNone)])
               default_options ∅)).
Proof.
  apply (pip_phase_skipped_when_absent Sample.linux
           (Mapping [("conda", PList [PStr "numpy"]); ("pip", PNone)])
           default_options ∅ (PList [PStr "numpy"])).
  reflexivity.
Defined.

(** ** The script on Windows, and the archive *)

Lemma script_text_batch (h : Host) (o : Options) (listing : option (list string))
    (pip : pyval) :
  is_nt h = true ->
  script_text h o listing pip
  = batch_script (script_preamble o) listing (negb (is_none pip)).
Proof.
  intros Hnt.
  unfold script_text, batch_script, file_mark, preamble_text, conda_text,
    pip_text, pip_section, comment_mark, command_prepend, join_spaces.
  rewrite Hnt.
  destruct (script_preamble o), listing, (is_none pip); reflexivity.
Qed.

(** X16.  On Windows ([os.name] is [nt]) a run that returns has written, as
    its last text file, [update.bat]: no shebang line, the preamble, then
    the conda and pip sections with [::] comment lines and every command
    behind [call]. *)
Theorem batch_replay_script (h : Host) (packages : packages_arg) (o : Options)
    (fs : gmap string node) (cd pip : pyval) :
  os_name h = "nt" ->
  res (normalize h packages fs) = inr (cd, pip) ->
  res (generate_offline_install_package h packages o fs) = inr tt ->
  exists listing before after,
    recorded_listing h cd listing
    /\ events (generate_offline_install_package h packages o fs)
       = before
         ++ EvWrite (path_join h (install_path_of h o) "update.bat")
              (batch_script (script_preamble o) listing (negb (is_none pip)))
         :: after
    /\ Forall (fun e => is_write e = false) after.
Proof.
  intros Hos Hnorm Hres.
  assert (Hnt : is_nt h = true) by (unfold is_nt; now rewrite Hos).
  destruct (run_shape h packages o fs) as [(e & _ & He & _)|(cd' & pip' & Hn & Hrest)];
    cbv zeta in *; [congruence |].
  rewrite Hnorm in Hn. injection Hn as <- <-.
  destruct Hrest as [(e & _ & He & _)|[(e & _ & He & _)|(listing & Hc & Hrest)]];
    [congruence | congruence |].
  destruct Hrest as [(e & _ & He & _)|(_ & [(e & _ & He & _)|(_ & tail & Htail & Hev & _)])];
    [congruence | congruence |].
  assert (Hpath : script_path h o = path_join h (install_path_of h o) "update.bat").
  { unfold script_path, update_file. now rewrite Hnt. }
  rewrite Hpath, (script_text_batch h o listing pip Hnt) in Hev.
  exists listing. eexists. exists tail.
  split; [eapply conda_phase_success; exact Hc |].
  split; [rewrite Hev; rewrite app_comm_cons, app_assoc; reflexivity |].
  eapply Forall_impl; [exact Htail | intros e He; apply He].
Qed.

Lemma batch_replay_script_witness :
  exists listing before after,
    recorded_listing WindowsSample.windows (PList [PStr "numpy"]) listing
    /\ events (generate_offline_install_package WindowsSample.windows
                 (Mapping [("conda", PList [PStr "numpy"]); ("pip", PList [PStr "flask"])])
                 default_options ∅)
       = before
         ++ EvWrite "C:\work\package\update.bat" (batch_script None listing true)
         :: after
    /\ Forall (fun e => is_write e = false) after.
Proof.
  apply (batch_replay_script WindowsSample.windows
           (Mapping [("conda", PList [PStr "numpy"]); ("pip", PList [PStr "flask"])])
           default_options ∅ (PList [PStr "numpy"]) (PList [PStr "flask"])).
  - reflexivity.
  - reflexivity.
  - vm_compute. reflexivity.
Defined.

Lemma bind_returns {A B : Type} (m : M A) (k : A -> M B) fs (b : B) :
  res (bind m k fs) = inr b ->
  exists a,
    res (m fs) = inr a
    /\ res (k a (disk (m fs))) = inr b
    /\ events (bind m k fs) = events (m fs) ++ events (k a (disk (m fs)))
    /\ disk (bind m k fs) = disk (k a (disk (m fs))).
Proof.
  rewrite res_bind, events_bind, disk_bind.
  destruct (res (m fs)) as [e|a]; [discriminate |]. intros Hk. exists a. auto.
Qed.

Lemma ends_in_app {A : Type} (x : A) (l1 l2 : list A) :
  (exists before, l2 = before ++ [x]) -> exists before, l1 ++ l2 = before ++ [x].
Proof. intros [before ->]. exists (l1 ++ before). now rewrite app_assoc. Qed.

(** X17.  Compression: without [compress] a run makes no archive; with it,
    a run that returns ends by archiving the bundle directory into
    [<install path>.zip], next to the directory, as its last action. *)
Theorem archive_made_on_request (h : Host) (packages : packages_arg) (o : Options)
    (fs : gmap string node) :
  (compress o = false ->
   Forall (fun e => is_archive e = false)
     (events (generate_offline_install_package h packages o fs)))
  /\ (compress o = true ->
      res (generate_offline_install_package h packages o fs) = inr tt ->
      (exists before,
         events (generate_offline_install_package h packages o fs)
         = before ++ [EvArchive (install_path_of h o +:+ ".zip") (install_path_of h o)])
      /\ disk (generate_offline_install_package h packages o fs)
         !! (install_path_of h o +:+ ".zip")
         = Some (File (zip_of h (install_path_of h o)))).
Proof.
  split.
  - intros Hc. unfold generate_offline_install_package. rewrite Hc. as_only.
    apply only_bind.
    { intros fs'. destruct (silent_normalize h packages fs') as [-> _]. constructor. }
    intros deps. apply only_bind; [now apply only_makedirs | intros _].
    apply only_bind; [apply only_conda_phase; auto | intros listing].
    apply only_bind; [apply only_pip_phase; auto | intros _].
    apply only_bind; [now apply only_write_file | intros _]. apply only_ret.
  - intros Hc Hres. unfold generate_offline_install_package in *. rewrite Hc in *.
    apply bind_returns in Hres. destruct Hres as (deps & _ & Hres & -> & ->).
    apply bind_returns in Hres. destruct Hres as ([] & _ & Hres & -> & ->).
    apply bind_returns in Hres. destruct Hres as (listing & _ & Hres & -> & ->).
    apply bind_returns in Hres. destruct Hres as ([] & _ & Hres & -> & ->).
    apply bind_returns in Hres. destruct Hres as ([] & _ & Hres & -> & ->).
    unfold make_archive in *.
    match goal with
    | H : res (store_file ?ev ?p ?c ?d) = inr tt |- _ =>
        destruct (store_file_cases ev p c d) as [(_ & He & Hd)|(Hr & _)];
          [rewrite He, Hd | congruence]
    end.
    split; [| apply lookup_insert_eq].
    do 5 apply ends_in_app. exists []. reflexivity.
Qed.

Lemma archive_made_on_request_witness :
  Forall (fun e => is_archive e = false)
    (events (generate_offline_install_package Sample.linux
               (Mapping [("pip", PList [PStr "flask"])]) default_options ∅))
  /\ (exists before,
        events (generate_offline_install_package Sample.linux
                  (Mapping [("pip", PList [PStr "flask"])])
                  {| package_location := "."; install_package_name := "package";
                     compress := true; exist_ok := true; script_preamble := None |} ∅)
        = before ++ [EvArchive "/work/package.zip" "/work/package"])
  /\ disk (generate_offline_install_package Sample.linux
             (Mapping [("pip", PList [PStr "flask"])])
             {| package_location := "."; install_package_name := "package";
                compress := true; exist_ok := true; script_preamble := None |} ∅)
     !! "/work/package.zip" = Some (File "zip").
Proof.
  split.
  - apply (proj1 (archive_made_on_request Sample.linux
                    (Mapping [("pip", PList [PStr "flask"])]) default_options ∅)).
    reflexivity.
  - apply (proj2 (archive_made_on_request Sample.linux
                    (Mapping [("pip", PList [PStr "flask"])])
                    {| package_location := "."; install_package_name := "package";
                       compress := true; exist_ok := true; script_preamble := None |} ∅)).
    + reflexivity.
    + vm_compute. reflexivity.
Defined.

(** ** The resolver inside a run *)

Lemma select_prefix_res (info : pyval) fs fs' :
  res (select_prefix info fs) = res (select_prefix info fs').
Proof.
  unfold select_prefix, getitem, lift_option, bind, ret, raise.
  destruct info; simpl; try reflexivity.
  destruct (PyDict.get _ "active_prefix") as [a|]; simpl; [| reflexivity].
  destruct (py_eq a (PStr "null")); simpl; [| reflexivity].
  destruct (PyDict.get _ "conda_prefix"); reflexivity.
Qed.

Lemma getitem_res (v : pyval) (k : string) fs fs' :
  res (getitem v k fs) = res (getitem v k fs').
Proof.
  unfold getitem, lift_option. destruct v; try reflexivity.
  destruct (PyDict.get _ k); reflexivity.
Qed.

(** The resolver either stops before it reaches the solver, with nothing
    emitted, or calls the solver once and hands its answer on. *)
Lemma solve_for_packages_cases (h : Host) (packages : pyval) fs :
  let r := solve_for_packages h packages fs in
  (events r = [] /\ exists e, res r = inl e)
  \/ exists specs prefix channels,
      py_iter packages = Some specs
      /\ res (select_prefix (conda_info h) ∅) = inr prefix
      /\ res (getitem (conda_info h) "channels" ∅) = inr channels
      /\ events r = [EvSolve prefix channels specs]
      /\ res r = match solver h prefix channels specs with
                 | inl msg => inl (SolverError msg)
                 | inr diff => inr diff
                 end.
Proof.
  cbv zeta. unfold solve_for_packages.
  rewrite res_bind, events_bind.
  destruct (py_iter packages) as [specs|];
    cbn [lift_option ret raise res events disk app]; [| left; eauto].
  rewrite res_bind, events_bind.
  destruct (silent_select_prefix (conda_info h) fs) as [-> ->].
  rewrite (select_prefix_res (conda_info h) fs ∅).
  destruct (res (select_prefix (conda_info h) ∅)) as [e|prefix];
    cbn [app]; [left; eauto |].
  rewrite res_bind, events_bind.
  destruct (silent_getitem (conda_info h) "channels" fs) as [-> ->].
  rewrite (getitem_res (conda_info h) "channels" fs ∅).
  destruct (res (getitem (conda_info h) "channels" ∅)) as [e|channels];
    cbn [app]; [left; eauto |].
  right. exists specs, prefix, channels.
  rewrite res_bind, events_bind. cbn [emit res events disk app].
  destruct (solver h prefix channels specs); cbn [ret raise res events];
    rewrite ?app_nil_r; auto.
Qed.

(** The conda phase step by step. *)
Lemma conda_phase_shape (h : Host) (o : Options) (ip : string) (cd : pyval) fs :
  let c := conda_phase h o ip cd fs in
  let cp := path_join h ip "conda" in
  (is_none cd = true /\ events c = [] /\ res c = inr None)
  \/ (is_none cd = false
      /\ ((events c = [EvMakedirs cp] /\ exists e, res c = inl e)
          \/ exists specs prefix channels,
              py_iter cd = Some specs
              /\ res (select_prefix (conda_info h) ∅) = inr prefix
              /\ res (getitem (conda_info h) "channels" ∅) = inr channels
              /\ ((exists msg,
                     solver h prefix channels specs = inl msg
                     /\ events c = [EvMakedirs cp; EvSolve prefix channels specs]
                     /\ res c = inl (SolverError msg))
                  \/ (exists removed added downloads,
                        solver h prefix channels specs = inr (removed, added)
                        /\ events c
                           = EvMakedirs cp :: EvSolve prefix channels specs :: downloads
                        /\ Forall (fun e => is_download e = true) downloads
                        /\ res c
                           = inr (Some (conda_listing (packages_to_fetch added))))))).
Proof.
  cbv zeta. unfold conda_phase. destruct (is_none cd); [left; auto |].
  right. split; [reflexivity |].
  rewrite res_bind, events_bind, events_makedirs.
  destruct (res (makedirs _ _ _ fs)) as [e|[]]; [left; eauto |].
  set (fs1 := disk (makedirs _ _ _ fs)).
  rewrite res_bind, events_bind.
  destruct (solve_for_packages_cases h cd fs1)
    as [(Hev & e & Hr)|(specs & prefix & channels & Hit & Hp & Hc & Hev & Hr)];
    cbv zeta in *; rewrite Hev, Hr.
  - left. eauto.
  - right. exists specs, prefix, channels. split; [exact Hit |].
    split; [exact Hp |]. split; [exact Hc |].
    destruct (solver h prefix channels specs) as [msg|[removed added]].
    + left. exists msg. auto.
    + right. exists removed, added. eexists. split; [reflexivity |].
      rewrite res_bind, events_bind, fetch_packages_res. cbn [snd app].
      rewrite app_nil_r. split; [reflexivity |]. split; [| reflexivity].
      as_only. apply only_fetch_packages; reflexivity.
Qed.

(** A run around its conda phase: what comes after the phase has no solver
    call and no download in it. *)
Lemma run_around_conda (h : Host) (packages : packages_arg) (o : Options) fs
    (cd pip : pyval) :
  res (normalize h packages fs) = inr (cd, pip) ->
  let run := generate_offline_install_package h packages o fs in
  let ip := install_path_of h o in
  let mk := makedirs h ip (exist_ok o) fs in
  (exists e, res mk = inl e /\ res run = inl e /\ events run = [EvMakedirs ip])
  \/ (let c := conda_phase h o ip cd (disk mk) in
      exists rest,
        events run = EvMakedirs ip :: events c ++ rest
        /\ Forall (fun e => after_conda e = true) rest
        /\ match res c with
           | inl e => res run = inl e /\ rest = []
           | inr _ => True
           end).
Proof.
  intros Hn. cbv zeta. unfold generate_offline_install_package.
  rewrite res_bind, events_bind, Hn.
  destruct (silent_normalize h packages fs) as [-> ->]. cbn [fst snd app].
  rewrite res_bind, events_bind, events_makedirs.
  destruct (res (makedirs _ _ _ fs)) as [e|[]]; [left; eauto |]. right.
  set (fs1 := disk (makedirs _ _ _ fs)).
  rewrite res_bind, events_bind.
  destruct (res (conda_phase h o _ cd fs1)) as [e|listing].
  - exists []. auto.
  - eexists. split; [reflexivity |]. split; [| exact I].
    as_only. apply only_bind; [apply only_pip_phase; reflexivity | intros _].
    apply only_bind; [now apply only_write_file | intros _].
    destruct (compress o); [now apply only_make_archive | apply only_ret].
Qed.

(** ** Failed downloads *)

(** A conda phase that returns has called [fetch_packages] once, with the
    fetch mapping of what the solver wants added, on a disk where the conda
    directory is there. *)
Lemma conda_phase_fetch (h : Host) (o : Options) (ip : string) (cd : pyval) fs
    (listing : option (list string)) :
  res (conda_phase h o ip cd fs) = inr listing ->
  is_none cd = false ->
  exists removed added before fs',
    res (solve_for_packages h cd ∅) = inr (removed, added)
    /\ fs' !! path_join h ip "conda" = Some Dir
    /\ Forall (fun e => is_download e = false) before
    /\ events (conda_phase h o ip cd fs)
       = before ++ events (fetch_packages h (packages_to_fetch added)
                             (path_join h ip "conda") fs').
Proof.
  unfold conda_phase. intros Hres Hnone. rewrite Hnone in *.
  rewrite res_bind in Hres. rewrite events_bind.
  destruct (res (makedirs h (path_join h ip "conda") (exist_ok o) fs))
    as [e|[]] eqn:Hmk; [discriminate |].
  apply makedirs_makes in Hmk.
  set (fs1 := disk (makedirs h (path_join h ip "conda") (exist_ok o) fs)) in *.
  rewrite res_bind in Hres. rewrite events_bind.
  destruct (res (solve_for_packages h cd fs1)) as [e|[removed added]] eqn:Hsolve;
    [discriminate |].
  rewrite events_bind, fetch_packages_res, solve_for_packages_disk. cbn [snd].
  exists removed, added,
    ([EvMakedirs (path_join h ip "conda")] ++ events (solve_for_packages h cd fs1)),
    fs1.
  split; [rewrite <- Hsolve; apply solve_for_packages_res |].
  split; [exact Hmk |]. split.
  - apply Forall_app. split; [repeat constructor |].
    as_only. apply only_solve_for_packages. reflexivity.
  - rewrite app_nil_r, app_assoc, events_makedirs. reflexivity.
Qed.

(** C1, as amended.  A download that raises does not stop the others and
    does not stop the run.  [fetch_packages] returns normally, and every task
    whose request succeeds writes its file into the download directory
    (unless a directory has the name of the file).  A run that has requested
    a download has called [fetch_packages] on a disk where the conda
    directory is there, has downloaded nothing outside that call, and has
    gone on after it: into the pip phase when there are pip dependencies, to
    the write of the replay script otherwise.
    The exception stays in the future that [fetch_packages] drops: no
    results are collected, so no run ends with a download's error. *)
Theorem failed_download_is_dropped (h : Host) :
  (forall urls dir fs,
     let o := fetch_packages h urls dir fs in
     res o = inr tt
     /\ forall u p c,
          In (u, p) urls -> http_get h u = Some c ->
          fs !! dir = Some Dir ->
          fs !! path_join h dir p <> Some Dir ->
          In (EvSave (path_join h dir p) c) (events o)
          /\ exists c', disk o !! path_join h dir p = Some (File c'))
  /\ (forall packages o fs u,
        let run := generate_offline_install_package h packages o fs in
        In (EvGet u) (events run) ->
        exists cd pip removed added before rest fs',
          res (normalize h packages fs) = inr (cd, pip)
          /\ res (solve_for_packages h cd ∅) = inr (removed, added)
          /\ fs' !! conda_path h o = Some Dir
          /\ events run
             = before
               ++ events (fetch_packages h (packages_to_fetch added)
                            (conda_path h o) fs')
               ++ rest
          /\ Forall (fun e => is_download e = false) (before ++ rest)
          /\ went_on h o pip run)
  /\ (forall packages o fs u,
        res (generate_offline_install_package h packages o fs)
        <> inl (RequestException u)).
Proof.
  split; [| split].
  - intros urls dir fs. cbv zeta. rewrite fetch_packages_tasks.
    destruct (run_tasks_spec h dir (pool_order (length urls) (schedule h) urls) fs)
      as (Hres & _ & _ & _ & Hsave).
    split; [exact Hres |]. intros u p c Hin Hhttp Hdir Hnodir.
    apply (Hsave (u, p) c);
      [now apply pool_order_In | exact Hhttp | exact Hdir | exact Hnodir].
  - intros packages o fs u. cbv zeta. intros Hin.
    destruct (run_shape h packages o fs) as [(e & _ & _ & Hev)|(cd & pip & Hn & Hshape)];
      cbv zeta in *; [rewrite Hev in Hin; contradiction |].
    destruct (run_around_conda h packages o fs cd pip Hn)
      as [(e & _ & _ & Hev)|(rest & Hev & Hrest & Hend)]; cbv zeta in *.
    { rewrite Hev in Hin. destruct Hin as [[=]|[]]. }
    set (fs1 := disk (makedirs h (install_path_of h o) (exist_ok o) fs)) in *.
    set (c := conda_phase h o (install_path_of h o) cd fs1) in *.
    assert (Hinc : In (EvGet u) (events c)).
    { rewrite Hev in Hin. destruct Hin as [[=]|Hin].
      apply in_app_or in Hin. destruct Hin as [Hin|Hin]; [exact Hin |].
      rewrite List.Forall_forall in Hrest. apply Hrest in Hin. discriminate. }
    assert (Hconda : is_none cd = false /\ exists listing, res c = inr listing).
    { destruct (conda_phase_shape h o (install_path_of h o) cd fs1)
        as [(_ & Hevc & _)|(Hnone & Hcase)]; cbv zeta in *; fold c in Hevc || fold c in Hcase.
      - rewrite Hevc in Hinc. contradiction.
      - split; [exact Hnone |].
        destruct Hcase as [(Hevc & _)|(specs & prefix & channels & _ & _ & _ & Hcase)].
        + rewrite Hevc in Hinc. destruct Hinc as [[=]|[]].
        + destruct Hcase as [(msg & _ & Hevc & _)|(removed & added & dl & _ & _ & _ & Hr)].
          * rewrite Hevc in Hinc. destruct Hinc as [[=]|[[=]|[]]].
          * eauto. }
    destruct Hconda as [Hnone [listing Hc]].
    destruct (conda_phase_fetch h o (install_path_of h o) cd fs1 listing Hc Hnone)
      as (removed & added & before & fs' & Hsolve & Hdir & Hbefore & Hevc).
    fold c in Hevc.
    exists cd, pip, removed, added, (EvMakedirs (install_path_of h o) :: before), rest, fs'.
    split; [exact Hn |]. split; [exact Hsolve |]. split; [exact Hdir |].
    split; [rewrite Hev, Hevc, <- app_assoc; reflexivity |].
    split.
    { apply Forall_app. split; [constructor; [reflexivity | exact Hbefore] |].
      eapply Forall_impl; [exact Hrest |]. intros e He. now destruct e. }
    (* the run after the conda phase *)
    destruct Hshape as [(e & Hmk & _)|[(e & He & _)|(listing' & _ & Hshape)]].
    { assert (Hmade : events (generate_offline_install_package h packages o fs)
                      = [EvMakedirs (install_path_of h o)]).
      { unfold generate_offline_install_package.
        rewrite events_bind, Hn. destruct (silent_normalize h packages fs) as [-> ->].
        cbn [app fst snd]. rewrite events_bind, events_makedirs, Hmk. reflexivity. }
      rewrite Hmade in Hin. destruct Hin as [[=]|[]]. }
    { fold fs1 in He. fold c in He. congruence. }
    fold fs1 in Hshape. fold c in Hshape.
    unfold went_on.
    destruct (pip_phase_cases h o (install_path_of h o) pip (disk c))
      as [(Ht & Hr & Hpe & _)|Hpip]; cbv zeta in *.
    + rewrite Ht.
      destruct Hshape as [(e & He & _)|(_ & [(e & Hw & Hrun & _)|(_ & tail & _ & Hevr & _)])];
        [congruence | |].
      * right. exists e. split; [exact Hrun |].
        destruct (write_file_cases EvWrite h (install_path_of h o) (update_file h)
                    (script_text h o listing' pip)
                    (disk (pip_phase h o (install_path_of h o) pip (disk c))))
          as [(Hok & _)|(e' & Herr & Hpath & _)]; cbv zeta in *; [congruence |].
        rewrite Herr in Hw. injection Hw as <-. exact Hpath.
      * left. eexists. rewrite Hevr. right. apply in_or_app. right.
        apply in_or_app. right. now left.
    + assert (Ht : truthy pip = true /\ exists more,
                events (pip_phase h o (install_path_of h o) pip (disk c))
                = EvMakedirs (pip_path h o) :: more).
      { destruct Hpip as [(Ht & e & _ & Hpe)|[(Ht & a & t & k & e & _ & _ & Hpe)
                          |(Ht & a & t & _ & Hpe)]];
          (split; [exact Ht |]); rewrite Hpe; eexists; reflexivity. }
      destruct Ht as [Ht [more Hpe]]. rewrite Ht.
      assert (Hall : exists tail,
                events (generate_offline_install_package h packages o fs)
                = EvMakedirs (install_path_of h o)
                  :: events c
                     ++ events (pip_phase h o (install_path_of h o) pip (disk c))
                     ++ tail).
      { destruct Hshape as [(e & _ & _ & Hevr)|(_ & [(e & _ & _ & Hevr)
                            |(_ & tail & _ & Hevr & _)])].
        - exists []. now rewrite app_nil_r.
        - exists []. now rewrite app_nil_r.
        - eexists. exact Hevr. }
      destruct Hall as [tail Hevr]. rewrite Hevr, Hpe.
      right. apply in_or_app. right. now left.
  - intros packages o fs u Hres.
    pose proof (never_generate h packages o fs _ Hres) as Hno. discriminate.
Qed.

(** Scenario D on the sample host: the download of the second of three
    packages fails. *)
Lemma failed_download_is_dropped_witness :
  (In (EvSave "/work/package/conda/zlib-1.2.tar.bz2" "bytes of https://x/zlib-1.2.tar.bz2")
      (events (fetch_packages Sample.flaky
                 (packages_to_fetch [Sample.numpy; Sample.scipy; Sample.zlib])
                 "/work/package/conda" {["/work/package/conda" := Dir]}))
   /\ exists c',
        disk (fetch_packages Sample.flaky
                (packages_to_fetch [Sample.numpy; Sample.scipy; Sample.zlib])
                "/work/package/conda" {["/work/package/conda" := Dir]})
        !! "/work/package/conda/zlib-1.2.tar.bz2" = Some (File c'))
  /\ (exists cd pip removed added before rest fs',
        res (normalize Sample.flaky (Mapping [("conda", PList [PStr "numpy"])]) ∅)
        = inr (cd, pip)
        /\ res (solve_for_packages Sample.flaky cd ∅) = inr (removed, added)
        /\ fs' !! conda_path Sample.flaky default_options = Some Dir
        /\ events (generate_offline_install_package Sample.flaky
                     (Mapping [("conda", PList [PStr "numpy"])]) default_options ∅)
           = before
             ++ events (fetch_packages Sample.flaky (packages_to_fetch added)
                          (conda_path Sample.flaky default_options) fs')
             ++ rest
        /\ Forall (fun e => is_download e = false) (before ++ rest)
        /\ went_on Sample.flaky default_options pip
             (generate_offline_install_package Sample.flaky
                (Mapping [("conda", PList [PStr "numpy"])]) default_options ∅))
  /\ res (generate_offline_install_package Sample.flaky
            (Mapping [("conda", PList [PStr "numpy"])]) default_options ∅)
     <> inl (RequestException "https://x/scipy-1.1.tar.bz2").
Proof.
  split; [| split].
  - apply (proj2 (proj1 (failed_download_is_dropped Sample.flaky)
                    (packages_to_fetch [Sample.numpy; Sample.scipy; Sample.zlib])
                    "/work/package/conda" {["/work/package/conda" := Dir]})
             "https://x/zlib-1.2.tar.bz2" "zlib-1.2.tar.bz2").
    + vm_compute. tauto.
    + reflexivity.
    + reflexivity.
    + vm_compute. discriminate.
  - apply (proj1 (proj2 (failed_download_is_dropped Sample.flaky))
             (Mapping [("conda", PList [PStr "numpy"])]) default_options ∅
             "https://x/scipy-1.1.tar.bz2").
    vm_compute. tauto.
  - apply (proj2 (proj2 (failed_download_is_dropped Sample.flaky))).
Defined.

(** Scenario D, the run as a whole: the second download fails, the first
    and the third are written, and the run returns normally, with the
    script written. *)
Lemma failed_download_run_returns :
  ~ failed_download_is_fatal Sample.flaky
      (Mapping [("conda", PList [PStr "numpy"])]) default_options ∅.
Proof.
  unfold failed_download_is_fatal. cbv zeta. intros H.
  destruct H as [_ [e He]].
  - exists "https://x/scipy-1.1.tar.bz2". split; [vm_compute; tauto | reflexivity].
  - vm_compute in He. discriminate.
Qed.

(** What Scenario D leaves: a trace with the three requests and two saved
    files, the script, and no error. *)
Example failed_download_run_trace :
  res (generate_offline_install_package Sample.flaky
         (Mapping [("conda", PList [PStr "numpy"])]) default_options ∅)
  = inr tt
  /\ List.filter is_download
       (events (generate_offline_install_package Sample.flaky
                  (Mapping [("conda", PList [PStr "numpy"])]) default_options ∅))
     = [EvGet "https://x/numpy-1.0.tar.bz2";
        EvSave "/work/package/conda/numpy-1.0.tar.bz2" "bytes of https://x/numpy-1.0.tar.bz2";
        EvGet "https://x/scipy-1.1.tar.bz2";
        EvGet "https://x/zlib-1.2.tar.bz2";
        EvSave "/work/package/conda/zlib-1.2.tar.bz2" "bytes of https://x/zlib-1.2.tar.bz2"]
  /\ (exists text,
        disk (generate_offline_install_package Sample.flaky
                (Mapping [("conda", PList [PStr "numpy"])]) default_options ∅)
        !! "/work/package/update.sh" = Some (File text)).
Proof. vm_compute. split; [reflexivity |]. split; [reflexivity |]. eauto. Qed.


(** X18.  When the solver raises, the run ends there with the solver's
    error: the bundle and conda directories have been made, and nothing is
    fetched, no pip phase runs and no script is written. *)
Theorem solver_failure_aborts (h : Host) (packages : packages_arg) (o : Options)
    (fs : gmap string node) (prefix channels : pyval) (specs : list pyval)
    (msg : string) :
  In (EvSolve prefix channels specs)
     (events (generate_offline_install_package h packages o fs)) ->
  solver h prefix channels specs = inl msg ->
  res (generate_offline_install_package h packages o fs) = inl (SolverError msg)
  /\ events (generate_offline_install_package h packages o fs)
     = [EvMakedirs (install_path_of h o); EvMakedirs (conda_path h o);
        EvSolve prefix channels specs].
Proof.
  intros Hin Hfail.
  destruct (res (normalize h packages fs)) as [e|[cd pip]] eqn:Hn.
  { destruct (run_at_normalize_error h packages o fs e Hn) as (_ & Hev & _).
    rewrite Hev in Hin. contradiction. }
  destruct (run_around_conda h packages o fs cd pip Hn)
    as [(e & _ & _ & Hev)|(rest & Hev & Hrest & Hres)]; cbv zeta in *.
  { rewrite Hev in Hin. destruct Hin as [[=]|[]]. }
  rewrite Hev in Hin |- *. destruct Hin as [[=]|Hin].
  apply in_app_or in Hin. destruct Hin as [Hin|Hin].
  2:{ rewrite List.Forall_forall in Hrest. specialize (Hrest _ Hin). discriminate. }
  destruct (conda_phase_shape h o (install_path_of h o) cd
              (disk (makedirs h (install_path_of h o) (exist_ok o) fs)))
    as [(_ & Hc & _)|(_ & [(Hc & _)|(sp & pr & ch & _ & _ & _ & Hcase)])];
    cbv zeta in *.
  - rewrite Hc in Hin. contradiction.
  - rewrite Hc in Hin. destruct Hin as [[=]|[]].
  - destruct Hcase as [(msg' & Hs & Hc & Hr)|(removed & added & dl & Hs & Hc & Hdl & _)];
      rewrite Hc in Hin |- *.
    + destruct Hin as [[=]|[[= <- <- <-]|[]]].
      rewrite Hfail in Hs. injection Hs as <-.
      rewrite Hr in Hres. destruct Hres as [-> ->]. split; reflexivity.
    + destruct Hin as [[=]|[[= <- <- <-]|Hin]]; [congruence |].
      rewrite List.Forall_forall in Hdl. specialize (Hdl _ Hin). discriminate.
Qed.

Lemma solver_failure_aborts_witness :
  res (generate_offline_install_package
         (with_solver Sample.linux (fun _ _ _ => inl "unsatisfiable"))
         (Mapping [("conda", PList [PStr "nosuchpackage"])]) default_options ∅)
  = inl (SolverError "unsatisfiable")
  /\ events (generate_offline_install_package
               (with_solver Sample.linux (fun _ _ _ => inl "unsatisfiable"))
               (Mapping [("conda", PList [PStr "nosuchpackage"])]) default_options ∅)
     = [EvMakedirs "/work/package"; EvMakedirs "/work/package/conda";
        EvSolve (PStr "/opt/conda/envs/dev") (PList [PStr "https://x"])
          [PStr "nosuchpackage"]].
Proof.
  apply (solver_failure_aborts
           (with_solver Sample.linux (fun _ _ _ => inl "unsatisfiable"))
           (Mapping [("conda", PList [PStr "nosuchpackage"])]) default_options ∅
           (PStr "/opt/conda/envs/dev") (PList [PStr "https://x"])
           [PStr "nosuchpackage"] "unsatisfiable").
  - vm_compute. tauto.
  - reflexivity.
Defined.

Lemma filter_none {A : Type} (f : A -> bool) (l : list A) :
  Forall (fun x => f x = false) l -> List.filter f l = [].
Proof.
  induction 1 as [|x l Hx _ IH]; simpl; [reflexivity |]. now rewrite Hx.
Qed.

(** X19.  A run calls the solver at most once, and when it does, with one
    specifier per conda dependency, in the order of the input, with the
    channels of `conda info` and with the prefix line 62 selects. *)
Theorem solver_called_once_with_specifiers (h : Host) (packages : packages_arg)
    (o : Options) (fs : gmap string node) (cd pip : pyval)
    (prefix channels : pyval) (specs : list pyval) :
  res (normalize h packages fs) = inr (cd, pip) ->
  In (EvSolve prefix channels specs)
     (events (generate_offline_install_package h packages o fs)) ->
  py_iter cd = Some specs
  /\ res (getitem (conda_info h) "channels" ∅) = inr channels
  /\ res (select_prefix (conda_info h) ∅) = inr prefix
  /\ solver_calls (events (generate_offline_install_package h packages o fs)) = 1.
Proof.
  intros Hn Hin.
  destruct (run_around_conda h packages o fs cd pip Hn)
    as [(e & _ & _ & Hev)|(rest & Hev & Hrest & _)]; cbv zeta in *.
  { rewrite Hev in Hin. destruct Hin as [[=]|[]]. }
  assert (Hnone : List.filter is_solve rest = []).
  { apply filter_none. eapply Forall_impl; [exact Hrest |].
    intros e He. now destruct e. }
  unfold solver_calls. rewrite Hev in Hin |- *. destruct Hin as [[=]|Hin].
  apply in_app_or in Hin. destruct Hin as [Hin|Hin].
  2:{ rewrite List.Forall_forall in Hrest. specialize (Hrest _ Hin). discriminate. }
  cbn [List.filter is_solve]. rewrite List.filter_app, Hnone, app_nil_r.
  destruct (conda_phase_shape h o (install_path_of h o) cd
              (disk (makedirs h (install_path_of h o) (exist_ok o) fs)))
    as [(_ & Hc & _)|(_ & [(Hc & _)|(sp & pr & ch & Hit & Hp & Hch & Hcase)])];
    cbv zeta in *.
  - rewrite Hc in Hin. contradiction.
  - rewrite Hc in Hin. destruct Hin as [[=]|[]].
  - destruct Hcase as [(msg' & _ & Hc & _)|(removed & added & dl & _ & Hc & Hdl & _)];
      rewrite Hc in Hin |- *.
    + destruct Hin as [[=]|[[= <- <- <-]|[]]]. auto.
    + assert (Hdl' : List.filter is_solve dl = []).
      { apply filter_none. eapply Forall_impl; [exact Hdl |].
        intros e He. now destruct e. }
      cbn [List.filter is_solve]. rewrite Hdl'.
      destruct Hin as [[=]|[[= <- <- <-]|Hin]]; [auto |].
      rewrite List.Forall_forall in Hdl. specialize (Hdl _ Hin). discriminate.
Qed.

Lemma solver_called_once_with_specifiers_witness :
  py_iter (PList [PStr "numpy"; PStr "scipy"]) = Some [PStr "numpy"; PStr "scipy"]
  /\ res (getitem (conda_info Sample.linux) "channels" ∅) = inr (PList [PStr "https://x"])
  /\ res (select_prefix (conda_info Sample.linux) ∅) = inr (PStr "/opt/conda/envs/dev")
  /\ solver_calls
       (events (generate_offline_install_package Sample.linux
                  (Mapping [("conda", PList [PStr "numpy"; PStr "scipy"])])
                  default_options ∅)) = 1.
Proof.
  apply (solver_called_once_with_specifiers Sample.linux
           (Mapping [("conda", PList [PStr "numpy"; PStr "scipy"])])
           default_options ∅ (PList [PStr "numpy"; PStr "scipy"]) PNone).
  - reflexivity.
  - vm_compute. tauto.
Defined.

(** ** What is to be removed plays no part *)

Lemma bind_ext {A B : Type} (m m' : M A) (k k' : A -> M B) fs :
  m fs = m' fs -> (forall a fs', k a fs' = k' a fs') ->
  bind m k fs = bind m' k' fs.
Proof.
  intros Hm Hk. unfold bind. rewrite Hm.
  destruct (res (m' fs)); [reflexivity |]. now rewrite Hk.
Qed.

Lemma bind_related {A B : Type} (R : A -> A -> Prop) (m m' : M A)
    (k k' : A -> M B) fs :
  disk (m fs) = disk (m' fs) -> events (m fs) = events (m' fs) ->
  match res (m fs), res (m' fs) with
  | inl e, inl e' => e = e'
  | inr a, inr a' => R a a'
  | _, _ => False
  end ->
  (forall a a' fs', R a a' -> k a fs' = k' a' fs') ->
  bind m k fs = bind m' k' fs.
Proof.
  intros Hd He Hr Hk. unfold bind. rewrite Hd, He.
  destruct (res (m fs)) as [e|a], (res (m' fs)) as [e'|a']; try contradiction.
  - now subst.
  - now rewrite (Hk a a' _ Hr).
Qed.

Lemma solve_for_packages_related (h : Host) s' (packages : pyval) fs :
  (forall p c sp, same_additions (s' p c sp) (solver h p c sp)) ->
  events (solve_for_packages (with_solver h s') packages fs)
  = events (solve_for_packages h packages fs)
  /\ match res (solve_for_packages (with_solver h s') packages fs),
           res (solve_for_packages h packages fs) with
     | inl e, inl e' => e = e'
     | inr d, inr d' => snd d = snd d'
     | _, _ => False
     end.
Proof.
  intros Hrel.
  unfold solve_for_packages, select_prefix, getitem, lift_option, emit, bind, ret, raise.
  cbn [solver conda_info with_solver].
  destruct (py_iter packages); simpl; [| auto].
  destruct (conda_info h); simpl; auto.
  destruct (PyDict.get _ "active_prefix") as [a|]; simpl; [| auto].
  destruct (py_eq a (PStr "null")); simpl.
  - destruct (PyDict.get _ "conda_prefix") as [cp|]; simpl; [| auto].
    destruct (PyDict.get _ "channels") as [ch|]; simpl; [| auto].
    specialize (Hrel cp ch l). unfold same_additions in Hrel.
    destruct (s' cp ch l), (solver h cp ch l); simpl; try contradiction;
      split; congruence.
  - destruct (PyDict.get _ "channels") as [ch|]; simpl; [| auto].
    specialize (Hrel a ch l). unfold same_additions in Hrel.
    destruct (s' a ch l), (solver h a ch l); simpl; try contradiction;
      split; congruence.
Qed.

(** X20.  Only the packages to add count: two solvers that fail alike and
    agree on what is to be added give the same run (result, events and
    disk), whatever they want removed. *)
Theorem removals_are_ignored (h : Host)
    (s' : pyval -> pyval -> list pyval ->
          string + (list PackageRecord * list PackageRecord))
    (packages : packages_arg) (o : Options) (fs : gmap string node) :
  (forall p c sp, same_additions (s' p c sp) (solver h p c sp)) ->
  generate_offline_install_package (with_solver h s') packages o fs
  = generate_offline_install_package h packages o fs.
Proof.
  intros Hrel. unfold generate_offline_install_package.
  apply bind_ext; [reflexivity | intros deps fs1].
  apply bind_ext; [reflexivity | intros _ fs2].
  apply bind_ext; [| intros listing fs3; reflexivity].
  unfold conda_phase. destruct (is_none (fst deps)); [reflexivity |].
  apply bind_ext; [reflexivity | intros _ fs3].
  destruct (solve_for_packages_related h s' (fst deps) fs3 Hrel) as [Hev Hres].
  apply (bind_related (fun d d' => snd d = snd d')); [| exact Hev | exact Hres |].
  - now rewrite !solve_for_packages_disk.
  - intros d d' fs4 Hd. rewrite Hd. reflexivity.
Qed.

Lemma removals_are_ignored_witness :
  generate_offline_install_package
    (with_solver Sample.linux (fun _ _ _ => inr ([Sample.zlib], [Sample.numpy])))
    (Mapping [("conda", PList [PStr "numpy"])]) default_options ∅
  = generate_offline_install_package
      (with_solver Sample.linux (fun _ _ _ => inr ([], [Sample.numpy])))
      (Mapping [("conda", PList [PStr "numpy"])]) default_options ∅.
Proof.
  apply (removals_are_ignored
           (with_solver Sample.linux (fun _ _ _ => inr ([], [Sample.numpy])))
           (fun _ _ _ => inr ([Sample.zlib], [Sample.numpy]))
           (Mapping [("conda", PList [PStr "numpy"])]) default_options ∅).
  intros p c sp. reflexivity.
Defined.

(** ** Directories before what goes into them *)







(** ** The pip phase and its arguments *)

Lemma pip_phase_outcome (h : Host) (o : Options) (ip : string) (pip : pyval) fs :
  truthy pip = true ->
  let r := pip_phase h o ip pip fs in
  let pp := path_join h ip "pip" in
  match pip_arguments pip with
  | None => events r = [EvMakedirs pp] /\ exists e, res r = inl e
  | Some args =>
      res r = inr tt ->
      events r = [EvMakedirs pp;
                  EvPipDownload args (path_join h pp "downloaded") 0%Z;
                  EvWrite (path_join h pp "requirements.txt") (requirements_text args)]
  end.
Proof.
  intros Htruthy. cbv zeta. unfold pip_phase, pip_arguments. rewrite Htruthy.
  rewrite res_bind, events_bind, events_makedirs.
  destruct (res (makedirs _ _ _ fs)) as [e|[]].
  { destruct (py_iter pip) as [items|]; [destruct (as_strings items) |];
      try discriminate; eauto. }
  set (fs1 := disk (makedirs _ _ _ fs)).
  rewrite res_bind, events_bind.
  destruct (py_iter pip) as [items|];
    cbn [lift_option ret raise res events disk app]; [| eauto].
  rewrite res_bind, events_bind.
  destruct (as_strings items) as [args|];
    cbn [lift_option ret raise res events disk app]; [| eauto].
  rewrite res_bind, events_bind. unfold pip_check_call.
  rewrite res_bind, events_bind. cbn [emit res events disk app].
  destruct (Z.eqb_spec (pip_download h args (path_join h (path_join h ip "pip") "downloaded")) 0)
    as [Hz|Hnz]; cbn [ret raise res events disk app]; [| discriminate].
  rewrite Hz.
  match goal with
  | |- res (write_file ?ev ?h' ?d ?n ?c ?f) = _ -> _ =>
      destruct (write_file_cases ev h' d n c f) as [(_ & He & _)|(e & Hr & _)];
        cbv zeta in *
  end.
  - rewrite He. reflexivity.
  - rewrite Hr. discriminate.
Qed.

Lemma run_returns_pip_events (h : Host) (packages : packages_arg) (o : Options) fs
    (cd pip : pyval) :
  res (normalize h packages fs) = inr (cd, pip) ->
  res (generate_offline_install_package h packages o fs) = inr tt ->
  exists fs2,
    res (pip_phase h o (install_path_of h o) pip fs2) = inr tt
    /\ forall e, In e (events (pip_phase h o (install_path_of h o) pip fs2)) ->
                 In e (events (generate_offline_install_package h packages o fs)).
Proof.
  intros Hn Hres.
  destruct (run_shape h packages o fs) as [(e & _ & He & _)|(cd' & pip' & Hn' & Hrest)];
    cbv zeta in *; [congruence |].
  rewrite Hn in Hn'. injection Hn' as <- <-.
  destruct Hrest as [(e & _ & He & _)|[(e & _ & He & _)|(listing & _ & Hrest)]];
    [congruence | congruence |].
  destruct Hrest as [(e & _ & He & _)|(Hpp & [(e & _ & He & _)|(_ & tail & _ & Hev & _)])];
    [congruence | congruence |].
  eexists. split; [exact Hpp |]. intros e He. rewrite Hev.
  right. apply in_or_app. right. apply in_or_app. now left.
Qed.

(** X22.  The requirements file of a run that returns holds the pip
    specifiers in their order, written one after the other with nothing
    between them and nothing after the last. *)
Theorem requirements_file_is_concatenation (h : Host) (packages : packages_arg)
    (o : Options) (fs : gmap string node) (cd pip : pyval) (args : list string) :
  res (normalize h packages fs) = inr (cd, pip) ->
  truthy pip = true ->
  pip_arguments pip = Some args ->
  res (generate_offline_install_package h packages o fs) = inr tt ->
  In (EvWrite (requirements_path h o) (String.concat "" args))
     (events (generate_offline_install_package h packages o fs)).
Proof.
  intros Hn Htruthy Hargs Hres.
  destruct (run_returns_pip_events h packages o fs cd pip Hn Hres) as (fs2 & Hpp & Hsub).
  apply Hsub.
  pose proof (pip_phase_outcome h o (install_path_of h o) pip fs2 Htruthy) as Hout.
  cbv zeta in Hout. rewrite Hargs in Hout. rewrite (Hout Hpp).
  rewrite requirements_text_concat. right. right. now left.
Qed.

Lemma requirements_file_is_concatenation_witness :
  In (EvWrite (requirements_path Sample.linux default_options)
        (String.concat "" ["flask"; "requests==2.0"]))
     (events (generate_offline_install_package Sample.linux
                (Mapping [("pip", PList [PStr "flask"; PStr "requests==2.0"])])
                default_options ∅)).
Proof.
  apply (requirements_file_is_concatenation Sample.linux
           (Mapping [("pip", PList [PStr "flask"; PStr "requests==2.0"])])
           default_options ∅ PNone (PList [PStr "flask"; PStr "requests==2.0"])).
  - reflexivity.
  - reflexivity.
  - reflexivity.
  - vm_compute. reflexivity.
Defined.

Lemma lines_from_no_newline (s cur : string) :
  contains_newline s = false ->
  lines_from cur s = if String.eqb (cur +:+ s) "" then [] else [cur +:+ s].
Proof.
  revert cur. induction s as [|c s IH]; intros cur Hs.
  - simpl. now rewrite append_empty_r.
  - simpl in Hs. apply orb_false_iff in Hs. destruct Hs as [Hc Hs].
    simpl. rewrite Hc, IH by assumption.
    now rewrite append_assoc.
Qed.

(** X23.  With a single pip specifier (not empty, without a newline) the
    requirements file of a run that returns is that specifier, and read
    line by line it gives back the list that was passed in. *)
Theorem one_specifier_round_trip (h : Host) (packages : packages_arg)
    (o : Options) (fs : gmap string node) (cd : pyval) (s : string) :
  res (normalize h packages fs) = inr (cd, PList [PStr s]) ->
  s <> "" ->
  contains_newline s = false ->
  res (generate_offline_install_package h packages o fs) = inr tt ->
  In (EvWrite (requirements_path h o) s)
     (events (generate_offline_install_package h packages o fs))
  /\ lines s = [s].
Proof.
  intros Hn Hne Hnl Hres. split.
  - destruct (run_returns_pip_events h packages o fs cd _ Hn Hres) as (fs2 & Hpp & Hsub).
    apply Hsub.
    pose proof (pip_phase_outcome h o (install_path_of h o) (PList [PStr s]) fs2 eq_refl)
      as Hout.
    cbv zeta in Hout. cbn [pip_arguments py_iter as_strings fmap option_fmap option_map]
      in Hout.
    rewrite (Hout Hpp). right. right. now left.
  - unfold lines. rewrite lines_from_no_newline by assumption.
    change ("" +:+ s) with s.
    destruct (String.eqb_spec s "") as [Heq|_]; [contradiction | reflexivity].
Qed.

Lemma one_specifier_round_trip_witness :
  In (EvWrite (requirements_path Sample.linux default_options) "flask")
     (events (generate_offline_install_package Sample.linux
                (Mapping [("pip", PList [PStr "flask"])]) default_options ∅))
  /\ lines "flask" = ["flask"].
Proof.
  apply (one_specifier_round_trip Sample.linux
           (Mapping [("pip", PList [PStr "flask"])]) default_options ∅ PNone "flask").
  - reflexivity.
  - discriminate.
  - reflexivity.
  - vm_compute. reflexivity.
Defined.

(** X24.  Pip dependencies that cannot be turned into arguments (a number
    where a list is expected, a list with an entry that is not a string)
    stop the run with an error after the pip directory is made: pip is not
    started and neither the requirements file nor the script is written. *)
Theorem unusable_pip_dependencies_abort (h : Host) (packages : packages_arg)
    (o : Options) (fs : gmap string node) (cd pip : pyval) :
  res (normalize h packages fs) = inr (cd, pip) ->
  truthy pip = true ->
  pip_arguments pip = None ->
  (exists e, res (generate_offline_install_package h packages o fs) = inl e)
  /\ Forall (fun e => is_pip_download e = false /\ is_write e = false)
       (events (generate_offline_install_package h packages o fs)).
Proof.
  intros Hn Htruthy Hargs.
  destruct (run_shape h packages o fs) as [(e & _ & He & Hev)|(cd' & pip' & Hn' & Hrest)];
    cbv zeta in *; [rewrite Hev; eauto |].
  rewrite Hn in Hn'. injection Hn' as <- <-.
  destruct Hrest as [(e & _ & He & Hev)|Hrest];
    [rewrite Hev; split; [eauto | repeat constructor] |].
  set (fs1 := disk (makedirs h (install_path_of h o) (exist_ok o) fs)) in *.
  assert (Hconda : Forall (fun e => is_pip_download e = false /\ is_write e = false)
                     (events (conda_phase h o (install_path_of h o) cd fs1))).
  { eapply Forall_impl; [apply conda_phase_events | intros e [Hw Hp]; split; assumption]. }
  destruct Hrest as [(e & _ & He & Hev)|(listing & _ & Hrest)];
    [rewrite Hev; split; [eauto | constructor; [split; reflexivity | exact Hconda]] |].
  pose proof (pip_phase_outcome h o (install_path_of h o) pip
                (disk (conda_phase h o (install_path_of h o) cd fs1)) Htruthy) as Hout.
  cbv zeta in Hout. rewrite Hargs in Hout. destruct Hout as (Hpe & e' & Hpr).
  destruct Hrest as [(e & _ & He & Hev)|(Hpp & _)]; [| congruence].
  rewrite Hev, Hpe. split; [eauto |].
  constructor; [split; reflexivity |]. apply Forall_app. split; [exact Hconda |].
  repeat constructor.
Qed.

Lemma unusable_pip_dependencies_abort_witness :
  (exists e,
     res (generate_offline_install_package Sample.linux
            (Mapping [("pip", PList [PStr "flask"; PInt 3])]) default_options ∅)
     = inl e)
  /\ Forall (fun e => is_pip_download e = false /\ is_write e = false)
       (events (generate_offline_install_package Sample.linux
                  (Mapping [("pip", PList [PStr "flask"; PInt 3])])
                  default_options ∅)).
Proof.
  apply (unusable_pip_dependencies_abort Sample.linux
           (Mapping [("pip", PList [PStr "flask"; PInt 3])]) default_options ∅
           PNone (PList [PStr "flask"; PInt 3])).
  - reflexivity.
  - reflexivity.
  - reflexivity.
Defined.
